(** * SEN55 driver: command/response codec over I2C

    A shallow embedding of the SEN55 library (sen55.h / sen55.cpp):
    the CRC-8 routine, the send-buffer builder [I2C_fill_buffer], the
    receive decoder [I2C_ReadToBuffer], the byte conversions and the
    public operations built on them, followed by the properties of the
    protocol layer.

    Conventions.
    - A C integer is a [Z]; every truncation the C code performs
      (assignment to [uint8_t], [int16_t], the [& 0xff] masks) is
      written out.  Buffer indices and byte counts are [nat].
    - The class members are the fields of the record [SEN55]; every
      member function is a state transformer in the monad [M].
    - The I2C port and [delay] are outside the library.  They are
      modelled by three extra fields of the state: the bytes waiting in
      the port's receive buffer, the answers the device will give to
      the coming read requests, and the log of everything the driver
      did on the outside (bus writes, bus read requests, delays).
    - [DebugPrintf] only prints on the debug serial line and is left
      out. *)

From Stdlib Require Import ZArith List Bool Lia QArith.
From stdpp Require Import base list.
Import ListNotations.
Local Open Scope Z_scope.

(** ** Integer types *)

Definition to_uint8 (z : Z) : Z := z mod 256.
Definition to_uint16 (z : Z) : Z := z mod 65536.
Definition to_uint32 (z : Z) : Z := z mod 4294967296.
(** conversion to [int16_t]: two's complement wrap-around *)
Definition to_int16 (z : Z) : Z := (z + 32768) mod 65536 - 32768.

(** [buf[i]] for a byte array held as a list; reading past the end is
    undefined in C and yields 0 here. *)
Definition rd (buf : list Z) (i : nat) : Z := default 0 (buf !! i).

(** ** Constants of sen55.h *)

Definition DRIVER_MAJOR : Z := 1.
Definition DRIVER_MINOR : Z := 0.

Definition STATUS_OK_55 : Z := 0.
Definition STATUS_SPEED_ERROR_55 : Z := 0x01.
Definition STATUS_LASER_ERROR_55 : Z := 0x02.
Definition STATUS_FAN_ERROR_55 : Z := 0x04.
Definition STATUS_GAS_ERROR_55 : Z := 0x08.
Definition STATUS_RHT_ERROR_55 : Z := 0x10.
Definition STATUS_FAN_CLEAN_ACTIVE_55 : Z := 0x20.

Definition SEN55_START_MEASUREMENT : Z := 0x0021.
Definition SEN55_START_RHTG_MEASUREMENT : Z := 0x0037.
Definition SEN55_STOP_MEASUREMENT : Z := 0x0104.
Definition SEN55_READ_DATA_RDY_FLAG : Z := 0x0202.
Definition SEN55_READ_MEASURED_VALUE : Z := 0x03C4.
Definition SEN55_READ_MEASURED_VALUE_PM : Z := 0x0413.
Definition SEN55_TEMP_COMP : Z := 0x60B2.
Definition SEN55_WARM_START_PARAM : Z := 0x60C6.
Definition SEN55_VOC_TUNING : Z := 0x60D0.
Definition SEN55_NOX_TUNING : Z := 0x60E1.
Definition SEN55_RHT_ACCEL : Z := 0x60F7.
Definition SEN55_VOC_ALGO : Z := 0x6181.
Definition SEN55_START_FAN_CLEANING : Z := 0x5607.
Definition SEN55_AUTO_CLEANING_INTERVAL : Z := 0x8004.
Definition SEN55_READ_PRODUCT_NAME : Z := 0xD014.
Definition SEN55_READ_SERIAL_NUMBER : Z := 0xD033.
Definition SEN55_READ_VERSION : Z := 0xD100.
Definition SEN55_READ_DEVICE_REGISTER : Z := 0xD206.
Definition SEN55_CLEAR_DEVICE_REGISTER : Z := 0xD210.
Definition SEN55_RESET : Z := 0xD304.

(** write helpers: codes that only select a case of [I2C_fill_buffer] *)
Definition SEN55_SET_AUTO_CLEANING_INTERVAL : Z := 0x55FF.
Definition SEN55_SET_VOC_ALGO : Z := 0x55FE.
Definition SEN55_SET_NOX_TUNING : Z := 0x55FD.
Definition SEN55_SET_TEMP_COMP : Z := 0x55FC.
Definition SEN55_SET_WARM_START_PARAM : Z := 0x55FB.
Definition SEN55_SET_RHT_ACCEL : Z := 0x55FA.
Definition SEN55_SET_VOC_TUNING : Z := 0x55F9.

Definition SEN55_ERR_OK : Z := 0x00.
Definition SEN55_ERR_DATALENGTH : Z := 0x01.
Definition SEN55_ERR_UNKNOWNCMD : Z := 0x02.
Definition SEN55_ERR_ACCESSRIGHT : Z := 0x03.
Definition SEN55_ERR_PARAMETER : Z := 0x04.
Definition SEN55_ERR_OUTOFRANGE : Z := 0x28.
Definition SEN55_ERR_CMDSTATE : Z := 0x43.
Definition SEN55_ERR_TIMEOUT : Z := 0x50.
Definition SEN55_ERR_PROTOCOL : Z := 0x51.
Definition SEN55_ERR_FIRMWARE : Z := 0x88.

Definition MAXBUFLENGTH : nat := 50.
Definition SEN55_ADDRESS : Z := 0x69.
Definition VOC_ALO_SIZE : nat := 8.

(** ** Checksum *)

(** One pass of the inner loop of [I2C_calc_CRC]: the assignment back
    to the [uint8_t] variable truncates to eight bits. *)
Definition crc_bit (crc : Z) : Z :=
  if negb (Z.land crc 0x80 =? 0)
  then to_uint8 (Z.lxor (Z.shiftl crc 1) 0x31)
  else to_uint8 (Z.shiftl crc 1).

(** [for (bit = 8; bit > 0; --bit)] *)
Definition crc_byte (crc d : Z) : Z :=
  Nat.iter 8 crc_bit (to_uint8 (Z.lxor crc d)).

(** [I2C_calc_CRC(data)] with [data[0] = d0], [data[1] = d1] *)
Definition I2C_calc_CRC (d0 d1 : Z) : Z :=
  fold_left crc_byte [d0; d1] 0xFF.

(** [I2C_calc_CRC(&buf[st])] *)
Definition I2C_calc_CRC_at (buf : list Z) (st : nat) : Z :=
  I2C_calc_CRC (rd buf st) (rd buf (S st)).

(** ** Structures of sen55.h *)

(** [struct sen_values] and [struct sen_values_pm]: the [float] fields
    are kept as the exact quotient the code computes before rounding. *)
Record sen_values := mk_sen_values {
  MassPM1 : Q; MassPM2 : Q; MassPM4 : Q; MassPM10 : Q;
  Hum : Q; Temp : Q; VOC : Q; NOX : Q }.

Record sen_values_pm := mk_sen_values_pm {
  pm_MassPM1 : Q; pm_MassPM2 : Q; pm_MassPM4 : Q; pm_MassPM10 : Q;
  NumPM0 : Q; NumPM1 : Q; NumPM2 : Q; NumPM4 : Q; NumPM10 : Q;
  PartSize : Q }.

Record sen_version := mk_sen_version {
  F_major : Z; F_minor : Z; F_debug : bool;
  H_major : Z; H_minor : Z; P_major : Z; P_minor : Z;
  L_major : Z; L_minor : Z }.

(** [struct sen_xox]: six [int16_t] fields *)
Record sen_xox := mk_sen_xox {
  IndexOffset : Z; LearnTimeOffsetHours : Z; LearnTimeGainHours : Z;
  GateMaxDurationMin : Z; stdInitial : Z; GainFactor : Z }.

(** [struct sen_tmp_comp]: [int16_t offset], [int16_t slope],
    [uint16_t time] *)
Record sen_tmp_comp := mk_sen_tmp_comp {
  offset : Z; slope : Z; time : Z }.

(** ** The outside world *)

(** What the driver does on the outside, in the order it does it. *)
Inductive Event :=
| EvWrite (addr : Z) (frame : list Z)
    (* beginTransmission(addr); write(frame); endTransmission() *)
| EvRequest (addr : Z) (quantity : nat)        (* requestFrom(addr, quantity) *)
| EvDelay (ms : Z)                             (* delay(ms) *)
| EvWireBegin.                                 (* _i2cPort->begin() *)

(** ** The session object *)

Record SEN55 := mkSEN55 {
  _Receive_BUF : list Z;         (* uint8_t [MAXBUFLENGTH] *)
  _Send_BUF : list Z;            (* uint8_t [MAXBUFLENGTH] *)
  _Receive_BUF_Length : nat;
  _Send_BUF_Length : nat;
  _started : bool;
  _FW_Major : Z;
  _FW_Minor : Z;
  data32 : Z;                    (* uint32_t, pass data to I2C_fill_buffer *)
  data16 : Z;                    (* uint16_t *)
  (* the I2C port and the clock *)
  wire_rx : list Z;              (* bytes waiting in the port: available()/read() *)
  device : list (list Z);        (* the device's answers to the coming read requests *)
  trace : list Event
}.

Definition set_Receive_BUF (v : list Z) (s : SEN55) : SEN55 :=
  mkSEN55 v (_Send_BUF s) (_Receive_BUF_Length s) (_Send_BUF_Length s)
    (_started s) (_FW_Major s) (_FW_Minor s) (data32 s) (data16 s)
    (wire_rx s) (device s) (trace s).
Definition set_Send_BUF (v : list Z) (s : SEN55) : SEN55 :=
  mkSEN55 (_Receive_BUF s) v (_Receive_BUF_Length s) (_Send_BUF_Length s)
    (_started s) (_FW_Major s) (_FW_Minor s) (data32 s) (data16 s)
    (wire_rx s) (device s) (trace s).
Definition set_Receive_BUF_Length (v : nat) (s : SEN55) : SEN55 :=
  mkSEN55 (_Receive_BUF s) (_Send_BUF s) v (_Send_BUF_Length s)
    (_started s) (_FW_Major s) (_FW_Minor s) (data32 s) (data16 s)
    (wire_rx s) (device s) (trace s).
Definition set_Send_BUF_Length (v : nat) (s : SEN55) : SEN55 :=
  mkSEN55 (_Receive_BUF s) (_Send_BUF s) (_Receive_BUF_Length s) v
    (_started s) (_FW_Major s) (_FW_Minor s) (data32 s) (data16 s)
    (wire_rx s) (device s) (trace s).
Definition set_started (v : bool) (s : SEN55) : SEN55 :=
  mkSEN55 (_Receive_BUF s) (_Send_BUF s) (_Receive_BUF_Length s) (_Send_BUF_Length s)
    v (_FW_Major s) (_FW_Minor s) (data32 s) (data16 s)
    (wire_rx s) (device s) (trace s).
Definition set_FW (major minor : Z) (s : SEN55) : SEN55 :=
  mkSEN55 (_Receive_BUF s) (_Send_BUF s) (_Receive_BUF_Length s) (_Send_BUF_Length s)
    (_started s) major minor (data32 s) (data16 s)
    (wire_rx s) (device s) (trace s).
Definition set_data16 (v : Z) (s : SEN55) : SEN55 :=
  mkSEN55 (_Receive_BUF s) (_Send_BUF s) (_Receive_BUF_Length s) (_Send_BUF_Length s)
    (_started s) (_FW_Major s) (_FW_Minor s) (data32 s) v
    (wire_rx s) (device s) (trace s).
Definition set_wire_rx (v : list Z) (s : SEN55) : SEN55 :=
  mkSEN55 (_Receive_BUF s) (_Send_BUF s) (_Receive_BUF_Length s) (_Send_BUF_Length s)
    (_started s) (_FW_Major s) (_FW_Minor s) (data32 s) (data16 s)
    v (device s) (trace s).
Definition set_device (v : list (list Z)) (s : SEN55) : SEN55 :=
  mkSEN55 (_Receive_BUF s) (_Send_BUF s) (_Receive_BUF_Length s) (_Send_BUF_Length s)
    (_started s) (_FW_Major s) (_FW_Minor s) (data32 s) (data16 s)
    (wire_rx s) v (trace s).
Definition log (e : Event) (s : SEN55) : SEN55 :=
  mkSEN55 (_Receive_BUF s) (_Send_BUF s) (_Receive_BUF_Length s) (_Send_BUF_Length s)
    (_started s) (_FW_Major s) (_FW_Minor s) (data32 s) (data16 s)
    (wire_rx s) (device s) (trace s ++ [e]).

(** ** State monad *)

Definition M (A : Type) : Type := SEN55 -> A * SEN55.

#[global] Instance M_ret : MRet M := fun A (x : A) (s : SEN55) => (x, s).
#[global] Instance M_bind : MBind M :=
  fun A B (f : A -> M B) (m : M A) (s : SEN55) => let (a, s') := m s in f a s'.

Definition get {A} (f : SEN55 -> A) : M A := fun s => (f s, s).
Definition modify (f : SEN55 -> SEN55) : M unit := fun s => (tt, f s).

(** [delay(ms)] *)
Definition delay (ms : Z) : M unit := modify (log (EvDelay ms)).

(** The bytes a read request for [quantity] bytes brings in: the next
    answer of the device, cut to the requested quantity. *)
Definition next_answer (quantity : nat) (s : SEN55) : list Z :=
  match device s with
  | [] => []
  | a :: _ => take quantity a
  end.

(** [_i2cPort->requestFrom(addr, quantity)]: the bytes received replace
    the content of the port's receive buffer; their number is
    returned. *)
Definition requestFrom (addr : Z) (quantity : nat) : M nat := fun s =>
  let ans := next_answer quantity s in
  (length ans,
   set_wire_rx ans (set_device (tail (device s)) (log (EvRequest addr quantity) s))).

(** ** Building the send buffer *)

(** The [void *val] argument of [I2C_fill_buffer]: a null pointer (the
    default), a byte table, a tuning structure or a temperature
    compensation structure. *)
Inductive fill_arg :=
| ArgNull
| ArgTable (vv : list Z)
| ArgXox (n : sen_xox)
| ArgTmp (t : sen_tmp_comp).

(** The three casts at the top of [I2C_fill_buffer].  Every caller in
    the library passes the kind of pointer its command expects; a cast
    of another kind is undefined in C and reads zeros here. *)
Definition as_table (val : fill_arg) : list Z :=
  match val with ArgTable vv => vv | _ => [] end.
Definition as_xox (val : fill_arg) : sen_xox :=
  match val with ArgXox n => n | _ => mk_sen_xox 0 0 0 0 0 0 end.
Definition as_tmp (val : fill_arg) : sen_tmp_comp :=
  match val with ArgTmp t => t | _ => mk_sen_tmp_comp 0 0 0 end.

(** One statement of a case of [I2C_fill_buffer].  Every value the
    source stores is masked with [0xff] or is a checksum, so the store
    into the [uint8_t] array does not truncate. *)
Inductive fill_op :=
| Put (b : Z)            (* _Send_BUF[i++] = b; *)
| PutCRC (st : nat).     (* _Send_BUF[i++] = I2C_calc_CRC(&_Send_BUF[st]); *)

Definition fill_step (bi : list Z * nat) (op : fill_op) : list Z * nat :=
  let (buf, i) := bi in
  match op with
  | Put b => (<[i := b]> buf, S i)
  | PutCRC st => (<[i := I2C_calc_CRC_at buf st]> buf, S i)
  end.

Definition fill_ops (ops : list fill_op) (bi : list Z * nat) : list Z * nat :=
  fold_left fill_step ops bi.

(** [x >> 8 & 0xff] and [x & 0xff] *)
Definition MSB (x : Z) : Z := Z.land (Z.shiftr x 8) 0xff.
Definition LSB (x : Z) : Z := Z.land x 0xff.

(** The body of the loop of the [SEN55_SET_VOC_ALGO] case, for one
    value of [j]; the state is [(_Send_BUF, i, k)].
<<
      for (int j = 0, k = 0 ; j < VOC_ALO_SIZE;) {
        _Send_BUF[i++] = vv[j++] & 0xff;
        if (k++ > 2) {
          uint8_t st = i - j;
          _Send_BUF[i++] = I2C_calc_CRC(&_Send_BUF[st]);
          k = 0;
        }
      }
>> *)
Definition voc_algo_body (vv : list Z) (st : list Z * nat * Z) (j : nat)
  : list Z * nat * Z :=
  let '(buf, i, k) := st in
  let buf := <[i := Z.land (rd vv j) 0xff]> buf in
  let i := S i in
  let j := S j in
  if 2 <? k then
    let st := (i - j)%nat in
    let buf := <[i := I2C_calc_CRC_at buf st]> buf in
    (buf, S i, 0)
  else (buf, i, k + 1).

Definition voc_algo_loop (vv : list Z) (bi : list Z * nat) : list Z * nat :=
  fst (fold_left (voc_algo_body vv) (seq 0 VOC_ALO_SIZE) (bi, 0)).

(** The six payload words of the NOx and VOC tuning cases *)
Definition xox_ops (n : sen_xox) : list fill_op :=
  [ Put (MSB (IndexOffset n)); Put (LSB (IndexOffset n)); PutCRC 2;
    Put (MSB (LearnTimeOffsetHours n)); Put (LSB (LearnTimeOffsetHours n)); PutCRC 5;
    Put (MSB (LearnTimeGainHours n)); Put (LSB (LearnTimeGainHours n)); PutCRC 8;
    Put (MSB (GateMaxDurationMin n)); Put (LSB (GateMaxDurationMin n)); PutCRC 11;
    Put (MSB (stdInitial n)); Put (LSB (stdInitial n)); PutCRC 14;
    Put (MSB (GainFactor n)); Put (LSB (GainFactor n)); PutCRC 17 ].

(** [I2C_fill_buffer(cmd, val)] *)
Definition I2C_fill_buffer (cmd : Z) (val : fill_arg) : M unit := fun s =>
  let start := (repeat 0 MAXBUFLENGTH, 0%nat) in   (* memset, i = 0 *)
  let vv := as_table val in
  let n := as_xox val in
  let t := as_tmp val in
  let '(buf, i) :=
    if cmd =? SEN55_SET_AUTO_CLEANING_INTERVAL then
      fill_ops [ Put (MSB SEN55_AUTO_CLEANING_INTERVAL);
                 Put (LSB SEN55_AUTO_CLEANING_INTERVAL);
                 Put (Z.land (Z.shiftr (data32 s) 24) 0xff);
                 Put (Z.land (Z.shiftr (data32 s) 16) 0xff);
                 PutCRC 2;
                 Put (Z.land (Z.shiftr (data32 s) 8) 0xff);
                 Put (Z.land (data32 s) 0xff);
                 PutCRC 5 ] start
    else if cmd =? SEN55_SET_VOC_ALGO then
      voc_algo_loop vv
        (fill_ops [ Put (MSB SEN55_VOC_ALGO); Put (LSB SEN55_VOC_ALGO) ] start)
    else if cmd =? SEN55_SET_NOX_TUNING then
      fill_ops ([ Put (MSB SEN55_NOX_TUNING); Put (LSB SEN55_NOX_TUNING) ]
                  ++ xox_ops n) start
    else if cmd =? SEN55_SET_VOC_TUNING then
      fill_ops ([ Put (MSB SEN55_VOC_TUNING); Put (LSB SEN55_VOC_TUNING) ]
                  ++ xox_ops n) start
    else if cmd =? SEN55_SET_TEMP_COMP then
      fill_ops [ Put (MSB SEN55_TEMP_COMP); Put (LSB SEN55_TEMP_COMP);
                 Put (MSB (offset t)); Put (LSB (offset t)); PutCRC 2;
                 Put (MSB (slope t)); Put (LSB (slope t)); PutCRC 5;
                 Put (MSB (time t)); Put (LSB (time t)); PutCRC 8 ] start
    else if cmd =? SEN55_SET_WARM_START_PARAM then
      fill_ops [ Put (MSB SEN55_WARM_START_PARAM); Put (LSB SEN55_WARM_START_PARAM);
                 Put (MSB (data16 s)); Put (LSB (data16 s)); PutCRC 2 ] start
    else if cmd =? SEN55_SET_RHT_ACCEL then
      fill_ops [ Put (MSB SEN55_RHT_ACCEL); Put (LSB SEN55_RHT_ACCEL);
                 Put (MSB (data16 s)); Put (LSB (data16 s)); PutCRC 2 ] start
    else
      fill_ops [ Put (MSB cmd); Put (LSB cmd) ] start
  in
  (tt, set_Send_BUF_Length i (set_Send_BUF buf s)).

(** ** Bus transactions *)

(** [I2C_SetPointer()] *)
Definition I2C_SetPointer : M Z := fun s =>
  if (_Send_BUF_Length s =? 0)%nat then (SEN55_ERR_DATALENGTH, s)
  else
    (SEN55_ERR_OK,
     log (EvWrite SEN55_ADDRESS (take (_Send_BUF_Length s) (_Send_BUF s))) s).

(** [_Receive_BUF[_Receive_BUF_Length++] = b;]  The buffer has
    [MAXBUFLENGTH] bytes; a store past its end is undefined in C and
    leaves the list as it is. *)
Definition push_rx (b : Z) (s : SEN55) : SEN55 :=
  set_Receive_BUF_Length (S (_Receive_BUF_Length s))
    (set_Receive_BUF (<[_Receive_BUF_Length s := b]> (_Receive_BUF s)) s).

(** How the [while (_i2cPort->available())] loop of [I2C_ReadToBuffer]
    is left: by one of its [return] statements, or by [break] or the
    end of the pending bytes with the local [i] and [data[3]]. *)
Inductive loop_exit :=
| Return (ret : Z)
| Leave (i : nat) (data : list Z).

(** The loop itself, one byte of the port per iteration.  The port
    holds bytes, so [data[i++] = _i2cPort->read()] stores them as they
    are.  The bytes still pending are written back to the state when
    the loop is left. *)
Fixpoint read_loop (count : nat) (chk_zero : bool) (rx : list Z)
    (i : nat) (data : list Z) (s : SEN55) : loop_exit * SEN55 :=
  match rx with
  | [] => (Leave i data, set_wire_rx [] s)
  | b :: rx =>
      let data := <[i := b]> data in
      let i := S i in
      if (i =? 3)%nat then
        if negb (rd data 2 =? I2C_calc_CRC_at data 0) then
          (Return SEN55_ERR_PROTOCOL, set_wire_rx rx s)
        else
          let s := push_rx (rd data 1) (push_rx (rd data 0) s) in
          let i := 0%nat in
          if chk_zero && (rd data 0 =? 0) && (rd data 1 =? 0) then
            (* while (available()) read(); return OK *)
            (Return SEN55_ERR_OK, set_wire_rx [] s)
          else if (count <=? _Receive_BUF_Length s)%nat then
            (Leave i data, set_wire_rx rx s)                     (* break *)
          else read_loop count chk_zero rx i data s
      else read_loop count chk_zero rx i data s
  end.

Section Platform.

(** [MAX_32_TO_EXPECT] is defined on AVR boards only. *)
Variable MAX_32_TO_EXPECT : bool.

(** the number of bytes [I2C_ReadToBuffer] asks for; [exp_cnt] is a
    [uint8_t] *)
Definition exp_cnt (count : nat) : nat :=
  let e := ((count / 2 * 3) mod 256)%nat in
  if MAX_32_TO_EXPECT && (32 <? e)%nat then 32%nat else e.

(** [I2C_ReadToBuffer(count, chk_zero)] *)
Definition I2C_ReadToBuffer (count : nat) (chk_zero : bool) : M Z :=
  modify (set_Receive_BUF_Length 0) ;;
  rec_cnt ← requestFrom SEN55_ADDRESS (exp_cnt count) ;
  if negb (rec_cnt =? exp_cnt count)%nat then mret SEN55_ERR_PROTOCOL
  else fun s =>
    let (ex, s) := read_loop count chk_zero (wire_rx s) 0 [0; 0; 0] s in
    match ex with
    | Return ret => (ret, s)
    | Leave i data =>
        (* if (i != 0) while (j < i) _Receive_BUF[...++] = data[j++]; *)
        let s := fold_left (fun s j => push_rx (rd data j) s) (seq 0 i) s in
        if (_Receive_BUF_Length s =? 0)%nat then (SEN55_ERR_PROTOCOL, s)
        else if (_Receive_BUF_Length s =? count)%nat then (SEN55_ERR_OK, s)
        else (SEN55_ERR_DATALENGTH, s)
    end.

(** [I2C_SetPointer_Read(cnt, chk_zero)] *)
Definition I2C_SetPointer_Read (cnt : nat) (chk_zero : bool) : M Z :=
  ret ← I2C_SetPointer ;
  if negb (ret =? SEN55_ERR_OK) then mret ret
  else
    delay 5 ;;
    I2C_ReadToBuffer cnt chk_zero.

(** ** Conversion routines *)

(** [byte_to_U32(x)]: the four bytes are stored in reverse order in the
    array of the union [ByteToU32_55], whose [value] is then read on a
    little-endian machine. *)
Definition byte_to_U32 (x : nat) (s : SEN55) : Z :=
  let array :=
    fold_left (fun a i => <[(3 - i)%nat := rd (_Receive_BUF s) (x + i)]> a)
              (seq 0 4) [0; 0; 0; 0] in
  rd array 0 + Z.shiftl (rd array 1) 8 + Z.shiftl (rd array 2) 16
    + Z.shiftl (rd array 3) 24.

(** [byte_to_Uint16_t(x)] *)
Definition byte_to_Uint16_t (x : nat) (s : SEN55) : Z :=
  let conv := to_uint16 (Z.shiftl (rd (_Receive_BUF s) x) 8) in
  to_uint16 (Z.lor conv (rd (_Receive_BUF s) (x + 1))).

(** [byte_to_int16_t(x)] *)
Definition byte_to_int16_t (x : nat) (s : SEN55) : Z :=
  let conv := to_int16 (Z.shiftl (rd (_Receive_BUF s) x) 8) in
  to_int16 (Z.lor conv (rd (_Receive_BUF s) (x + 1))).

(** ** Operations

    A pointer argument that the function writes through is modelled by
    the value it points to on entry; the value it points to on return
    is part of the result. *)

(** [Instruct(type)] *)
Definition Instruct (type : Z) : M bool :=
  started ← get _started ;
  if (type =? SEN55_START_FAN_CLEANING) && negb started then mret false
  else
    I2C_fill_buffer type ArgNull ;;
    ret ← I2C_SetPointer ;
    if ret =? SEN55_ERR_OK then
      (if (type =? SEN55_START_MEASUREMENT) || (type =? SEN55_START_RHTG_MEASUREMENT)
       then modify (set_started true) ;; delay 1000
       else if type =? SEN55_STOP_MEASUREMENT
       then modify (set_started false)
       else if type =? SEN55_RESET
       then modify (set_started false) ;;
            delay 500 ;; modify (log EvWireBegin) ;; delay 500
       else mret tt) ;;
      mret true
    else mret false.

Definition reset : M bool := Instruct SEN55_RESET.
Definition start : M bool := Instruct SEN55_START_MEASUREMENT.
Definition startRHTG : M bool := Instruct SEN55_START_RHTG_MEASUREMENT.
Definition stop : M bool := Instruct SEN55_STOP_MEASUREMENT.
Definition clean : M bool := Instruct SEN55_START_FAN_CLEANING.

(** [GetVersion(v)] *)
Definition GetVersion (v : sen_version) : M (Z * sen_version) :=
  let v := mk_sen_version 0 0 false 0 0 0 0 0 0 in           (* memset *)
  I2C_fill_buffer SEN55_READ_VERSION ArgNull ;;
  ret ← I2C_SetPointer_Read 8 false ;
  if ret =? SEN55_ERR_OK then
    buf ← get _Receive_BUF ;
    let v := mk_sen_version (rd buf 0) (rd buf 1) (negb (rd buf 2 =? 0))
               (rd buf 3) (rd buf 4) (rd buf 5) (rd buf 6)
               DRIVER_MAJOR DRIVER_MINOR in
    modify (set_FW (F_major v) (F_minor v)) ;;
    mret (ret, v)
  else mret (ret, v).

(** [probe()] *)
Definition probe : M bool :=
  r ← GetVersion (mk_sen_version 0 0 false 0 0 0 0 0 0) ;
  mret (fst r =? SEN55_ERR_OK).

(** [FWCheck(major, minor)] *)
Definition FWCheck (major minor : Z) : M bool :=
  fw ← get _FW_Major ;
  ok ← (if fw =? 0 then probe else mret true) ;
  if negb ok then mret false
  else
    fw_major ← get _FW_Major ;
    fw_minor ← get _FW_Minor ;
    if (fw_major <? major) || (fw_minor <? minor) then mret false
    else mret true.

(** the decoding at the end of [GetStatusReg], from [_Receive_BUF[1]]
    and [_Receive_BUF[3]]; [flag b m v] is [if (b & m) status |= v] *)
Definition flag (b mask v status : Z) : Z :=
  if negb (Z.land b mask =? 0) then Z.lor status v else status.

Definition status_errors (b1 b3 : Z) : Z :=
  flag b3 0x10 STATUS_FAN_ERROR_55
    (flag b3 0x20 STATUS_LASER_ERROR_55
      (flag b3 0x40 STATUS_RHT_ERROR_55
        (flag b3 0x80 STATUS_GAS_ERROR_55
          (flag b1 0x20 STATUS_SPEED_ERROR_55 STATUS_OK_55)))).

(** [GetStatusReg(status)] *)
Definition GetStatusReg (status : Z) : M (Z * Z) :=
  let status := STATUS_OK_55 in
  fw_ok ← FWCheck 2 0 ;
  if negb fw_ok then mret (SEN55_ERR_FIRMWARE, status)
  else
    I2C_fill_buffer SEN55_READ_DEVICE_REGISTER ArgNull ;;
    ret ← I2C_SetPointer_Read 4 false ;
    I2C_fill_buffer SEN55_CLEAR_DEVICE_REGISTER ArgNull ;;
    I2C_SetPointer ;;
    if negb (ret =? SEN55_ERR_OK) then mret (ret, status)
    else
      buf ← get _Receive_BUF ;
      let status := status_errors (rd buf 1) (rd buf 3) in
      if negb (status =? STATUS_OK_55) then mret (SEN55_ERR_OUTOFRANGE, status)
      else
        let status :=
          if negb (Z.land (rd buf 1) 0x08 =? 0)
          then STATUS_FAN_CLEAN_ACTIVE_55 else status in
        mret (SEN55_ERR_OK, status).

(** the copy loop of [Get_Device_info]:
    [for (i = 0; i < len; i++) { ser[i] = _Receive_BUF[i]; if (ser[i] == 0) break; }] *)
Fixpoint copy_info (buf : list Z) (n i : nat) (ser : list Z) : list Z :=
  match n with
  | O => ser
  | S n =>
      let ser := <[i := rd buf i]> ser in
      if rd buf i =? 0 then ser else copy_info buf n (S i) ser
  end.

(** [Get_Device_info(type, ser, len)] *)
Definition Get_Device_info (type : Z) (ser : list Z) (len : nat) : M (Z * list Z) :=
  ret ← (if (type =? SEN55_READ_SERIAL_NUMBER) || (type =? SEN55_READ_PRODUCT_NAME)
         then I2C_fill_buffer type ArgNull ;; I2C_SetPointer_Read len true
         else mret SEN55_ERR_PARAMETER) ;
  if ret =? SEN55_ERR_OK then
    buf ← get _Receive_BUF ;
    mret (ret, copy_info buf len 0 ser)
  else mret (ret, ser).

Definition GetSerialNumber (ser : list Z) (len : nat) : M (Z * list Z) :=
  Get_Device_info SEN55_READ_SERIAL_NUMBER ser len.
Definition GetProductName (ser : list Z) (len : nat) : M (Z * list Z) :=
  Get_Device_info SEN55_READ_PRODUCT_NAME ser len.

(** [SetAutoCleanInt(val)] *)
Definition SetAutoCleanInt (val : Z) : M Z :=
  started ← get _started ;
  stopped ← (if started then stop else mret true) ;
  if negb stopped then mret SEN55_ERR_CMDSTATE
  else
    let save_started : bool := started in
    I2C_fill_buffer SEN55_SET_AUTO_CLEANING_INTERVAL ArgNull ;;
    ret ← I2C_SetPointer ;
    if ret =? SEN55_ERR_OK then
      r ← (if save_started then start else mret true) ;
      if negb r then mret SEN55_ERR_PROTOCOL else mret SEN55_ERR_OK
    else mret SEN55_ERR_PROTOCOL.

(** [GetWarmStart(val)] *)
Definition GetWarmStart (val : Z) : M (Z * Z) :=
  I2C_fill_buffer SEN55_WARM_START_PARAM ArgNull ;;
  ret ← I2C_SetPointer_Read 2 false ;
  val ← get (byte_to_Uint16_t 0) ;
  mret (ret, val).

(** [SetWarmStart(val)] *)
Definition SetWarmStart (val : Z) : M Z :=
  modify (set_data16 val) ;;
  I2C_fill_buffer SEN55_SET_WARM_START_PARAM ArgNull ;;
  I2C_SetPointer.

(** [GetRHTAccelMode(val)] *)
Definition GetRHTAccelMode (val : Z) : M (Z * Z) :=
  I2C_fill_buffer SEN55_RHT_ACCEL ArgNull ;;
  ret ← I2C_SetPointer_Read 2 false ;
  val ← get (byte_to_Uint16_t 0) ;
  mret (ret, val).

(** [SetRHTAccelMode(val)] *)
Definition SetRHTAccelMode (val : Z) : M Z :=
  modify (set_data16 val) ;;
  I2C_fill_buffer SEN55_SET_RHT_ACCEL ArgNull ;;
  I2C_SetPointer.

(** [GetAutoCleanInt(val)] *)
Definition GetAutoCleanInt (val : Z) : M (Z * Z) :=
  I2C_fill_buffer SEN55_AUTO_CLEANING_INTERVAL ArgNull ;;
  ret ← I2C_SetPointer_Read 4 false ;
  val ← get (byte_to_U32 0) ;
  mret (ret, val).

(** [GetVocAlgorithmState(table, tablesize)] *)
Definition GetVocAlgorithmState (table : list Z) (tablesize : nat) : M (Z * list Z) :=
  if (tablesize <? VOC_ALO_SIZE)%nat then mret (SEN55_ERR_PARAMETER, table)
  else
    I2C_fill_buffer SEN55_VOC_ALGO ArgNull ;;
    ret ← I2C_SetPointer_Read VOC_ALO_SIZE false ;
    buf ← get _Receive_BUF ;
    mret (ret, fold_left (fun t i => <[i := rd buf i]> t) (seq 0 VOC_ALO_SIZE) table).

(** the six assignments of [GetNoxAlgorithm] and [GetVocAlgorithm] *)
Definition read_xox (s : SEN55) : sen_xox :=
  mk_sen_xox (byte_to_int16_t 0 s) (byte_to_int16_t 2 s) (byte_to_int16_t 4 s)
             (byte_to_int16_t 6 s) (byte_to_int16_t 8 s) (byte_to_int16_t 10 s).

(** [GetNoxAlgorithm(nox)] *)
Definition GetNoxAlgorithm (nox : sen_xox) : M (Z * sen_xox) :=
  I2C_fill_buffer SEN55_NOX_TUNING ArgNull ;;
  ret ← I2C_SetPointer_Read 12 false ;
  nox ← get read_xox ;
  mret (ret, nox).

(** [GetVocAlgorithm(voc)] *)
Definition GetVocAlgorithm (voc : sen_xox) : M (Z * sen_xox) :=
  I2C_fill_buffer SEN55_VOC_TUNING ArgNull ;;
  ret ← I2C_SetPointer_Read 12 false ;
  voc ← get read_xox ;
  mret (ret, voc).

(** [SetVocAlgorithmState(table, tablesize)] *)
Definition SetVocAlgorithmState (table : list Z) (tablesize : nat) : M Z :=
  if (tablesize <? VOC_ALO_SIZE)%nat then mret SEN55_ERR_PARAMETER
  else
    I2C_fill_buffer SEN55_SET_VOC_ALGO (ArgTable table) ;;
    I2C_SetPointer.

(** [if (x > hi || x < lo) x = dflt;] *)
Definition limit (x hi lo dflt : Z) : Z :=
  if (hi <? x) || (x <? lo) then dflt else x.

(** [SetNoxAlgorithm(nox)] *)
Definition SetNoxAlgorithm (nox : sen_xox) : M (Z * sen_xox) :=
  let nox :=
    mk_sen_xox (limit (IndexOffset nox) 250 1 1)
               (limit (LearnTimeOffsetHours nox) 1000 1 12)
               12
               (limit (GateMaxDurationMin nox) 3000 1 720)
               50
               (limit (GainFactor nox) 1000 1 230) in
  I2C_fill_buffer SEN55_SET_NOX_TUNING (ArgXox nox) ;;
  ret ← I2C_SetPointer ;
  mret (ret, nox).

(** [SetVocAlgorithm(voc)] *)
Definition SetVocAlgorithm (voc : sen_xox) : M (Z * sen_xox) :=
  let voc :=
    mk_sen_xox (limit (IndexOffset voc) 250 1 100)
               (limit (LearnTimeOffsetHours voc) 1000 1 12)
               (limit (LearnTimeGainHours voc) 1000 1 12)
               (limit (limit (GateMaxDurationMin voc) 3000 1 180) 5000 10 50)
               (stdInitial voc)
               (limit (GainFactor voc) 1000 1 230) in
  I2C_fill_buffer SEN55_SET_VOC_TUNING (ArgXox voc) ;;
  ret ← I2C_SetPointer ;
  mret (ret, voc).

(** [GetTmpComp(tmp)]: [/] on C integers truncates towards zero *)
Definition GetTmpComp (tmp : sen_tmp_comp) : M (Z * sen_tmp_comp) :=
  I2C_fill_buffer SEN55_TEMP_COMP ArgNull ;;
  ret ← I2C_SetPointer_Read 6 false ;
  s ← get id ;
  let tmp := mk_sen_tmp_comp (to_int16 (byte_to_int16_t 0 s ÷ 200))
                             (to_int16 (byte_to_int16_t 2 s ÷ 1000))
                             (byte_to_Uint16_t 4 s) in
  mret (ret, tmp).

(** [SetTmpComp(tmp)] *)
Definition SetTmpComp (tmp : sen_tmp_comp) : M (Z * sen_tmp_comp) :=
  let tmp := mk_sen_tmp_comp (to_int16 (offset tmp * 200))
                             (to_int16 (slope tmp * 1000))
                             (time tmp) in
  I2C_fill_buffer SEN55_SET_TEMP_COMP (ArgTmp tmp) ;;
  ret ← I2C_SetPointer ;
  mret (ret, tmp).

(** [(float) raw / (float) scale] *)
Definition scaled (raw : Z) (scale : positive) : Q := Qmake raw scale.

(** [GetValues(v, laser)] *)
Definition GetValues (v : sen_values) (laser : bool) : M (Z * sen_values) :=
  started ← get _started ;
  ok ← (if negb started then
          ok ← (if laser then start else startRHTG) ;
          if negb ok then mret false
          else delay 100 ;; mret true
        else mret true) ;
  if negb ok then mret (SEN55_ERR_CMDSTATE, v)
  else
    I2C_fill_buffer SEN55_READ_MEASURED_VALUE ArgNull ;;
    ret ← I2C_SetPointer_Read 16 false ;
    if negb (ret =? SEN55_ERR_OK) then mret (ret, v)
    else
      s ← get id ;
      let mass x := if laser then scaled (byte_to_Uint16_t x s) 10 else 0%Q in
      mret (SEN55_ERR_OK,
            mk_sen_values (mass 0%nat) (mass 2%nat) (mass 4%nat) (mass 6%nat)
              (scaled (byte_to_int16_t 8 s) 100)
              (scaled (byte_to_int16_t 10 s) 200)
              (scaled (byte_to_int16_t 12 s) 10)
              (scaled (byte_to_int16_t 14 s) 10)).

(** [GetValuesPM(v)] *)
Definition GetValuesPM (v : sen_values_pm) : M (Z * sen_values_pm) :=
  started ← get _started ;
  ok ← (if negb started then start else mret true) ;
  if negb ok then mret (SEN55_ERR_CMDSTATE, v)
  else
    I2C_fill_buffer SEN55_READ_MEASURED_VALUE_PM ArgNull ;;
    ret ← I2C_SetPointer_Read 20 false ;
    if negb (ret =? SEN55_ERR_OK) then mret (ret, v)
    else
      s ← get id ;
      mret (SEN55_ERR_OK,
            mk_sen_values_pm
              (scaled (byte_to_Uint16_t 0 s) 10) (scaled (byte_to_Uint16_t 2 s) 10)
              (scaled (byte_to_Uint16_t 4 s) 10) (scaled (byte_to_Uint16_t 6 s) 10)
              (scaled (byte_to_Uint16_t 8 s) 10) (scaled (byte_to_Uint16_t 10 s) 10)
              (scaled (byte_to_Uint16_t 12 s) 10) (scaled (byte_to_Uint16_t 14 s) 10)
              (scaled (byte_to_Uint16_t 16 s) 10) (scaled (byte_to_Uint16_t 18 s) 1000)).

(** [Check_data_ready()] *)
Definition Check_data_ready : M bool :=
  I2C_fill_buffer SEN55_READ_DATA_RDY_FLAG ArgNull ;;
  ret ← I2C_SetPointer_Read 2 false ;
  if negb (ret =? SEN55_ERR_OK) then mret false
  else
    buf ← get _Receive_BUF ;
    mret (rd buf 1 =? 1).

End Platform.

(** The session as the constructor leaves it, on a port the device
    will answer with [answers].  The constructor does not initialise
    the two buffers, [data32] and [data16]; their content is a
    parameter here. *)
Definition new_SEN55 (rbuf sbuf : list Z) (d32 d16 : Z) (answers : list (list Z))
  : SEN55 :=
  mkSEN55 rbuf sbuf 0 0 false 0 0 d32 d16 [] answers [].

(** * Properties *)

(** ** Vocabulary of the statements *)

(** the frames of the bus writes of a log, in order *)
Definition frames_sent (tr : list Event) : list (list Z) :=
  flat_map (fun e => match e with EvWrite _ f => [f] | _ => [] end) tr.

(** A frame with a payload of [W] words in the wire format: two opcode
    bytes, then for each word its two bytes and their checksum. *)
Definition frame_okb (W : nat) (frame : list Z) : bool :=
  (length frame =? 2 + 3 * W)%nat
  && forallb (fun k => rd frame (2 + 3 * k + 2) =? I2C_calc_CRC_at frame (2 + 3 * k))
             (seq 0 W).

(** the frame that writes the auto-clean interval [v]: opcode 0x8004,
    the four bytes of [v] from the most significant one, a checksum
    after each pair *)
Definition auto_clean_frame (v : Z) : list Z :=
  let b3 := Z.land (Z.shiftr v 24) 0xff in
  let b2 := Z.land (Z.shiftr v 16) 0xff in
  let b1 := Z.land (Z.shiftr v 8) 0xff in
  let b0 := Z.land v 0xff in
  [0x80; 0x04; b3; b2; I2C_calc_CRC b3 b2; b1; b0; I2C_calc_CRC b1 b0].

(** a session that has just been constructed, with zeroed memory *)
Definition fresh (answers : list (list Z)) : SEN55 :=
  new_SEN55 (repeat 0 MAXBUFLENGTH) (repeat 0 MAXBUFLENGTH) 0 0 answers.

Ltac run_M := unfold mbind, M_bind, mret, M_ret, get, modify, delay.

(** ** Checksum *)

Lemma crc_bit_range crc : 0 <= crc_bit crc < 256.
Proof.
  unfold crc_bit, to_uint8.
  destruct (negb _); apply Z.mod_pos_bound; lia.
Qed.

Lemma crc_byte_range crc d : 0 <= crc_byte crc d < 256.
Proof.
  unfold crc_byte. change 8%nat with (S 7). rewrite Nat.iter_succ.
  apply crc_bit_range.
Qed.

Lemma I2C_calc_CRC_range d0 d1 : 0 <= I2C_calc_CRC d0 d1 < 256.
Proof.
  unfold I2C_calc_CRC. cbn [fold_left]. apply crc_byte_range.
Qed.

Lemma I2C_calc_CRC_eq d0 d1 :
  I2C_calc_CRC d0 d1 = crc_byte (crc_byte 0xFF d0) d1.
Proof. unfold I2C_calc_CRC. cbn [fold_left]. reflexivity. Qed.

#[local] Opaque I2C_calc_CRC.

Example crc_datasheet_vector : I2C_calc_CRC 0xBE 0xEF = 0x92.
Proof. vm_compute. reflexivity. Qed.

(** C4, as the specification words it, fails: the checksum of the word
    0x00 0x00 is not 0xAC. *)
Lemma crc_of_zero_word_is_not_AC : I2C_calc_CRC 0x00 0x00 <> 0xAC.
Proof. vm_compute. discriminate. Qed.

(** C4 (amended): the checksum routine (CRC-8, polynomial 0x31, initial
    value 0xFF, no final XOR, most significant bit first) applied to
    the bytes 0x00, 0x00 returns 0x81. *)
Theorem crc_of_zero_word : I2C_calc_CRC 0x00 0x00 = 0x81.
Proof. vm_compute. reflexivity. Qed.

(** ** Outbound frames *)

Lemma frames_sent_app t1 t2 :
  frames_sent (t1 ++ t2) = frames_sent t1 ++ frames_sent t2.
Proof. unfold frames_sent. apply flat_map_app. Qed.

(** Whatever its argument, [SetAutoCleanInt] writes the frame of the
    member [data32], between a stop and a start when a measurement was
    running. *)
Lemma SetAutoCleanInt_frame v s :
  frames_sent (trace (snd (SetAutoCleanInt v s))) =
  frames_sent (trace s)
    ++ (if _started s then [[0x01; 0x04]] else [])
    ++ [auto_clean_frame (data32 s)]
    ++ (if _started s then [[0x00; 0x21]] else []).
Proof.
  unfold SetAutoCleanInt, stop, start, Instruct. run_M.
  destruct (_started s) eqn:E; cbn; rewrite !frames_sent_app; cbn.
  - rewrite <- !app_assoc. reflexivity.
  - reflexivity.
Qed.

(** The sibling [SetWarmStart] does pass its argument on: the frame it
    writes carries [val]. *)
Lemma SetWarmStart_frame val s :
  frames_sent (trace (snd (SetWarmStart val s))) =
  frames_sent (trace s)
    ++ [[0x60; 0xC6; MSB val; LSB val; I2C_calc_CRC (MSB val) (LSB val)]].
Proof.
  unfold SetWarmStart. run_M. cbn. rewrite frames_sent_app. reflexivity.
Qed.

(** C1 at a failing input: on a fresh idle session, whose [data32] is
    0, [SetAutoCleanInt 604800] reports success and writes the frame of
    the interval 0, which is not the frame of 604800. *)
Theorem SetAutoCleanInt_ignores_val :
  let (ret, s') := SetAutoCleanInt 604800 (fresh []) in
  ret = SEN55_ERR_OK
  /\ frames_sent (trace s') = [[0x80; 0x04; 0x00; 0x00; 0x81; 0x00; 0x00; 0x81]]
  /\ frames_sent (trace s') = [auto_clean_frame 0]
  /\ auto_clean_frame 604800 = [0x80; 0x04; 0x00; 0x09; 0x09; 0x3A; 0x80; 0xA7]
  /\ frames_sent (trace s') <> [auto_clean_frame 604800].
Proof. vm_compute. repeat (split; [reflexivity |]). discriminate. Qed.
(** ** The frame of the VOC algorithm state *)

(** the frame the wire format asks for, for the eight bytes of a VOC
    algorithm state: four words, each followed by its checksum *)
Definition voc_algo_frame (t0 t1 t2 t3 t4 t5 t6 t7 : Z) : list Z :=
  [0x61; 0x81; t0; t1; I2C_calc_CRC t0 t1; t2; t3; I2C_calc_CRC t2 t3;
   t4; t5; I2C_calc_CRC t4 t5; t6; t7; I2C_calc_CRC t6 t7].

(** The frame [SetVocAlgorithmState] writes for any eight-byte table:
    twelve bytes, with one checksum after the first four data bytes and
    one after the last four, the second one computed over the second
    and third data bytes. *)
Lemma SetVocAlgorithmState_frame t0 t1 t2 t3 t4 t5 t6 t7 s :
  let b x := Z.land x 0xff in
  SetVocAlgorithmState [t0; t1; t2; t3; t4; t5; t6; t7] 8 s =
  (SEN55_ERR_OK,
   log (EvWrite SEN55_ADDRESS
          [0x61; 0x81; b t0; b t1; b t2; b t3; I2C_calc_CRC (b t0) (b t1);
           b t4; b t5; b t6; b t7; I2C_calc_CRC (b t1) (b t2)])
     (snd (I2C_fill_buffer SEN55_SET_VOC_ALGO
             (ArgTable [t0; t1; t2; t3; t4; t5; t6; t7]) s))).
Proof. reflexivity. Qed.

(** C2 at a failing input: for the table 1..8 the frame written has 12
    bytes, not [2 + 3 * 4 = 14]; it is not in the wire format for four
    words, and differs from the frame the format asks for. *)
Theorem SetVocAlgorithmState_frame_malformed :
  let (ret, s') := SetVocAlgorithmState [1; 2; 3; 4; 5; 6; 7; 8] 8 (fresh []) in
  ret = SEN55_ERR_OK
  /\ frames_sent (trace s') = [[0x61; 0x81; 1; 2; 3; 4; 0x17; 5; 6; 7; 8; 0x0B]]
  /\ I2C_calc_CRC 1 2 = 0x17 /\ I2C_calc_CRC 2 3 = 0x0B
  /\ map (@length Z) (frames_sent (trace s')) = [12%nat]
  /\ map (frame_okb 4) (frames_sent (trace s')) = [false]
  /\ frame_okb 4 (voc_algo_frame 1 2 3 4 5 6 7 8) = true
  /\ frames_sent (trace s') <> [voc_algo_frame 1 2 3 4 5 6 7 8].
Proof. vm_compute. repeat (split; [reflexivity |]). discriminate. Qed.

(** ** The receive decoder *)

(** A received group: two data bytes and the checksum byte. *)
Abbreviation group := (Z * Z * Z)%type.

Definition group_ok (g : group) : bool :=
  let '(a, b, c) := g in c =? I2C_calc_CRC a b.
Definition zero_word (g : group) : bool :=
  let '(a, b, _) := g in (a =? 0) && (b =? 0).

(** the bytes of a sequence of groups, and the data bytes among them *)
Definition wire (gs : list group) : list Z :=
  flat_map (fun g : group => let '(a, b, c) := g in [a; b; c]) gs.
Definition payload (gs : list group) : list Z :=
  flat_map (fun g : group => let '(a, b, _) := g in [a; b]) gs.

(** a group the decoder accepts and goes on after *)
Definition passes (chk_zero : bool) (g : group) : bool :=
  group_ok g && negb (chk_zero && zero_word g).

(** the fields the decoder does not touch *)
Definition same_outside (s s' : SEN55) : Prop :=
  _Send_BUF s' = _Send_BUF s /\ _Send_BUF_Length s' = _Send_BUF_Length s
  /\ _started s' = _started s /\ _FW_Major s' = _FW_Major s
  /\ _FW_Minor s' = _FW_Minor s /\ data32 s' = data32 s
  /\ data16 s' = data16 s /\ device s' = device s /\ trace s' = trace s.

Lemma same_outside_refl s : same_outside s s.
Proof. repeat split. Qed.

Lemma same_outside_trans s1 s2 s3 :
  same_outside s1 s2 -> same_outside s2 s3 -> same_outside s1 s3.
Proof. unfold same_outside. intuition congruence. Qed.

Lemma same_outside_push b s : same_outside s (push_rx b s).
Proof. repeat split. Qed.

Lemma same_outside_wire_rx rx s s' :
  same_outside s s' -> same_outside s (set_wire_rx rx s').
Proof. intros H. exact H. Qed.

Lemma read_loop_same_outside count chk_zero rx :
  forall i data s, same_outside s (snd (read_loop count chk_zero rx i data s)).
Proof.
  induction rx as [|b rx IH]; intros i data s; cbn [read_loop].
  - cbn [snd]. apply same_outside_wire_rx, same_outside_refl.
  - repeat match goal with |- context [if ?c then _ else _] => destruct c end;
      cbn [snd]; try apply IH;
      try (eapply same_outside_trans; [|apply IH]);
      try apply same_outside_wire_rx;
      try apply same_outside_refl;
      eapply same_outside_trans; apply same_outside_push.
Qed.

(** One whole group through the loop. *)
Lemma read_loop_group count chk_zero a b c rx x y z s :
  read_loop count chk_zero (a :: b :: c :: rx) 0 [x; y; z] s =
  if negb (group_ok (a, b, c)) then (Return SEN55_ERR_PROTOCOL, set_wire_rx rx s)
  else
    let s' := push_rx b (push_rx a s) in
    if chk_zero && zero_word (a, b, c) then (Return SEN55_ERR_OK, set_wire_rx [] s')
    else if (count <=? _Receive_BUF_Length s')%nat
         then (Leave 0 [a; b; c], set_wire_rx rx s')
         else read_loop count chk_zero rx 0 [a; b; c] s'.
Proof.
  cbn [read_loop Nat.eqb]. unfold I2C_calc_CRC_at, group_ok, zero_word.
  cbn. rewrite andb_assoc. reflexivity.
Qed.

(** the stores of a run of accepted groups *)
Definition push_groups (gs : list group) (s : SEN55) : SEN55 :=
  fold_left (fun s (g : group) => let '(a, b, _) := g in push_rx b (push_rx a s)) gs s.

Lemma push_groups_length gs : forall s,
  _Receive_BUF_Length (push_groups gs s) = (_Receive_BUF_Length s + 2 * length gs)%nat.
Proof.
  induction gs as [|[[a b] c] gs IH]; intros s; cbn [push_groups fold_left length].
  - lia.
  - fold (push_groups gs (push_rx b (push_rx a s))). rewrite IH. cbn. lia.
Qed.

Lemma push_groups_same_outside gs : forall s, same_outside s (push_groups gs s).
Proof.
  induction gs as [|[[a b] c] gs IH]; intros s; cbn [push_groups fold_left].
  - apply same_outside_refl.
  - fold (push_groups gs (push_rx b (push_rx a s))).
    eapply same_outside_trans; [|apply IH].
    eapply same_outside_trans; apply same_outside_push.
Qed.

Lemma rd_insert_ne (buf : list Z) i j x : i <> j -> rd (<[i := x]> buf) j = rd buf j.
Proof. intros H. unfold rd. rewrite list_lookup_insert_ne by exact H. reflexivity. Qed.

(** The stores touch the buffer only from the current length on, and
    only as far as the groups reach. *)
Lemma push_groups_elsewhere gs : forall s i,
  (i < _Receive_BUF_Length s \/ _Receive_BUF_Length s + 2 * length gs <= i)%nat ->
  rd (_Receive_BUF (push_groups gs s)) i = rd (_Receive_BUF s) i.
Proof.
  induction gs as [|[[a b] c] gs IH]; intros s i H; cbn [push_groups fold_left].
  - reflexivity.
  - fold (push_groups gs (push_rx b (push_rx a s))).
    cbn [length] in H. rewrite IH by (cbn; lia).
    cbn. rewrite !rd_insert_ne by lia. reflexivity.
Qed.

Lemma insert_at_end (l1 l2 : list Z) x y :
  <[length l1 := x]> (l1 ++ y :: l2) = l1 ++ x :: l2.
Proof. induction l1 as [|h l1 IH]; cbn; [reflexivity | f_equal; exact IH]. Qed.

Lemma push_groups_buf gs : forall s l1 l2,
  _Receive_BUF s = l1 ++ l2 -> _Receive_BUF_Length s = length l1 ->
  (2 * length gs <= length l2)%nat ->
  _Receive_BUF (push_groups gs s) = l1 ++ payload gs ++ drop (2 * length gs) l2.
Proof.
  induction gs as [|[[a b] c] gs IH]; intros s l1 l2 Hb Hl Hn;
    cbn [push_groups fold_left].
  - cbn. rewrite drop_0. exact Hb.
  - fold (push_groups gs (push_rx b (push_rx a s))).
    cbn [length] in Hn.
    destruct l2 as [|y0 [|y1 l2]]; cbn [length] in Hn; try lia.
    rewrite (IH _ (l1 ++ [a; b]) l2).
    + rewrite <- app_assoc.
      replace (2 * length ((a, b, c) :: gs))%nat with (S (S (2 * length gs)))%nat
        by (cbn [length]; lia).
      reflexivity.
    + cbn. rewrite Hb, Hl, insert_at_end.
      replace (S (length l1)) with (length (l1 ++ [a]))
        by (rewrite length_app; cbn; lia).
      change (l1 ++ a :: y1 :: l2) with (l1 ++ [a] ++ y1 :: l2).
      rewrite app_assoc, insert_at_end, <- !app_assoc. reflexivity.
    + cbn. rewrite Hl, length_app. cbn. lia.
    + lia.
Qed.

(** Accepted groups that do not yet fill the request are stored one
    after the other, and the loop goes on with what follows them. *)
Lemma read_loop_passes count chk_zero pre : forall rest x y z s,
  forallb (passes chk_zero) pre = true ->
  (_Receive_BUF_Length s + 2 * length pre < count)%nat ->
  exists x' y' z',
    read_loop count chk_zero (wire pre ++ rest) 0 [x; y; z] s
    = read_loop count chk_zero rest 0 [x'; y'; z'] (push_groups pre s).
Proof.
  induction pre as [|[[a b] c] pre IH]; intros rest x y z s Hp Hn.
  - exists x, y, z. reflexivity.
  - cbn [forallb] in Hp. apply andb_true_iff in Hp as [Hg Hp].
    unfold passes in Hg. apply andb_true_iff in Hg as [Hok Hz].
    cbn [length] in Hn.
    cbn [wire flat_map app]. fold (wire pre).
    rewrite read_loop_group, Hok. cbn [negb].
    apply negb_true_iff in Hz. rewrite Hz.
    replace (count <=? _)%nat with false
      by (symmetry; apply Nat.leb_gt; cbn; lia).
    cbn zeta.
    destruct (IH rest a b c (push_rx b (push_rx a s)) Hp) as (x' & y' & z' & E).
    { cbn. lia. }
    exists x', y', z'. exact E.
Qed.

(** Accepted groups and nothing after them: the loop is left with all
    of them stored and nothing pending. *)
Lemma read_loop_complete count chk_zero gs : forall x y z s,
  forallb (passes chk_zero) gs = true ->
  (_Receive_BUF_Length s + 2 * length gs <= count)%nat ->
  exists data,
    read_loop count chk_zero (wire gs) 0 [x; y; z] s
    = (Leave 0 data, set_wire_rx [] (push_groups gs s)).
Proof.
  induction gs as [|[[a b] c] gs IH]; intros x y z s Hp Hn.
  - eexists. reflexivity.
  - cbn [forallb] in Hp. apply andb_true_iff in Hp as [Hg Hp].
    unfold passes in Hg. apply andb_true_iff in Hg as [Hok Hz].
    cbn [length] in Hn.
    cbn [wire flat_map app]. fold (wire gs).
    rewrite read_loop_group, Hok. cbn [negb].
    apply negb_true_iff in Hz. rewrite Hz. cbn zeta.
    destruct (count <=? _)%nat eqn:Hc.
    + apply Nat.leb_le in Hc. cbn in Hc.
      destruct gs; [|cbn [length] in Hn; lia].
      eexists. reflexivity.
    + apply (IH a b c (push_rx b (push_rx a s)) Hp). cbn. lia.
Qed.

(** the groups of a received byte sequence, three bytes at a time *)
Fixpoint groups (rx : list Z) : list group :=
  match rx with
  | a :: b :: c :: rest => (a, b, c) :: groups rest
  | _ => []
  end.

Lemma wire_groups_upto n : forall rx, (length rx <= n)%nat ->
  exists tl, rx = wire (groups rx) ++ tl /\ (length tl < 3)%nat.
Proof.
  induction n as [|n IH]; intros rx Hn.
  - destruct rx; [|cbn in Hn; lia]. exists []. split; [reflexivity | cbn; lia].
  - destruct rx as [|a [|b [|c rest]]];
      try (eexists; split; [reflexivity | cbn; lia]).
    destruct (IH rest) as (tl & E & Hl); [cbn in Hn; lia|].
    exists tl. split; [|exact Hl].
    cbn [groups wire flat_map app]. fold (wire (groups rest)).
    rewrite <- E. reflexivity.
Qed.

Lemma wire_groups rx :
  exists tl, rx = wire (groups rx) ++ tl /\ (length tl < 3)%nat.
Proof. apply (wire_groups_upto (length rx)). lia. Qed.

Lemma wire_app gs1 gs2 : wire (gs1 ++ gs2) = wire gs1 ++ wire gs2.
Proof. unfold wire. apply flat_map_app. Qed.

Lemma length_wire gs : length (wire gs) = (3 * length gs)%nat.
Proof.
  induction gs as [|[[a b] c] gs IH]; cbn [wire flat_map length app]; [lia|].
  fold (wire gs). rewrite IH. lia.
Qed.

Lemma length_payload gs : length (payload gs) = (2 * length gs)%nat.
Proof.
  induction gs as [|[[a b] c] gs IH]; cbn [payload flat_map length app]; [lia|].
  fold (payload gs). rewrite IH. lia.
Qed.

(** the first element of a list that fails a test *)
Lemma first_failing {A} (P : A -> bool) (l : list A) : forall k x,
  l !! k = Some x -> P x = false ->
  exists pre y post, l = pre ++ y :: post /\ forallb P pre = true
                     /\ P y = false /\ (length pre <= k)%nat.
Proof.
  induction l as [|h l IH]; intros k x Hk Hx; [discriminate|].
  destruct (P h) eqn:Hh.
  - destruct k as [|k]; [cbn in Hk; congruence|].
    destruct (IH k x Hk Hx) as (pre & y & post & E & Hp & Hy & Hl).
    exists (h :: pre), y, post. rewrite E. cbn. rewrite Hh, Hp.
    repeat split; [exact Hy | lia].
  - exists [], h, l. repeat split; [exact Hh | cbn; lia].
Qed.

(** [exp_cnt] never asks for more than three bytes per requested word. *)
Lemma exp_cnt_le avr count : (exp_cnt avr count <= count / 2 * 3)%nat.
Proof.
  unfold exp_cnt.
  pose proof (Nat.Div0.mod_le (count / 2 * 3) 256) as H.
  destruct (avr && _) eqn:E; [|exact H].
  apply andb_true_iff in E as [_ E]. apply Nat.ltb_lt in E. lia.
Qed.

Lemma half_twice_le count : (2 * (count / 2) <= count)%nat.
Proof. apply Nat.Div0.mul_div_le. Qed.

(** the session after the read request of [I2C_ReadToBuffer] *)
Definition requested (avr : bool) (count : nat) (s : SEN55) : SEN55 :=
  snd (requestFrom SEN55_ADDRESS (exp_cnt avr count) (set_Receive_BUF_Length 0 s)).

Lemma I2C_ReadToBuffer_unfold avr count chk_zero s :
  I2C_ReadToBuffer avr count chk_zero s =
  let rx := next_answer (exp_cnt avr count) s in
  let s1 := requested avr count s in
  if negb (length rx =? exp_cnt avr count)%nat then (SEN55_ERR_PROTOCOL, s1)
  else
    let (ex, s2) := read_loop count chk_zero rx 0 [0; 0; 0] s1 in
    match ex with
    | Return ret => (ret, s2)
    | Leave i data =>
        let s3 := fold_left (fun s j => push_rx (rd data j) s) (seq 0 i) s2 in
        if (_Receive_BUF_Length s3 =? 0)%nat then (SEN55_ERR_PROTOCOL, s3)
        else if (_Receive_BUF_Length s3 =? count)%nat then (SEN55_ERR_OK, s3)
        else (SEN55_ERR_DATALENGTH, s3)
    end.
Proof.
  unfold I2C_ReadToBuffer, requested. run_M. unfold requestFrom at 1.
  cbn [fst snd]. cbv zeta.
  change (next_answer (exp_cnt avr count) (set_Receive_BUF_Length 0 s))
    with (next_answer (exp_cnt avr count) s).
  destruct (length _ =? _)%nat; reflexivity.
Qed.

Lemma requested_fields avr count s :
  _Receive_BUF (requested avr count s) = _Receive_BUF s
  /\ _Receive_BUF_Length (requested avr count s) = 0%nat
  /\ trace (requested avr count s)
     = trace s ++ [EvRequest SEN55_ADDRESS (exp_cnt avr count)]
  /\ _started (requested avr count s) = _started s
  /\ wire_rx (requested avr count s) = next_answer (exp_cnt avr count) s.
Proof. repeat split. Qed.

(** ** Length of the answer *)




(** ** Checksum failures *)

(** The decoder on an answer whose first group with a wrong checksum
    comes after groups that all pass. *)
Lemma I2C_ReadToBuffer_first_bad avr count chk_zero s pre a b c rest :
  next_answer (exp_cnt avr count) s = wire pre ++ a :: b :: c :: rest ->
  forallb (passes chk_zero) pre = true ->
  group_ok (a, b, c) = false ->
  let (ret, s') := I2C_ReadToBuffer avr count chk_zero s in
  ret = SEN55_ERR_PROTOCOL
  /\ (_Receive_BUF_Length s' <= 2 * length pre)%nat
  /\ forall i, (2 * length pre <= i)%nat ->
       rd (_Receive_BUF s') i = rd (_Receive_BUF s) i.
Proof.
  intros Hrx Hpre Hbad. rewrite I2C_ReadToBuffer_unfold. cbn zeta.
  destruct (length _ =? _)%nat eqn:Hlen; cbn [negb].
  - apply Nat.eqb_eq in Hlen.
    assert (Hn : (0 + 2 * length pre < count)%nat).
    { pose proof (exp_cnt_le avr count) as H1.
      pose proof (half_twice_le count) as H2.
      rewrite Hrx, length_app, length_wire in Hlen. cbn [length] in Hlen. lia. }
    rewrite Hrx.
    destruct (read_loop_passes count chk_zero pre (a :: b :: c :: rest) 0 0 0
                (requested avr count s) Hpre Hn) as (x & y & z & E).
    rewrite E, read_loop_group, Hbad. cbn [negb].
    split; [reflexivity|]. split.
    + cbn [set_wire_rx _Receive_BUF_Length].
      rewrite push_groups_length. cbn. lia.
    + intros i Hi. cbn [set_wire_rx _Receive_BUF].
      rewrite push_groups_elsewhere by (cbn; lia). reflexivity.
  - split; [reflexivity|]. split; [cbn; lia | reflexivity].
Qed.

(** C5, as the specification words it, fails in zero-terminated mode:
    the second group of the answer has a wrong checksum, but the first
    one is the zero word, and the read reports success. *)
Lemma bad_checksum_after_zero_word_is_accepted :
  groups (next_answer (exp_cnt false 4) (fresh [[0; 0; 0x81; 1; 2; 0xFF]])) !! 1%nat
    = Some (1, 2, 0xFF)
  /\ group_ok (1, 2, 0xFF) = false
  /\ fst (I2C_ReadToBuffer false 4 true (fresh [[0; 0; 0x81; 1; 2; 0xFF]]))
     <> SEN55_ERR_PROTOCOL.
Proof. vm_compute. repeat (split; [reflexivity |]). discriminate. Qed.

(** C5 (amended): if the third byte of any group of the received bytes
    differs from the checksum of its first two bytes, and, in
    zero-terminated mode, no group before it is a valid zero word, then
    the read fails with [SEN55_ERR_PROTOCOL] and no word of that group
    or of a later one is stored: the decoded length stays within the
    groups before it and the buffer is unchanged from there on. *)
Theorem bad_checksum_is_protocol_error avr count chk_zero s k g :
  let rx := next_answer (exp_cnt avr count) s in
  groups rx !! k = Some g ->
  group_ok g = false ->
  (chk_zero = true ->
   forall j g', (j < k)%nat -> groups rx !! j = Some g' ->
                group_ok g' && zero_word g' = false) ->
  let (ret, s') := I2C_ReadToBuffer avr count chk_zero s in
  ret = SEN55_ERR_PROTOCOL
  /\ (_Receive_BUF_Length s' <= 2 * k)%nat
  /\ forall i, (2 * k <= i)%nat -> rd (_Receive_BUF s') i = rd (_Receive_BUF s) i.
Proof.
  intros rx Hk Hbad Hzero.
  destruct (first_failing group_ok (groups rx) k g Hk Hbad)
    as (pre & [[a b] c] & post & E & Hpre & Hg0 & Hle).
  destruct (wire_groups rx) as (tl & Erx & _).
  rewrite E, wire_app in Erx. cbn [wire flat_map app] in Erx.
  fold (wire post) in Erx. rewrite <- app_assoc in Erx. cbn [app] in Erx.
  assert (Hpass : forallb (passes chk_zero) pre = true).
  { apply forallb_forall. intros g' Hin.
    unfold passes. rewrite (proj1 (forallb_forall _ _) Hpre g' Hin). cbn [andb].
    destruct chk_zero; [|reflexivity]. cbn [andb].
    apply list_elem_of_In, list_elem_of_lookup in Hin as [j Hj].
    assert (Hjk : (j < k)%nat).
    { apply lookup_lt_Some in Hj. lia. }
    assert (Hj' : groups rx !! j = Some g').
    { rewrite E. rewrite lookup_app_l by (apply lookup_lt_Some in Hj; lia). exact Hj. }
    pose proof (Hzero eq_refl j g' Hjk Hj') as Hz.
    rewrite (proj1 (forallb_forall _ _) Hpre g') in Hz
      by (apply list_elem_of_In, list_elem_of_lookup; eauto).
    cbn [andb] in Hz. rewrite Hz. reflexivity. }
  pose proof (I2C_ReadToBuffer_first_bad avr count chk_zero s pre a b c
                (wire post ++ tl) Erx Hpass Hg0) as H.
  destruct (I2C_ReadToBuffer avr count chk_zero s) as [ret s'].
  destruct H as (Hr & Hl & Hb).
  split; [exact Hr|]. split; [lia|].
  intros i Hi. apply Hb. lia.
Qed.

Lemma bad_checksum_is_protocol_error_witness :
  let s := fresh [[0xBE; 0xEF; 0x92; 1; 2; 0xFF]] in
  let (ret, s') := I2C_ReadToBuffer false 4 true s in
  ret = SEN55_ERR_PROTOCOL
  /\ (_Receive_BUF_Length s' <= 2 * 1)%nat
  /\ forall i, (2 * 1 <= i)%nat -> rd (_Receive_BUF s') i = rd (_Receive_BUF s) i.
Proof.
  apply (bad_checksum_is_protocol_error false 4 true
           (fresh [[0xBE; 0xEF; 0x92; 1; 2; 0xFF]]) 1 (1, 2, 0xFF)).
  - vm_compute. reflexivity.
  - vm_compute. reflexivity.
  - intros _ j g' Hj Hg.
    destruct j as [|j]; [|lia].
    vm_compute in Hg. injection Hg as <-. vm_compute. reflexivity.
Defined.

(** ** Zero termination *)

(** C6: in zero-terminated mode, when all requested bytes have arrived
    and a group with a valid checksum holds the word 0x0000 after
    groups that are valid and not zero, the read stops there with
    [SEN55_ERR_OK]: the words up to and including the zero word are the
    decoded output, whatever the requested count; the bytes after the
    group are taken from the port and dropped, and the buffer beyond
    the zero word is left as it was. *)
Theorem zero_word_ends_the_read avr count s pre c rest :
  let rx := wire pre ++ 0 :: 0 :: c :: rest in
  next_answer (exp_cnt avr count) s = rx ->
  length rx = exp_cnt avr count ->
  forallb (passes true) pre = true ->
  c = I2C_calc_CRC 0 0 ->
  let (ret, s') := I2C_ReadToBuffer avr count true s in
  ret = SEN55_ERR_OK
  /\ _Receive_BUF_Length s' = (2 * (length pre + 1))%nat
  /\ wire_rx s' = []
  /\ ((2 * (length pre + 1) <= length (_Receive_BUF s))%nat ->
      _Receive_BUF s'
      = payload pre ++ [0; 0] ++ drop (2 * (length pre + 1)) (_Receive_BUF s))
  /\ forall i, (2 * (length pre + 1) <= i)%nat ->
       rd (_Receive_BUF s') i = rd (_Receive_BUF s) i.
Proof.
  intros rx Hrx Hlen Hpre Hc. rewrite I2C_ReadToBuffer_unfold. cbn zeta.
  rewrite Hrx, Hlen, Nat.eqb_refl. cbn [negb].
  assert (Hn : (0 + 2 * length pre < count)%nat).
  { pose proof (exp_cnt_le avr count) as H1.
    pose proof (half_twice_le count) as H2.
    unfold rx in Hlen. rewrite length_app, length_wire in Hlen.
    cbn [length] in Hlen. lia. }
  destruct (read_loop_passes count true pre (0 :: 0 :: c :: rest) 0 0 0
              (requested avr count s) Hpre Hn) as (x & y & z & E).
  unfold rx. rewrite E, read_loop_group.
  unfold group_ok. rewrite Hc, Z.eqb_refl. cbn [negb andb zero_word Z.eqb].
  cbv zeta.
  assert (Epush : push_rx 0 (push_rx 0 (push_groups pre (requested avr count s)))
                  = push_groups (pre ++ [(0, 0, I2C_calc_CRC 0 0)])
                      (requested avr count s)).
  { unfold push_groups. rewrite fold_left_app. reflexivity. }
  rewrite Epush.
  split; [reflexivity|]. split.
  { cbn [set_wire_rx _Receive_BUF_Length]. rewrite push_groups_length, length_app.
    cbn. lia. }
  split; [reflexivity|]. split.
  { intros Hb. cbn [set_wire_rx _Receive_BUF].
    rewrite (push_groups_buf _ _ [] (_Receive_BUF s)); try reflexivity.
    - cbn [app]. unfold payload. rewrite flat_map_app, length_app.
      cbn [flat_map app length]. rewrite <- app_assoc.
      reflexivity.
    - rewrite length_app. cbn [length]. exact Hb. }
  intros i Hi. cbn [set_wire_rx _Receive_BUF].
  rewrite push_groups_elsewhere; [reflexivity|].
  rewrite length_app. cbn. lia.
Qed.

Lemma zero_word_ends_the_read_witness :
  let s := fresh [[0x53; 0x45; 0x83; 0; 0; 0x81; 0x4E; 0x35; 0xFF]] in
  let pre := [(0x53, 0x45, 0x83)] in
  let rx := wire pre ++ 0 :: 0 :: 0x81 :: [0x4E; 0x35; 0xFF] in
  (next_answer (exp_cnt false 6) s = rx
   /\ length rx = exp_cnt false 6
   /\ forallb (passes true) pre = true
   /\ 0x81 = I2C_calc_CRC 0 0)
  /\ let (ret, s') := I2C_ReadToBuffer false 6 true s in
     ret = SEN55_ERR_OK
     /\ _Receive_BUF_Length s' = (2 * (length pre + 1))%nat
     /\ wire_rx s' = []
     /\ ((2 * (length pre + 1) <= length (_Receive_BUF s))%nat ->
         _Receive_BUF s'
         = payload pre ++ [0; 0] ++ drop (2 * (length pre + 1)) (_Receive_BUF s))
     /\ forall i, (2 * (length pre + 1) <= i)%nat ->
          rd (_Receive_BUF s') i = rd (_Receive_BUF s) i.
Proof.
  split.
  - vm_compute. repeat split.
  - apply (zero_word_ends_the_read false 6
             (fresh [[0x53; 0x45; 0x83; 0; 0; 0x81; 0x4E; 0x35; 0xFF]])
             [(0x53, 0x45, 0x83)] 0x81 [0x4E; 0x35; 0xFF]);
      vm_compute; reflexivity.
Defined.

(** ** Answers that decode *)

(** An answer of the requested length whose groups all pass is decoded
    in full. *)
Lemma I2C_ReadToBuffer_valid avr count chk_zero s gs :
  next_answer (exp_cnt avr count) s = wire gs ->
  (3 * length gs)%nat = exp_cnt avr count ->
  forallb (passes chk_zero) gs = true ->
  (2 * length gs)%nat = count ->
  (0 < count)%nat ->
  I2C_ReadToBuffer avr count chk_zero s
  = (SEN55_ERR_OK, set_wire_rx [] (push_groups gs (requested avr count s))).
Proof.
  intros Hrx Hlen Hok Hc Hpos. rewrite I2C_ReadToBuffer_unfold. cbn zeta.
  rewrite Hrx, length_wire, Hlen, Nat.eqb_refl. cbn [negb].
  destruct (read_loop_complete count chk_zero gs 0 0 0 (requested avr count s) Hok)
    as (data & E).
  { cbn. lia. }
  rewrite E. cbn [seq fold_left set_wire_rx _Receive_BUF_Length].
  rewrite push_groups_length. cbn [requested requestFrom snd set_wire_rx
    set_device log set_Receive_BUF_Length _Receive_BUF_Length].
  rewrite Nat.add_0_l, Hc.
  destruct count; [lia|]. cbn [Nat.eqb]. rewrite Nat.eqb_refl. reflexivity.
Qed.

(** the session once a two-byte command has been written and the
    driver has waited for the answer *)
Definition commanded (cmd : Z) (s : SEN55) : SEN55 :=
  snd (delay 5 (snd (I2C_SetPointer (snd (I2C_fill_buffer cmd ArgNull s))))).

(** ** Bytes and words *)

Lemma land_mul256 k l : 0 <= l < 256 -> Z.land (256 * k) l = 0.
Proof.
  intros Hl. apply Z.bits_inj'. intros n Hn.
  rewrite Z.land_spec, Z.bits_0.
  destruct (Z.ltb_spec n 8).
  - replace (256 * k) with (k * 2 ^ 8) by lia.
    rewrite Z.mul_pow2_bits_low by lia. reflexivity.
  - replace l with (l mod 2 ^ 8) by (apply Z.mod_small; lia).
    rewrite Z.mod_pow2_bits_high by lia. apply andb_false_r.
Qed.

Lemma lor_mul256 k l : 0 <= l < 256 -> Z.lor (256 * k) l = 256 * k + l.
Proof.
  intros Hl. rewrite <- Z.lxor_lor by (apply land_mul256; exact Hl).
  symmetry. apply Z.add_nocarry_lxor, land_mul256, Hl.
Qed.

Lemma MSB_div x : MSB x = (x / 256) mod 256.
Proof.
  unfold MSB. rewrite Z.shiftr_div_pow2 by lia.
  change 0xff with (Z.ones 8). rewrite Z.land_ones by lia. reflexivity.
Qed.

Lemma LSB_mod x : LSB x = x mod 256.
Proof.
  unfold LSB. change 0xff with (Z.ones 8). rewrite Z.land_ones by lia. reflexivity.
Qed.

(** the value [byte_to_int16_t] assembles from a high and a low byte *)
Definition int16_of_bytes (h l : Z) : Z :=
  to_int16 (Z.lor (to_int16 (Z.shiftl h 8)) l).
(** and the value [byte_to_Uint16_t] assembles *)
Definition uint16_of_bytes (h l : Z) : Z :=
  to_uint16 (Z.lor (to_uint16 (Z.shiftl h 8)) l).

Lemma int16_of_bytes_eq h l :
  0 <= h < 256 -> 0 <= l < 256 ->
  int16_of_bytes h l = if h <? 128 then 256 * h + l else 256 * h + l - 65536.
Proof.
  intros Hh Hl. unfold int16_of_bytes.
  rewrite Z.shiftl_mul_pow2 by lia. change (2 ^ 8) with 256.
  assert (E : to_int16 (h * 256) = 256 * (if h <? 128 then h else h - 256)).
  { unfold to_int16. destruct (Z.ltb_spec h 128).
    - rewrite Z.mod_small by lia. lia.
    - replace (h * 256 + 32768) with ((h * 256 - 32768) + 1 * 65536) by lia.
      rewrite Z.mod_add by lia. rewrite Z.mod_small by lia. lia. }
  rewrite E, lor_mul256 by exact Hl.
  unfold to_int16. destruct (Z.ltb_spec h 128).
  - rewrite Z.mod_small by lia. lia.
  - rewrite Z.mod_small by lia. lia.
Qed.

Lemma uint16_of_bytes_eq h l :
  0 <= h < 256 -> 0 <= l < 256 -> uint16_of_bytes h l = 256 * h + l.
Proof.
  intros Hh Hl. unfold uint16_of_bytes, to_uint16.
  rewrite Z.shiftl_mul_pow2 by lia. change (2 ^ 8) with 256.
  rewrite (Z.mod_small (h * 256)) by lia.
  replace (h * 256) with (256 * h) by lia.
  rewrite lor_mul256 by exact Hl. apply Z.mod_small. lia.
Qed.

(** Splitting a 16-bit value in two bytes and assembling them again,
    both ways round. *)
Lemma int16_of_bytes_split x :
  -32768 <= x < 32768 -> int16_of_bytes (MSB x) (LSB x) = x.
Proof.
  intros Hx. rewrite int16_of_bytes_eq; rewrite ?MSB_div, ?LSB_mod;
    try (apply Z.mod_pos_bound; lia).
  destruct (Z.ltb_spec ((x / 256) mod 256) 128);
    Z.div_mod_to_equations; lia.
Qed.

Lemma split_int16_of_bytes h l :
  0 <= h < 256 -> 0 <= l < 256 ->
  MSB (int16_of_bytes h l) = h /\ LSB (int16_of_bytes h l) = l.
Proof.
  intros Hh Hl. rewrite int16_of_bytes_eq, MSB_div, LSB_mod by assumption.
  destruct (Z.ltb_spec h 128); Z.div_mod_to_equations; lia.
Qed.

Lemma split_uint16_of_bytes h l :
  0 <= h < 256 -> 0 <= l < 256 ->
  MSB (uint16_of_bytes h l) = h /\ LSB (uint16_of_bytes h l) = l.
Proof.
  intros Hh Hl. rewrite uint16_of_bytes_eq, MSB_div, LSB_mod by assumption.
  Z.div_mod_to_equations; lia.
Qed.

Lemma int16_of_bytes_range h l :
  0 <= h < 256 -> 0 <= l < 256 -> -32768 <= int16_of_bytes h l < 32768.
Proof.
  intros Hh Hl. rewrite int16_of_bytes_eq by assumption.
  destruct (Z.ltb_spec h 128); lia.
Qed.

Lemma to_int16_small x : -32768 <= x < 32768 -> to_int16 x = x.
Proof. intros H. unfold to_int16. rewrite Z.mod_small by lia. lia. Qed.

#[local] Arguments MSB : simpl never.
#[local] Arguments LSB : simpl never.
#[local] Arguments to_int16 : simpl never.
#[local] Arguments to_uint16 : simpl never.
#[local] Arguments Z.quot : simpl never.
#[local] Arguments Z.mul : simpl never.

(** ** Temperature compensation: reading and writing back *)

(** the answer of the device to the temperature compensation read,
    from the bytes of its three words *)
Definition tmp_comp_groups (h0 l0 h1 l1 h2 l2 : Z) : list group :=
  [ (h0, l0, I2C_calc_CRC h0 l0); (h1, l1, I2C_calc_CRC h1 l1);
    (h2, l2, I2C_calc_CRC h2 l2) ].

(** a payload word on the wire *)
Definition word_bytes (x : Z) : list Z :=
  [MSB x; LSB x; I2C_calc_CRC (MSB x) (LSB x)].

(** [GetTmpComp] followed by [SetTmpComp] on what was read: the two
    return codes and what [SetTmpComp] did on the bus. *)
Definition TmpComp_read_write_back (avr : bool) (s : SEN55) : Z * Z * list Event :=
  let '(r1, tmp, s1) := GetTmpComp avr (mk_sen_tmp_comp 0 0 0) s in
  let '(r2, _, s2) := SetTmpComp tmp s1 in
  (r1, r2, drop (length (trace s1)) (trace s2)).

Lemma rd_cons_0 x (l : list Z) : rd (x :: l) 0 = x.
Proof. reflexivity. Qed.
Lemma rd_cons_S x (l : list Z) n : rd (x :: l) (S n) = rd l n.
Proof. reflexivity. Qed.

Lemma Receive_BUF_set_wire_rx rx s : _Receive_BUF (set_wire_rx rx s) = _Receive_BUF s.
Proof. reflexivity. Qed.

(** What a valid answer leaves in the receive buffer: its data bytes,
    in order, from the start of the buffer. *)
Lemma I2C_ReadToBuffer_valid_buf avr count chk_zero s gs :
  next_answer (exp_cnt avr count) s = wire gs ->
  (3 * length gs)%nat = exp_cnt avr count ->
  forallb (passes chk_zero) gs = true ->
  (2 * length gs)%nat = count ->
  (0 < count)%nat ->
  (count <= length (_Receive_BUF s))%nat ->
  exists s',
    I2C_ReadToBuffer avr count chk_zero s = (SEN55_ERR_OK, s')
    /\ _Receive_BUF s' = payload gs ++ drop count (_Receive_BUF s)
    /\ _Receive_BUF_Length s' = count
    /\ wire_rx s' = []
    /\ trace s' = trace s ++ [EvRequest SEN55_ADDRESS (exp_cnt avr count)]
    /\ _started s' = _started s.
Proof.
  intros Hrx Hlen Hok Hc Hpos Hbuf.
  rewrite (I2C_ReadToBuffer_valid avr count chk_zero s gs Hrx Hlen Hok Hc Hpos).
  eexists. split; [reflexivity|].
  pose proof (push_groups_same_outside gs (requested avr count s)) as Hso.
  destruct Hso as (_ & _ & Hst & _ & _ & _ & _ & _ & Htr).
  repeat split.
  - rewrite Receive_BUF_set_wire_rx.
    rewrite (push_groups_buf gs (requested avr count s) [] (_Receive_BUF s));
      [rewrite Hc; reflexivity | reflexivity | reflexivity | lia].
  - change (_Receive_BUF_Length (set_wire_rx [] ?x)) with (_Receive_BUF_Length x).
    rewrite push_groups_length. cbn. lia.
  - change (trace (set_wire_rx [] ?x)) with (trace x). rewrite Htr. reflexivity.
  - change (_started (set_wire_rx [] ?x)) with (_started x). rewrite Hst. reflexivity.
Qed.

Lemma GetTmpComp_unfold avr old s :
  GetTmpComp avr old s =
  let (ret, s1) := I2C_ReadToBuffer avr 6 false (commanded SEN55_TEMP_COMP s) in
  (ret,
   mk_sen_tmp_comp (to_int16 (byte_to_int16_t 0 s1 ÷ 200))
                   (to_int16 (byte_to_int16_t 2 s1 ÷ 1000))
                   (byte_to_Uint16_t 4 s1),
   s1).
Proof. reflexivity. Qed.

Lemma commanded_TEMP_COMP s :
  device (commanded SEN55_TEMP_COMP s) = device s
  /\ _Receive_BUF (commanded SEN55_TEMP_COMP s) = _Receive_BUF s.
Proof. split; reflexivity. Qed.

Lemma GetTmpComp_valid avr old s h0 l0 h1 l1 h2 l2 rest :
  device s = wire (tmp_comp_groups h0 l0 h1 l1 h2 l2) :: rest ->
  length (_Receive_BUF s) = MAXBUFLENGTH ->
  exists s1,
    GetTmpComp avr old s
    = (SEN55_ERR_OK,
       mk_sen_tmp_comp (to_int16 (int16_of_bytes h0 l0 ÷ 200))
                       (to_int16 (int16_of_bytes h1 l1 ÷ 1000))
                       (uint16_of_bytes h2 l2),
       s1)
    /\ _Receive_BUF s1
       = [h0; l0; h1; l1; h2; l2] ++ drop 6 (_Receive_BUF s).
Proof.
  intros Hdev Hlen. rewrite GetTmpComp_unfold.
  destruct (commanded_TEMP_COMP s) as [Ed Eb].
  destruct (I2C_ReadToBuffer_valid_buf avr 6 false (commanded SEN55_TEMP_COMP s)
              (tmp_comp_groups h0 l0 h1 l1 h2 l2))
    as (s1 & E & Hb & _).
  - unfold next_answer. rewrite Ed, Hdev. destruct avr; reflexivity.
  - destruct avr; reflexivity.
  - unfold tmp_comp_groups, passes, group_ok. cbn [forallb andb negb].
    rewrite !Z.eqb_refl. reflexivity.
  - reflexivity.
  - lia.
  - rewrite Eb, Hlen. unfold MAXBUFLENGTH. lia.
  - rewrite E. exists s1. rewrite Eb in Hb.
    change (payload (tmp_comp_groups h0 l0 h1 l1 h2 l2))
      with [h0; l0; h1; l1; h2; l2] in Hb.
    split; [|exact Hb].
    unfold byte_to_int16_t, byte_to_Uint16_t, int16_of_bytes, uint16_of_bytes.
    rewrite Hb. cbn [app Nat.add]. rewrite !rd_cons_S, !rd_cons_0. reflexivity.
Qed.

Lemma trace_fill_buffer cmd val s : trace (snd (I2C_fill_buffer cmd val s)) = trace s.
Proof.
  unfold I2C_fill_buffer.
  match goal with |- context [let '(_, _) := ?e in _] => destruct e end.
  reflexivity.
Qed.

Lemma SetTmpComp_frame tmp s :
  let tmp' := mk_sen_tmp_comp (to_int16 (offset tmp * 200))
                              (to_int16 (slope tmp * 1000)) (time tmp) in
  exists s',
    SetTmpComp tmp s = (SEN55_ERR_OK, tmp', s')
    /\ trace s' = trace s ++
         [EvWrite SEN55_ADDRESS
            ([0x60; 0xB2] ++ word_bytes (offset tmp') ++ word_bytes (slope tmp')
               ++ word_bytes (time tmp'))].
Proof. eexists. split; reflexivity. Qed.

Lemma quot_scaled_range x n :
  -32768 <= x < 32768 -> n = 200 \/ n = 1000 ->
  -32768 <= x ÷ n < 32768 /\ -32768 <= x ÷ n * n < 32768.
Proof.
  intros Hx [-> | ->]; Z.to_euclidean_division_equations; lia.
Qed.

Lemma scaled_back_exact x n :
  0 < n -> (n * (x ÷ n) = x <-> x mod n = 0).
Proof.
  intros Hn. pose proof (Z.quot_rem' x n) as E.
  rewrite Z.mod_divide, <- Z.rem_divide by lia. lia.
Qed.

Lemma word_bytes_int16 h l x :
  0 <= h < 256 -> 0 <= l < 256 -> -32768 <= x < 32768 ->
  (word_bytes x = [h; l; I2C_calc_CRC h l] <-> x = int16_of_bytes h l).
Proof.
  intros Hh Hl Hx. unfold word_bytes. split.
  - intros E. injection E as E1 E2 _.
    rewrite <- (int16_of_bytes_split x Hx), E1, E2. reflexivity.
  - intros ->. destruct (split_int16_of_bytes h l Hh Hl) as [-> ->]. reflexivity.
Qed.

(** C3, as the specification words it, fails: the device holds the raw
    offset 100 (half a degree); [GetTmpComp] reads the offset 0, and
    [SetTmpComp] on what was read writes the raw offset 0 back. *)
Lemma TmpComp_read_write_back_loses_offset :
  let s := fresh [wire (tmp_comp_groups 0x00 0x64 0 0 0 0)] in
  TmpComp_read_write_back false s
  = (SEN55_ERR_OK, SEN55_ERR_OK,
     [EvWrite SEN55_ADDRESS ([0x60; 0xB2] ++ wire (tmp_comp_groups 0 0 0 0 0 0))])
  /\ wire (tmp_comp_groups 0 0 0 0 0 0) <> wire (tmp_comp_groups 0x00 0x64 0 0 0 0).
Proof. vm_compute. split; [reflexivity | discriminate]. Qed.

(** C3 (amended): reading the temperature compensation with
    [GetTmpComp] and writing the result back with [SetTmpComp] writes
    the raw offset truncated towards zero to a multiple of 200, the raw
    slope truncated to a multiple of 1000 and the time constant as it
    was read.  The raw offset word is reproduced exactly if and only if
    it is a multiple of 200, the raw slope word if and only if it is a
    multiple of 1000. *)
Theorem TmpComp_read_write_back_truncates avr s h0 l0 h1 l1 h2 l2 rest :
  0 <= h0 < 256 -> 0 <= l0 < 256 -> 0 <= h1 < 256 -> 0 <= l1 < 256 ->
  0 <= h2 < 256 -> 0 <= l2 < 256 ->
  device s = wire (tmp_comp_groups h0 l0 h1 l1 h2 l2) :: rest ->
  length (_Receive_BUF s) = MAXBUFLENGTH ->
  let raw_offset := int16_of_bytes h0 l0 in
  let raw_slope := int16_of_bytes h1 l1 in
  TmpComp_read_write_back avr s
  = (SEN55_ERR_OK, SEN55_ERR_OK,
     [EvWrite SEN55_ADDRESS
        ([0x60; 0xB2] ++ word_bytes (200 * (raw_offset ÷ 200))
           ++ word_bytes (1000 * (raw_slope ÷ 1000))
           ++ [h2; l2; I2C_calc_CRC h2 l2])])
  /\ (word_bytes (200 * (raw_offset ÷ 200)) = [h0; l0; I2C_calc_CRC h0 l0]
      <-> raw_offset mod 200 = 0)
  /\ (word_bytes (1000 * (raw_slope ÷ 1000)) = [h1; l1; I2C_calc_CRC h1 l1]
      <-> raw_slope mod 1000 = 0).
Proof.
  intros Hh0 Hl0 Hh1 Hl1 Hh2 Hl2 Hdev Hlen raw_offset raw_slope.
  pose proof (int16_of_bytes_range h0 l0 Hh0 Hl0) as Ho.
  pose proof (int16_of_bytes_range h1 l1 Hh1 Hl1) as Hs.
  fold raw_offset in Ho. fold raw_slope in Hs.
  destruct (quot_scaled_range raw_offset 200 Ho) as [Ho1 Ho2]; [tauto|].
  destruct (quot_scaled_range raw_slope 1000 Hs) as [Hs1 Hs2]; [tauto|].
  split; [|split].
  - unfold TmpComp_read_write_back.
    destruct (GetTmpComp_valid avr (mk_sen_tmp_comp 0 0 0) s h0 l0 h1 l1 h2 l2 rest
                Hdev Hlen) as (s1 & E & _).
    rewrite E.
    match goal with |- context [SetTmpComp ?t s1] =>
      destruct (SetTmpComp_frame t s1) as (s2 & E2 & Htr) end.
    rewrite E2, Htr, drop_app_length.
    cbn [offset slope time].
    fold raw_offset. fold raw_slope.
    rewrite !(to_int16_small (_ ÷ _)) by assumption.
    rewrite !to_int16_small by assumption.
    rewrite (Z.mul_comm (raw_offset ÷ 200)), (Z.mul_comm (raw_slope ÷ 1000)).
    unfold word_bytes at 3.
    destruct (split_uint16_of_bytes h2 l2 Hh2 Hl2) as [-> ->].
    reflexivity.
  - rewrite word_bytes_int16 by (assumption || lia).
    fold raw_offset. apply scaled_back_exact. lia.
  - rewrite word_bytes_int16 by (assumption || lia).
    fold raw_slope. apply scaled_back_exact. lia.
Qed.

Lemma TmpComp_read_write_back_truncates_witness :
  let s := fresh [wire (tmp_comp_groups 0xFF 0x38 0x03 0xE8 0x00 0x0A)] in
  TmpComp_read_write_back true s
  = (SEN55_ERR_OK, SEN55_ERR_OK,
     [EvWrite SEN55_ADDRESS
        ([0x60; 0xB2] ++ word_bytes (200 * (int16_of_bytes 0xFF 0x38 ÷ 200))
           ++ word_bytes (1000 * (int16_of_bytes 0x03 0xE8 ÷ 1000))
           ++ [0x00; 0x0A; I2C_calc_CRC 0x00 0x0A])])
  /\ (word_bytes (200 * (int16_of_bytes 0xFF 0x38 ÷ 200))
        = [0xFF; 0x38; I2C_calc_CRC 0xFF 0x38]
      <-> int16_of_bytes 0xFF 0x38 mod 200 = 0)
  /\ (word_bytes (1000 * (int16_of_bytes 0x03 0xE8 ÷ 1000))
        = [0x03; 0xE8; I2C_calc_CRC 0x03 0xE8]
      <-> int16_of_bytes 0x03 0xE8 mod 1000 = 0).
Proof.
  apply (TmpComp_read_write_back_truncates true
           (fresh [wire (tmp_comp_groups 0xFF 0x38 0x03 0xE8 0x00 0x0A)])
           0xFF 0x38 0x03 0xE8 0x00 0x0A []); try lia; reflexivity.
Defined.

(** ** What a read does outside the receive buffer *)

Lemma fold_push_same_outside (data : list Z) js : forall s,
  same_outside s (fold_left (fun s j => push_rx (rd data j) s) js s).
Proof.
  induction js as [|j js IH]; intros s; cbn [fold_left].
  - apply same_outside_refl.
  - eapply same_outside_trans; [apply same_outside_push | apply IH].
Qed.

(** [I2C_ReadToBuffer] issues one read request and touches neither the
    send buffer nor the members of the session. *)
Lemma I2C_ReadToBuffer_outside avr count chk_zero s :
  let s' := snd (I2C_ReadToBuffer avr count chk_zero s) in
  trace s' = trace s ++ [EvRequest SEN55_ADDRESS (exp_cnt avr count)]
  /\ device s' = tail (device s)
  /\ _started s' = _started s
  /\ _FW_Major s' = _FW_Major s /\ _FW_Minor s' = _FW_Minor s
  /\ _Send_BUF s' = _Send_BUF s /\ _Send_BUF_Length s' = _Send_BUF_Length s
  /\ data32 s' = data32 s /\ data16 s' = data16 s.
Proof.
  rewrite I2C_ReadToBuffer_unfold. cbv zeta.
  assert (Hreq : forall s1, same_outside (requested avr count s) s1 ->
    trace s1 = trace s ++ [EvRequest SEN55_ADDRESS (exp_cnt avr count)]
    /\ device s1 = tail (device s)
    /\ _started s1 = _started s
    /\ _FW_Major s1 = _FW_Major s /\ _FW_Minor s1 = _FW_Minor s
    /\ _Send_BUF s1 = _Send_BUF s /\ _Send_BUF_Length s1 = _Send_BUF_Length s
    /\ data32 s1 = data32 s /\ data16 s1 = data16 s).
  { intros s1 (H1 & H2 & H3 & H4 & H5 & H6 & H7 & H8 & H9).
    rewrite H1, H2, H3, H4, H5, H6, H7, H8, H9. repeat split. }
  destruct (negb _).
  - apply Hreq, same_outside_refl.
  - pose proof (read_loop_same_outside count chk_zero
                  (next_answer (exp_cnt avr count) s) 0 [0; 0; 0]
                  (requested avr count s)) as Hl.
    destruct (read_loop _ _ _ _ _ _) as [[ret | i data] s2]; cbn [snd] in Hl.
    + apply Hreq, Hl.
    + pose proof (fold_push_same_outside data (seq 0 i) s2) as Hf.
      repeat match goal with |- context [if ?c then _ else _] => destruct c end;
        apply Hreq; eapply same_outside_trans; eassumption.
Qed.

(** ** Measurements from the idle state *)

(** the part of [GetValues] after the start of the measurement *)
Definition read_measured (avr : bool) (v : sen_values) (laser : bool)
  : M (Z * sen_values) :=
  fun s0 =>
    let (ret, s) := I2C_ReadToBuffer avr 16 false
                      (commanded SEN55_READ_MEASURED_VALUE s0) in
    if negb (ret =? SEN55_ERR_OK) then (ret, v, s)
    else
      let mass x := if laser then scaled (byte_to_Uint16_t x s) 10 else 0%Q in
      (SEN55_ERR_OK,
       mk_sen_values (mass 0%nat) (mass 2%nat) (mass 4%nat) (mass 6%nat)
         (scaled (byte_to_int16_t 8 s) 100) (scaled (byte_to_int16_t 10 s) 200)
         (scaled (byte_to_int16_t 12 s) 10) (scaled (byte_to_int16_t 14 s) 10),
       s).

(** the part of [GetValuesPM] after the start of the measurement *)
Definition read_measured_pm (avr : bool) (v : sen_values_pm) : M (Z * sen_values_pm) :=
  fun s0 =>
    let (ret, s) := I2C_ReadToBuffer avr 20 false
                      (commanded SEN55_READ_MEASURED_VALUE_PM s0) in
    if negb (ret =? SEN55_ERR_OK) then (ret, v, s)
    else
      (SEN55_ERR_OK,
       mk_sen_values_pm
         (scaled (byte_to_Uint16_t 0 s) 10) (scaled (byte_to_Uint16_t 2 s) 10)
         (scaled (byte_to_Uint16_t 4 s) 10) (scaled (byte_to_Uint16_t 6 s) 10)
         (scaled (byte_to_Uint16_t 8 s) 10) (scaled (byte_to_Uint16_t 10 s) 10)
         (scaled (byte_to_Uint16_t 12 s) 10) (scaled (byte_to_Uint16_t 14 s) 10)
         (scaled (byte_to_Uint16_t 16 s) 10) (scaled (byte_to_Uint16_t 18 s) 1000),
       s).

(** Starting a measurement always succeeds: the command is written,
    the session is marked as started and the driver waits a second. *)
Lemma start_measurement_effect (laser : bool) s :
  exists s1,
    (if laser then start else startRHTG) s = (true, s1)
    /\ _started s1 = true
    /\ trace s1 = trace s ++
         [EvWrite SEN55_ADDRESS [0x00; if laser then 0x21 else 0x37]; EvDelay 1000].
Proof.
  destruct laser; eexists; (split; [reflexivity|]); (split; [reflexivity|]);
    cbn; rewrite <- app_assoc; reflexivity.
Qed.

Lemma GetValues_unfold avr v laser s :
  GetValues avr v laser s =
  if _started s then read_measured avr v laser s
  else read_measured avr v laser
         (log (EvDelay 100) (snd ((if laser then start else startRHTG) s))).
Proof.
  unfold GetValues, read_measured, commanded, I2C_SetPointer_Read,
    start, startRHTG, Instruct. run_M.
  destruct (_started s), laser;
    cbn -[I2C_ReadToBuffer byte_to_Uint16_t byte_to_int16_t scaled];
    (destruct (I2C_ReadToBuffer _ _ _ _) as [ret s3]; destruct (negb _); reflexivity).
Qed.

Lemma GetValuesPM_unfold avr v s :
  GetValuesPM avr v s =
  if _started s then read_measured_pm avr v s
  else read_measured_pm avr v (snd (start s)).
Proof.
  unfold GetValuesPM, read_measured_pm, commanded, I2C_SetPointer_Read,
    start, Instruct. run_M.
  destruct (_started s);
    cbn -[I2C_ReadToBuffer byte_to_Uint16_t byte_to_int16_t scaled];
    (destruct (I2C_ReadToBuffer _ _ _ _) as [ret s3]; destruct (negb _); reflexivity).
Qed.

Lemma exp_cnt_16 avr : exp_cnt avr 16 = 24%nat.
Proof. destruct avr; reflexivity. Qed.
Lemma exp_cnt_20 avr : exp_cnt avr 20 = 30%nat.
Proof. destruct avr; reflexivity. Qed.

Lemma read_measured_bus avr v laser s0 :
  let '(_, _, s') := read_measured avr v laser s0 in
  trace s' = trace s0 ++
    [EvWrite SEN55_ADDRESS [0x03; 0xC4]; EvDelay 5; EvRequest SEN55_ADDRESS 24]
  /\ _started s' = _started s0.
Proof.
  unfold read_measured.
  pose proof (I2C_ReadToBuffer_outside avr 16 false
                (commanded SEN55_READ_MEASURED_VALUE s0)) as H.
  destruct (I2C_ReadToBuffer _ _ _ _) as [ret s3]. cbn [snd] in H.
  destruct H as (Ht & _ & Hs & _). rewrite exp_cnt_16 in Ht.
  assert (Ht0 : trace (commanded SEN55_READ_MEASURED_VALUE s0)
                = trace s0 ++ [EvWrite SEN55_ADDRESS [0x03; 0xC4]; EvDelay 5]).
  { cbn. rewrite <- app_assoc. reflexivity. }
  rewrite Ht0, <- app_assoc in Ht.
  destruct (negb _); (split; [exact Ht | exact Hs]).
Qed.

Lemma read_measured_pm_bus avr v s0 :
  let '(_, _, s') := read_measured_pm avr v s0 in
  trace s' = trace s0 ++
    [EvWrite SEN55_ADDRESS [0x04; 0x13]; EvDelay 5; EvRequest SEN55_ADDRESS 30]
  /\ _started s' = _started s0.
Proof.
  unfold read_measured_pm.
  pose proof (I2C_ReadToBuffer_outside avr 20 false
                (commanded SEN55_READ_MEASURED_VALUE_PM s0)) as H.
  destruct (I2C_ReadToBuffer _ _ _ _) as [ret s3]. cbn [snd] in H.
  destruct H as (Ht & _ & Hs & _). rewrite exp_cnt_20 in Ht.
  assert (Ht0 : trace (commanded SEN55_READ_MEASURED_VALUE_PM s0)
                = trace s0 ++ [EvWrite SEN55_ADDRESS [0x04; 0x13]; EvDelay 5]).
  { cbn. rewrite <- app_assoc. reflexivity. }
  rewrite Ht0, <- app_assoc in Ht.
  destruct (negb _); (split; [exact Ht | exact Hs]).
Qed.

(** C8: a call of [GetValues] or [GetValuesPM] on an idle session first
    starts the measurement (with or without the laser for [GetValues],
    with it for [GetValuesPM]): the start command is written, the
    session becomes started and the driver waits (1000 ms inside the
    start, and 100 ms more in [GetValues]).  Only then is the read
    command written and the answer requested, on the started session;
    the session is still started when the call returns. *)
Theorem measurement_read_from_idle_starts_first avr s :
  _started s = false ->
  (forall v (laser : bool),
     exists s1,
       (if laser then start else startRHTG) s = (true, s1)
       /\ _started s1 = true
       /\ GetValues avr v laser s
          = read_measured avr v laser (log (EvDelay 100) s1)
       /\ let '(_, _, s') := GetValues avr v laser s in
          trace s' = trace s ++
            [EvWrite SEN55_ADDRESS [0x00; if laser then 0x21 else 0x37];
             EvDelay 1000; EvDelay 100;
             EvWrite SEN55_ADDRESS [0x03; 0xC4]; EvDelay 5;
             EvRequest SEN55_ADDRESS 24]
          /\ _started s' = true)
  /\ (forall v,
        exists s1,
          start s = (true, s1)
          /\ _started s1 = true
          /\ GetValuesPM avr v s = read_measured_pm avr v s1
          /\ let '(_, _, s') := GetValuesPM avr v s in
             trace s' = trace s ++
               [EvWrite SEN55_ADDRESS [0x00; 0x21]; EvDelay 1000;
                EvWrite SEN55_ADDRESS [0x04; 0x13]; EvDelay 5;
                EvRequest SEN55_ADDRESS 30]
             /\ _started s' = true).
Proof.
  intros Hidle. split.
  - intros v laser.
    destruct (start_measurement_effect laser s) as (s1 & E & Hs1 & Ht1).
    exists s1. split; [exact E|]. split; [exact Hs1|].
    assert (EG : GetValues avr v laser s
                 = read_measured avr v laser (log (EvDelay 100) s1)).
    { rewrite GetValues_unfold, Hidle, E. reflexivity. }
    split; [exact EG|]. rewrite EG.
    pose proof (read_measured_bus avr v laser (log (EvDelay 100) s1)) as H.
    destruct (read_measured _ _ _ _) as [[ret v'] s'].
    destruct H as [Ht Hs]. split.
    + rewrite Ht. change (trace (log (EvDelay 100) s1)) with (trace s1 ++ [EvDelay 100]).
      rewrite Ht1, <- !app_assoc. reflexivity.
    + rewrite Hs. exact Hs1.
  - intros v.
    destruct (start_measurement_effect true s) as (s1 & E & Hs1 & Ht1).
    exists s1. split; [exact E|]. split; [exact Hs1|].
    assert (EG : GetValuesPM avr v s = read_measured_pm avr v s1).
    { rewrite GetValuesPM_unfold, Hidle, E. reflexivity. }
    split; [exact EG|]. rewrite EG.
    pose proof (read_measured_pm_bus avr v s1) as H.
    destruct (read_measured_pm _ _ _) as [[ret v'] s'].
    destruct H as [Ht Hs]. split.
    + rewrite Ht, Ht1, <- !app_assoc. reflexivity.
    + rewrite Hs. exact Hs1.
Qed.

Lemma measurement_read_from_idle_starts_first_witness :
  _started (fresh []) = false
  /\ ((forall v (laser : bool),
     exists s1,
       (if laser then start else startRHTG) (fresh []) = (true, s1)
       /\ _started s1 = true
       /\ GetValues false v laser (fresh [])
          = read_measured false v laser (log (EvDelay 100) s1)
       /\ let '(_, _, s') := GetValues false v laser (fresh []) in
          trace s' = trace (fresh []) ++
            [EvWrite SEN55_ADDRESS [0x00; if laser then 0x21 else 0x37];
             EvDelay 1000; EvDelay 100;
             EvWrite SEN55_ADDRESS [0x03; 0xC4]; EvDelay 5;
             EvRequest SEN55_ADDRESS 24]
          /\ _started s' = true)
  /\ (forall v,
        exists s1,
          start (fresh []) = (true, s1)
          /\ _started s1 = true
          /\ GetValuesPM false v (fresh []) = read_measured_pm false v s1
          /\ let '(_, _, s') := GetValuesPM false v (fresh []) in
             trace s' = trace (fresh []) ++
               [EvWrite SEN55_ADDRESS [0x00; 0x21]; EvDelay 1000;
                EvWrite SEN55_ADDRESS [0x04; 0x13]; EvDelay 5;
                EvRequest SEN55_ADDRESS 30]
             /\ _started s' = true)).
Proof.
  split; [reflexivity|].
  apply (measurement_read_from_idle_starts_first false (fresh [])). reflexivity.
Defined.

(** ** Status register *)

Lemma land_pow2_eqb b n :
  0 <= n -> (Z.land b (2 ^ n) =? 0) = negb (Z.testbit b n).
Proof.
  intros Hn. destruct (Z.testbit b n) eqn:E; cbn [negb].
  - apply Z.eqb_neq. intros H.
    assert (F : Z.testbit (Z.land b (2 ^ n)) n = true).
    { rewrite Z.land_spec, E, Z.pow2_bits_true by lia. reflexivity. }
    rewrite H, Z.bits_0 in F. discriminate.
  - apply Z.eqb_eq. apply Z.bits_inj'. intros m Hm.
    rewrite Z.land_spec, Z.bits_0, Z.pow2_bits_eqb by lia.
    destruct (Z.eqb_spec n m) as [<- | _]; [rewrite E; reflexivity | apply andb_false_r].
Qed.

Lemma flag_testbit b n v status :
  0 <= n -> flag b (2 ^ n) v status = if Z.testbit b n then Z.lor status v else status.
Proof.
  intros Hn. unfold flag. rewrite land_pow2_eqb, negb_involutive by exact Hn.
  reflexivity.
Qed.

(** the status byte the source assembles, bit by bit *)
Definition status_of_bits (speed laser fan gas rht : bool) : Z :=
  (if speed then 1 else 0) + (if laser then 2 else 0) + (if fan then 4 else 0)
  + (if gas then 8 else 0) + (if rht then 16 else 0).

Lemma status_errors_bits b1 b3 :
  status_errors b1 b3
  = status_of_bits (Z.testbit b1 5) (Z.testbit b3 5) (Z.testbit b3 4)
                   (Z.testbit b3 7) (Z.testbit b3 6).
Proof.
  unfold status_errors.
  change 0x10 with (2 ^ 4). change 0x20 with (2 ^ 5).
  change 0x40 with (2 ^ 6). change 0x80 with (2 ^ 7).
  rewrite !flag_testbit by lia.
  destruct (Z.testbit b1 5), (Z.testbit b3 5), (Z.testbit b3 4),
    (Z.testbit b3 7), (Z.testbit b3 6); reflexivity.
Qed.

(** the session after the clear command that follows every status read *)
Definition cleared (s : SEN55) : SEN55 :=
  snd (I2C_SetPointer (snd (I2C_fill_buffer SEN55_CLEAR_DEVICE_REGISTER ArgNull s))).

Lemma cleared_fields s :
  _Receive_BUF (cleared s) = _Receive_BUF s
  /\ trace (cleared s) = trace s ++ [EvWrite SEN55_ADDRESS [0xD2; 0x10]].
Proof. split; reflexivity. Qed.

Lemma GetStatusReg_unfold avr status s :
  GetStatusReg avr status s =
  let (fw_ok, s1) := FWCheck avr 2 0 s in
  if negb fw_ok then (SEN55_ERR_FIRMWARE, STATUS_OK_55, s1)
  else
    let (ret, s2) := I2C_SetPointer_Read avr 4 false
                       (snd (I2C_fill_buffer SEN55_READ_DEVICE_REGISTER ArgNull s1)) in
    let s3 := cleared s2 in
    if negb (ret =? SEN55_ERR_OK) then (ret, STATUS_OK_55, s3)
    else
      let b1 := rd (_Receive_BUF s2) 1 in
      let b3 := rd (_Receive_BUF s2) 3 in
      if negb (status_errors b1 b3 =? STATUS_OK_55)
      then (SEN55_ERR_OUTOFRANGE, status_errors b1 b3, s3)
      else (SEN55_ERR_OK,
            if negb (Z.land b1 0x08 =? 0) then STATUS_FAN_CLEAN_ACTIVE_55
            else status_errors b1 b3,
            s3).
Proof.
  unfold GetStatusReg. run_M.
  destruct (FWCheck avr 2 0 s) as [fw_ok s1]. destruct fw_ok; cbn [negb]; [|reflexivity].
  change (I2C_fill_buffer SEN55_READ_DEVICE_REGISTER ArgNull s1)
    with (tt, snd (I2C_fill_buffer SEN55_READ_DEVICE_REGISTER ArgNull s1)).
  cbv iota.
  destruct (I2C_SetPointer_Read avr 4 false _) as [ret s2].
  unfold cleared.
  change (I2C_fill_buffer SEN55_CLEAR_DEVICE_REGISTER ArgNull s2)
    with (tt, snd (I2C_fill_buffer SEN55_CLEAR_DEVICE_REGISTER ArgNull s2)).
  cbv iota.
  change (I2C_SetPointer (snd (I2C_fill_buffer SEN55_CLEAR_DEVICE_REGISTER ArgNull s2)))
    with (SEN55_ERR_OK,
          snd (I2C_SetPointer
                 (snd (I2C_fill_buffer SEN55_CLEAR_DEVICE_REGISTER ArgNull s2)))).
  cbv iota. cbv zeta.
  destruct (negb (ret =? SEN55_ERR_OK)); [reflexivity|].
  change (_Receive_BUF (snd (I2C_SetPointer
            (snd (I2C_fill_buffer SEN55_CLEAR_DEVICE_REGISTER ArgNull s2)))))
    with (_Receive_BUF s2).
  destruct (negb (status_errors _ _ =? _)); reflexivity.
Qed.

(** C9: when the firmware check passes and the status register is read
    successfully, the error bits of the answer (fan speed: bit 5 of
    byte 1; laser, fan, gas, RH/T: bits 5, 4, 7, 6 of byte 3) decide
    the result.  If any of them is set, [GetStatusReg] returns
    [SEN55_ERR_OUTOFRANGE], which is not [SEN55_ERR_OK], and the status
    holds exactly the flags of the bits set, without the cleaning
    flag, whatever the cleaning bit (bit 3 of byte 1) is.  If none is
    set it returns [SEN55_ERR_OK], and the status is the cleaning flag
    or zero, after the cleaning bit. *)
Theorem status_errors_take_precedence avr status0 s s1 s2 :
  FWCheck avr 2 0 s = (true, s1) ->
  I2C_SetPointer_Read avr 4 false
    (snd (I2C_fill_buffer SEN55_READ_DEVICE_REGISTER ArgNull s1)) = (SEN55_ERR_OK, s2) ->
  let b1 := rd (_Receive_BUF s2) 1 in
  let b3 := rd (_Receive_BUF s2) 3 in
  let speed := Z.testbit b1 5 in
  let laser := Z.testbit b3 5 in
  let fan := Z.testbit b3 4 in
  let gas := Z.testbit b3 7 in
  let rht := Z.testbit b3 6 in
  let '(ret, status, _) := GetStatusReg avr status0 s in
  (speed || laser || fan || gas || rht = true ->
     ret = SEN55_ERR_OUTOFRANGE /\ ret <> SEN55_ERR_OK
     /\ status = status_of_bits speed laser fan gas rht
     /\ Z.land status STATUS_FAN_CLEAN_ACTIVE_55 = 0)
  /\ (speed || laser || fan || gas || rht = false ->
        ret = SEN55_ERR_OK
        /\ status = if Z.testbit b1 3 then STATUS_FAN_CLEAN_ACTIVE_55
                    else STATUS_OK_55).
Proof.
  intros Hfw Hread b1 b3 speed laser fan gas rht.
  rewrite GetStatusReg_unfold, Hfw. cbn [negb]. rewrite Hread. cbv zeta.
  change (negb (SEN55_ERR_OK =? SEN55_ERR_OK)) with false. cbv iota.
  fold b1. fold b3. rewrite status_errors_bits.
  fold speed. fold laser. fold fan. fold gas. fold rht.
  change 0x08 with (2 ^ 3). rewrite land_pow2_eqb, negb_involutive by lia.
  destruct speed, laser, fan, gas, rht; cbn;
    (split; [intros H | intros H]; try discriminate H;
     repeat split; try reflexivity; try discriminate).
Qed.

(** A device with firmware 2.0 that reports a gas error while the fan
    cleaning bit is set. *)
Lemma status_errors_take_precedence_witness :
  let s := mkSEN55 (repeat 0 MAXBUFLENGTH) (repeat 0 MAXBUFLENGTH) 0 0 true 2 0 0 0
             [] [[0x00; 0x08; 0x38; 0x00; 0x80; 0xFB]] [] in
  exists s1 s2,
    (FWCheck false 2 0 s = (true, s1)
     /\ I2C_SetPointer_Read false 4 false
          (snd (I2C_fill_buffer SEN55_READ_DEVICE_REGISTER ArgNull s1))
        = (SEN55_ERR_OK, s2)
     /\ rd (_Receive_BUF s2) 1 = 0x08 /\ rd (_Receive_BUF s2) 3 = 0x80)
    /\ let b1 := rd (_Receive_BUF s2) 1 in
       let b3 := rd (_Receive_BUF s2) 3 in
       let speed := Z.testbit b1 5 in
       let laser := Z.testbit b3 5 in
       let fan := Z.testbit b3 4 in
       let gas := Z.testbit b3 7 in
       let rht := Z.testbit b3 6 in
       let '(ret, status, _) := GetStatusReg false 7 s in
       (speed || laser || fan || gas || rht = true ->
          ret = SEN55_ERR_OUTOFRANGE /\ ret <> SEN55_ERR_OK
          /\ status = status_of_bits speed laser fan gas rht
          /\ Z.land status STATUS_FAN_CLEAN_ACTIVE_55 = 0)
       /\ (speed || laser || fan || gas || rht = false ->
             ret = SEN55_ERR_OK
             /\ status = if Z.testbit b1 3 then STATUS_FAN_CLEAN_ACTIVE_55
                         else STATUS_OK_55).
Proof.
  intros s.
  exists s,
    (snd (I2C_SetPointer_Read false 4 false
            (snd (I2C_fill_buffer SEN55_READ_DEVICE_REGISTER ArgNull s)))).
  split.
  - vm_compute. repeat split.
  - apply (status_errors_take_precedence false 7 s s); vm_compute; reflexivity.
Defined.

(** ** Getters on a failed read *)

(** the values the getters assemble from the receive buffer *)
Definition decoded_tmp_comp (s : SEN55) : sen_tmp_comp :=
  mk_sen_tmp_comp (to_int16 (byte_to_int16_t 0 s ÷ 200))
                  (to_int16 (byte_to_int16_t 2 s ÷ 1000))
                  (byte_to_Uint16_t 4 s).

Ltac getter_overwrites :=
  intros ? ? ? ? ? ?;
  match goal with |- ?g _ _ _ = _ -> _ => unfold g end;
  run_M;
  match goal with |- context [I2C_fill_buffer ?c ArgNull ?st] =>
    destruct (I2C_fill_buffer c ArgNull st) as [[] ?] end;
  match goal with |- context [I2C_SetPointer_Read ?a ?n ?z ?st] =>
    destruct (I2C_SetPointer_Read a n z st) as [? ?] end;
  let E := fresh "E" in
  intros E _; injection E as _ <- <-; reflexivity.

(** C10: when one of the getters [GetWarmStart], [GetRHTAccelMode],
    [GetAutoCleanInt], [GetNoxAlgorithm], [GetVocAlgorithm],
    [GetTmpComp] returns an error code, the value it hands back is not
    the caller's old value but the one assembled from the receive
    buffer as the failed read left it. *)
Theorem getters_overwrite_on_error :
  (forall avr old s ret val s',
     GetWarmStart avr old s = (ret, val, s') -> ret <> SEN55_ERR_OK ->
     val = byte_to_Uint16_t 0 s')
  /\ (forall avr old s ret val s',
        GetRHTAccelMode avr old s = (ret, val, s') -> ret <> SEN55_ERR_OK ->
        val = byte_to_Uint16_t 0 s')
  /\ (forall avr old s ret val s',
        GetAutoCleanInt avr old s = (ret, val, s') -> ret <> SEN55_ERR_OK ->
        val = byte_to_U32 0 s')
  /\ (forall avr old s ret nox s',
        GetNoxAlgorithm avr old s = (ret, nox, s') -> ret <> SEN55_ERR_OK ->
        nox = read_xox s')
  /\ (forall avr old s ret voc s',
        GetVocAlgorithm avr old s = (ret, voc, s') -> ret <> SEN55_ERR_OK ->
        voc = read_xox s')
  /\ (forall avr old s ret tmp s',
        GetTmpComp avr old s = (ret, tmp, s') -> ret <> SEN55_ERR_OK ->
        tmp = decoded_tmp_comp s').
Proof.
  repeat split; getter_overwrites.
Qed.

(** a session whose receive buffer still holds the bytes 0x12 0x34
    0x56 0x78 of an earlier transaction, on a bus where the device does
    not answer *)
Definition stale : SEN55 :=
  new_SEN55 ([0x12; 0x34; 0x56; 0x78] ++ repeat 0 46) (repeat 0 MAXBUFLENGTH) 0 0 [].

Lemma getters_overwrite_on_error_witness :
  (let r := GetWarmStart false 5 stale in
   fst (fst r) <> SEN55_ERR_OK /\ snd (fst r) = byte_to_Uint16_t 0 (snd r)
   /\ snd (fst r) = 0x1234)
  /\ (let r := GetRHTAccelMode false 5 stale in
      fst (fst r) <> SEN55_ERR_OK /\ snd (fst r) = byte_to_Uint16_t 0 (snd r)
      /\ snd (fst r) = 0x1234)
  /\ (let r := GetAutoCleanInt false 5 stale in
      fst (fst r) <> SEN55_ERR_OK /\ snd (fst r) = byte_to_U32 0 (snd r)
      /\ snd (fst r) = 0x12345678)
  /\ (let r := GetNoxAlgorithm false (mk_sen_xox 1 12 12 720 50 230) stale in
      fst (fst r) <> SEN55_ERR_OK /\ snd (fst r) = read_xox (snd r)
      /\ snd (fst r) = mk_sen_xox 0x1234 0x5678 0 0 0 0)
  /\ (let r := GetVocAlgorithm false (mk_sen_xox 100 12 12 180 50 230) stale in
      fst (fst r) <> SEN55_ERR_OK /\ snd (fst r) = read_xox (snd r)
      /\ snd (fst r) = mk_sen_xox 0x1234 0x5678 0 0 0 0)
  /\ (let r := GetTmpComp false (mk_sen_tmp_comp 1 1 1) stale in
      fst (fst r) <> SEN55_ERR_OK /\ snd (fst r) = decoded_tmp_comp (snd r)
      /\ snd (fst r) = mk_sen_tmp_comp 23 22 0).
Proof.
  pose proof getters_overwrite_on_error as (H1 & H2 & H3 & H4 & H5 & H6).
  assert (V : forall (A : Type) (P : Z -> A -> SEN55 -> Prop) (r : Z * A * SEN55) (v : A),
            (forall ret val s', r = (ret, val, s') -> ret <> SEN55_ERR_OK -> P ret val s') ->
            fst (fst r) <> SEN55_ERR_OK -> snd (fst r) = v ->
            fst (fst r) <> SEN55_ERR_OK /\ P (fst (fst r)) (snd (fst r)) (snd r)
            /\ snd (fst r) = v).
  { intros A P [[ret val] s'] v H Hr Hv. cbn [fst snd] in *.
    split; [exact Hr|]. split; [|exact Hv]. apply H; [reflexivity | exact Hr]. }
  split; [|split; [|split; [|split; [|split]]]]; cbv zeta.
  - apply (V Z (fun _ val s' => val = byte_to_Uint16_t 0 s') _ _ (H1 false 5 stale));
      vm_compute; (reflexivity || discriminate).
  - apply (V Z (fun _ val s' => val = byte_to_Uint16_t 0 s') _ _ (H2 false 5 stale));
      vm_compute; (reflexivity || discriminate).
  - apply (V Z (fun _ val s' => val = byte_to_U32 0 s') _ _ (H3 false 5 stale));
      vm_compute; (reflexivity || discriminate).
  - apply (V sen_xox (fun _ val s' => val = read_xox s') _ _ (H4 false _ stale));
      vm_compute; (reflexivity || discriminate).
  - apply (V sen_xox (fun _ val s' => val = read_xox s') _ _ (H5 false _ stale));
      vm_compute; (reflexivity || discriminate).
  - apply (V sen_tmp_comp (fun _ val s' => val = decoded_tmp_comp s') _ _
             (H6 false _ stale));
      vm_compute; (reflexivity || discriminate).
Defined.

(** * Further properties of the driver *)

(** ** Frames of the setters *)

(** the last frame written on the bus, if any *)
Definition last_frame (s : SEN55) : option (list Z) := last (frames_sent (trace s)).

Lemma last_frame_log_write s f : last_frame (log (EvWrite SEN55_ADDRESS f) s) = Some f.
Proof.
  unfold last_frame. change (trace (log ?e s)) with (trace s ++ [e]).
  rewrite frames_sent_app. apply last_snoc.
Qed.

(** a frame laid out as opcode and checksummed words is well formed *)
Lemma frame_okb_words o1 o2 (ws : list (Z * Z)) :
  frame_okb (length ws)
    ([o1; o2] ++ flat_map (fun w : Z * Z =>
                             [fst w; snd w; I2C_calc_CRC (fst w) (snd w)]) ws)
  = true.
Proof.
  unfold frame_okb. apply andb_true_iff. split.
  - apply Nat.eqb_eq. rewrite length_app. cbn [length].
    induction ws as [|w ws IH]; cbn [flat_map length app] in *; lia.
  - apply forallb_forall. intros k Hk. apply in_seq in Hk.
    apply Z.eqb_eq. unfold I2C_calc_CRC_at.
    replace (2 + 3 * k + 2)%nat with (S (S (3 * k + 2))) by lia.
    replace (S (2 + 3 * k)) with (S (S (3 * k + 1))) by lia.
    replace (2 + 3 * k)%nat with (S (S (3 * k))) by lia.
    change ([o1; o2] ++ ?l) with (o1 :: o2 :: l).
    rewrite !rd_cons_S.
    destruct Hk as [_ Hk]. cbn [Nat.add] in Hk.
    revert k Hk. induction ws as [|[a b] ws IH]; intros k Hk; [cbn in Hk; lia|].
    cbn [flat_map app fst snd]. destruct k as [|k].
    + reflexivity.
    + replace (3 * S k + 2)%nat with (S (S (S (3 * k + 2)))) by lia.
      replace (3 * S k + 1)%nat with (S (S (S (3 * k + 1)))) by lia.
      replace (3 * S k)%nat with (S (S (S (3 * k)))) by lia.
      rewrite !rd_cons_S. apply IH. cbn [length] in Hk. lia.
Qed.

(** Every setter other than [SetVocAlgorithmState] writes a frame in
    the wire format: the opcode, then each payload word followed by
    the checksum of that word. *)
Theorem setter_frames_are_well_formed s :
  (forall val, option_map (frame_okb 1) (last_frame (snd (SetWarmStart val s)))
               = Some true)
  /\ (forall val, option_map (frame_okb 1) (last_frame (snd (SetRHTAccelMode val s)))
                  = Some true)
  /\ (forall nox, option_map (frame_okb 6) (last_frame (snd (SetNoxAlgorithm nox s)))
                  = Some true)
  /\ (forall voc, option_map (frame_okb 6) (last_frame (snd (SetVocAlgorithm voc s)))
                  = Some true)
  /\ (forall tmp, option_map (frame_okb 3) (last_frame (snd (SetTmpComp tmp s)))
                  = Some true)
  /\ (forall val, _started s = false ->
        option_map (frame_okb 2) (last_frame (snd (SetAutoCleanInt val s)))
        = Some true).
Proof.
  repeat split; intros x.
  - unfold SetWarmStart. run_M. cbn -[last_frame frame_okb].
    rewrite last_frame_log_write. cbn [option_map]. f_equal.
    apply (frame_okb_words _ _ [(MSB x, LSB x)]).
  - unfold SetRHTAccelMode. run_M. cbn -[last_frame frame_okb].
    rewrite last_frame_log_write. cbn [option_map]. f_equal.
    apply (frame_okb_words _ _ [(MSB x, LSB x)]).
  - unfold SetNoxAlgorithm. run_M. cbn -[last_frame frame_okb limit].
    rewrite last_frame_log_write. cbn [option_map]. f_equal.
    apply (frame_okb_words _ _ [(_, _); (_, _); (_, _); (_, _); (_, _); (_, _)]).
  - unfold SetVocAlgorithm. run_M. cbn -[last_frame frame_okb limit].
    rewrite last_frame_log_write. cbn [option_map]. f_equal.
    apply (frame_okb_words _ _ [(_, _); (_, _); (_, _); (_, _); (_, _); (_, _)]).
  - unfold SetTmpComp. run_M. cbn -[last_frame frame_okb].
    rewrite last_frame_log_write. cbn [option_map]. f_equal.
    apply (frame_okb_words _ _ [(_, _); (_, _); (_, _)]).
  - intros Hs. unfold SetAutoCleanInt. run_M. rewrite Hs. cbn -[last_frame frame_okb].
    rewrite last_frame_log_write. cbn [option_map]. f_equal.
    apply (frame_okb_words _ _ [(_, _); (_, _)]).
Qed.

Lemma setter_frames_are_well_formed_witness :
  _started (fresh []) = false
  /\ option_map (frame_okb 2) (last_frame (snd (SetAutoCleanInt 604800 (fresh []))))
     = Some true.
Proof.
  split; [reflexivity|].
  apply (setter_frames_are_well_formed (fresh [])). reflexivity.
Defined.

(** ** Session state *)

(** [stop] and [reset] always succeed and leave the session idle,
    whatever it was before; [reset] also restarts the I2C port between
    two waits of half a second. *)
Theorem stop_and_reset_return_to_idle s :
  (exists s1, stop s = (true, s1) /\ _started s1 = false
              /\ trace s1 = trace s ++ [EvWrite SEN55_ADDRESS [0x01; 0x04]])
  /\ (exists s1, reset s = (true, s1) /\ _started s1 = false
                 /\ trace s1 = trace s ++
                      [EvWrite SEN55_ADDRESS [0xD3; 0x04]; EvDelay 500;
                       EvWireBegin; EvDelay 500]).
Proof.
  split; eexists; (split; [reflexivity|]); (split; [reflexivity|]).
  - reflexivity.
  - cbn. rewrite <- !app_assoc. reflexivity.
Qed.

(** Fan cleaning is refused on an idle session, with nothing sent on
    the bus and the session unchanged; on a started session the
    command is written and the session stays started. *)
Theorem clean_needs_a_started_session s :
  (_started s = false -> clean s = (false, s))
  /\ (_started s = true ->
      exists s1, clean s = (true, s1) /\ _started s1 = true
                 /\ trace s1 = trace s ++ [EvWrite SEN55_ADDRESS [0x56; 0x07]]).
Proof.
  split; intros H.
  - unfold clean, Instruct. run_M. rewrite H. reflexivity.
  - unfold clean, Instruct. run_M. rewrite H.
    eexists. split; [reflexivity|]. split; [exact H | reflexivity].
Qed.

Lemma clean_needs_a_started_session_witness :
  (_started (fresh []) = false /\ clean (fresh []) = (false, fresh []))
  /\ (_started (snd (start (fresh []))) = true
      /\ exists s1, clean (snd (start (fresh []))) = (true, s1) /\ _started s1 = true
                    /\ trace s1 = trace (snd (start (fresh []))) ++
                         [EvWrite SEN55_ADDRESS [0x56; 0x07]]).
Proof.
  split; (split; [reflexivity|]).
  - apply (clean_needs_a_started_session (fresh [])). reflexivity.
  - apply (clean_needs_a_started_session (snd (start (fresh [])))). reflexivity.
Defined.

(** [SetAutoCleanInt] always reports success and leaves the session in
    the state it found it: an idle session sees one write, a started
    one is stopped, written to and started again. *)
Theorem SetAutoCleanInt_restores_the_session val s :
  let (ret, s') := SetAutoCleanInt val s in
  ret = SEN55_ERR_OK
  /\ _started s' = _started s
  /\ trace s' = trace s ++
       if _started s
       then [EvWrite SEN55_ADDRESS [0x01; 0x04];
             EvWrite SEN55_ADDRESS (auto_clean_frame (data32 s));
             EvWrite SEN55_ADDRESS [0x00; 0x21]; EvDelay 1000]
       else [EvWrite SEN55_ADDRESS (auto_clean_frame (data32 s))].
Proof.
  unfold SetAutoCleanInt, stop, start, Instruct. run_M.
  destruct (_started s) eqn:E; cbn.
  - rewrite <- !app_assoc. repeat split.
  - repeat split. exact E.
Qed.

(** ** Guards that keep off the bus *)

(** A table shorter than the VOC algorithm state is refused by both
    accessors before anything is sent; the table and the session are
    left alone. *)
Theorem voc_state_table_too_small avr table tablesize s :
  (tablesize < VOC_ALO_SIZE)%nat ->
  GetVocAlgorithmState avr table tablesize s = (SEN55_ERR_PARAMETER, table, s)
  /\ SetVocAlgorithmState table tablesize s = (SEN55_ERR_PARAMETER, s).
Proof.
  intros H. apply Nat.ltb_lt in H.
  unfold GetVocAlgorithmState, SetVocAlgorithmState. rewrite H. split; reflexivity.
Qed.

Lemma voc_state_table_too_small_witness :
  (7 < VOC_ALO_SIZE)%nat
  /\ GetVocAlgorithmState false [1; 2; 3; 4; 5; 6; 7] 7 (fresh [])
     = (SEN55_ERR_PARAMETER, [1; 2; 3; 4; 5; 6; 7], fresh [])
  /\ SetVocAlgorithmState [1; 2; 3; 4; 5; 6; 7] 7 (fresh [])
     = (SEN55_ERR_PARAMETER, fresh []).
Proof.
  split; [unfold VOC_ALO_SIZE; lia|].
  apply (voc_state_table_too_small false [1; 2; 3; 4; 5; 6; 7] 7 (fresh [])).
  unfold VOC_ALO_SIZE. lia.
Defined.

(** [Get_Device_info] with a command other than the serial number or
    the product name read fails with [SEN55_ERR_PARAMETER]; the bus,
    the session and the caller's buffer are untouched. *)
Theorem Get_Device_info_rejects_other_commands avr type ser len s :
  type <> SEN55_READ_SERIAL_NUMBER -> type <> SEN55_READ_PRODUCT_NAME ->
  Get_Device_info avr type ser len s = (SEN55_ERR_PARAMETER, ser, s).
Proof.
  intros H1 H2. apply Z.eqb_neq in H1, H2.
  unfold Get_Device_info. run_M. rewrite H1, H2. reflexivity.
Qed.

Lemma Get_Device_info_rejects_other_commands_witness :
  (SEN55_READ_VERSION <> SEN55_READ_SERIAL_NUMBER
   /\ SEN55_READ_VERSION <> SEN55_READ_PRODUCT_NAME)
  /\ Get_Device_info false SEN55_READ_VERSION [7; 7] 2 (fresh [])
     = (SEN55_ERR_PARAMETER, [7; 7], fresh []).
Proof.
  split; [split; discriminate|].
  apply (Get_Device_info_rejects_other_commands false SEN55_READ_VERSION [7; 7] 2
           (fresh [])); discriminate.
Defined.

(** ** Firmware level *)

Lemma FWCheck_cached_eq avr major minor s :
  _FW_Major s <> 0 ->
  FWCheck avr major minor s
  = ((major <=? _FW_Major s) && (minor <=? _FW_Minor s), s).
Proof.
  intros H. apply Z.eqb_neq in H. unfold FWCheck. run_M. rewrite H. cbn [negb].
  rewrite (Z.leb_antisym (_FW_Major s)), (Z.leb_antisym (_FW_Minor s)).
  destruct (_FW_Major s <? major), (_FW_Minor s <? minor); reflexivity.
Qed.

(** With a firmware level already cached, [FWCheck] stays off the bus
    and compares major and minor separately: it passes exactly when
    neither requested number exceeds the cached one. *)
Theorem FWCheck_cached avr major minor s :
  _FW_Major s <> 0 ->
  FWCheck avr major minor s
  = ((major <=? _FW_Major s) && (minor <=? _FW_Minor s), s).
Proof. apply FWCheck_cached_eq. Qed.

(** firmware 3.0 does not pass a check for level 2.1 *)
Lemma FWCheck_cached_witness :
  let s := mkSEN55 [] [] 0 0 false 3 0 0 0 [] [] [] in
  _FW_Major s <> 0
  /\ FWCheck false 2 1 s = ((2 <=? _FW_Major s) && (1 <=? _FW_Minor s), s)
  /\ FWCheck false 2 1 s = (false, s).
Proof.
  intros s. split; [discriminate|]. split; [|reflexivity].
  apply (FWCheck_cached false 2 1 s). discriminate.
Defined.

Lemma GetVersion_unfold avr v s :
  GetVersion avr v s =
  let (ret, s1) := I2C_ReadToBuffer avr 8 false (commanded SEN55_READ_VERSION s) in
  if ret =? SEN55_ERR_OK then
    (ret,
     mk_sen_version (rd (_Receive_BUF s1) 0) (rd (_Receive_BUF s1) 1)
       (negb (rd (_Receive_BUF s1) 2 =? 0))
       (rd (_Receive_BUF s1) 3) (rd (_Receive_BUF s1) 4)
       (rd (_Receive_BUF s1) 5) (rd (_Receive_BUF s1) 6)
       DRIVER_MAJOR DRIVER_MINOR,
     set_FW (rd (_Receive_BUF s1) 0) (rd (_Receive_BUF s1) 1) s1)
  else (ret, mk_sen_version 0 0 false 0 0 0 0 0 0, s1).
Proof.
  unfold GetVersion, commanded, I2C_SetPointer_Read. run_M.
  cbn -[I2C_ReadToBuffer].
  destruct (I2C_ReadToBuffer _ _ _ _) as [ret s1].
  destruct (ret =? SEN55_ERR_OK); reflexivity.
Qed.

Lemma commanded_READ_VERSION s :
  device (commanded SEN55_READ_VERSION s) = device s
  /\ _Receive_BUF (commanded SEN55_READ_VERSION s) = _Receive_BUF s
  /\ _FW_Major (commanded SEN55_READ_VERSION s) = _FW_Major s
  /\ _FW_Minor (commanded SEN55_READ_VERSION s) = _FW_Minor s
  /\ trace (commanded SEN55_READ_VERSION s)
     = trace s ++ [EvWrite SEN55_ADDRESS [0xD1; 0x00]; EvDelay 5].
Proof.
  repeat split. cbn. rewrite <- app_assoc. reflexivity.
Qed.

(** When the version read fails, [GetVersion] hands back a structure
    of zeros (not the caller's old values, and without the library
    level) and leaves the cached firmware level as it was. *)
Theorem GetVersion_failure avr v s :
  let '(ret, v', s') := GetVersion avr v s in
  ret <> SEN55_ERR_OK ->
  v' = mk_sen_version 0 0 false 0 0 0 0 0 0
  /\ _FW_Major s' = _FW_Major s /\ _FW_Minor s' = _FW_Minor s.
Proof.
  rewrite GetVersion_unfold.
  pose proof (I2C_ReadToBuffer_outside avr 8 false (commanded SEN55_READ_VERSION s)) as H.
  destruct (I2C_ReadToBuffer _ _ _ _) as [ret s1]. cbn [snd] in H.
  destruct H as (_ & _ & _ & H1 & H2 & _).
  destruct (commanded_READ_VERSION s) as (_ & _ & E1 & E2 & _).
  destruct (Z.eqb_spec ret SEN55_ERR_OK) as [-> | _]; intros Hne; [contradiction|].
  split; [reflexivity|]. rewrite H1, H2, E1, E2. split; reflexivity.
Qed.

Lemma GetVersion_failure_witness :
  let s := mkSEN55 (repeat 0 MAXBUFLENGTH) (repeat 0 MAXBUFLENGTH) 0 0 false 2 1 0 0
             [] [] [] in
  let r := GetVersion false (mk_sen_version 9 9 true 9 9 9 9 9 9) s in
  fst (fst r) <> SEN55_ERR_OK
  /\ snd (fst r) = mk_sen_version 0 0 false 0 0 0 0 0 0
  /\ _FW_Major (snd r) = _FW_Major s /\ _FW_Minor (snd r) = _FW_Minor s.
Proof.
  intros s r.
  pose proof (GetVersion_failure false (mk_sen_version 9 9 true 9 9 9 9 9 9) s) as H.
  fold r in H. destruct r as [[ret v'] s'] eqn:E. cbn [fst snd].
  assert (Hr : ret <> SEN55_ERR_OK).
  { replace ret with (fst (fst r)) by (rewrite E; reflexivity).
    vm_compute. discriminate. }
  split; [exact Hr | exact (H Hr)].
Defined.

(** the answer of the device to the version read: eight data bytes *)
Definition version_groups (b0 b1 b2 b3 b4 b5 b6 b7 : Z) : list group :=
  [ (b0, b1, I2C_calc_CRC b0 b1); (b2, b3, I2C_calc_CRC b2 b3);
    (b4, b5, I2C_calc_CRC b4 b5); (b6, b7, I2C_calc_CRC b6 b7) ].

(** A valid answer to the version read is decoded byte by byte:
    firmware major and minor, the debug flag, hardware major and minor,
    protocol major and minor; the library level is added and the
    firmware level is cached in the session. *)
Theorem GetVersion_decodes avr v s b0 b1 b2 b3 b4 b5 b6 b7 rest :
  device s = wire (version_groups b0 b1 b2 b3 b4 b5 b6 b7) :: rest ->
  length (_Receive_BUF s) = MAXBUFLENGTH ->
  let '(ret, v', s') := GetVersion avr v s in
  ret = SEN55_ERR_OK
  /\ v' = mk_sen_version b0 b1 (negb (b2 =? 0)) b3 b4 b5 b6 DRIVER_MAJOR DRIVER_MINOR
  /\ _FW_Major s' = b0 /\ _FW_Minor s' = b1.
Proof.
  intros Hdev Hlen. rewrite GetVersion_unfold.
  destruct (commanded_READ_VERSION s) as (Ed & Eb & _).
  destruct (I2C_ReadToBuffer_valid_buf avr 8 false (commanded SEN55_READ_VERSION s)
              (version_groups b0 b1 b2 b3 b4 b5 b6 b7))
    as (s1 & E & Hb & _).
  - unfold next_answer. rewrite Ed, Hdev. destruct avr; reflexivity.
  - destruct avr; reflexivity.
  - unfold version_groups, passes, group_ok. cbn [forallb andb negb].
    rewrite !Z.eqb_refl. reflexivity.
  - reflexivity.
  - lia.
  - rewrite Eb, Hlen. unfold MAXBUFLENGTH. lia.
  - rewrite E. change (SEN55_ERR_OK =? SEN55_ERR_OK) with true. cbv iota.
    change (payload (version_groups b0 b1 b2 b3 b4 b5 b6 b7))
      with [b0; b1; b2; b3; b4; b5; b6; b7] in Hb.
    rewrite Hb. cbn [app]. rewrite !rd_cons_S, !rd_cons_0.
    repeat split.
Qed.

Lemma GetVersion_decodes_witness :
  let s := fresh [wire (version_groups 2 0 0 4 0 1 0 0)] in
  (device s = wire (version_groups 2 0 0 4 0 1 0 0) :: []
   /\ length (_Receive_BUF s) = MAXBUFLENGTH)
  /\ let '(ret, v', s') := GetVersion true (mk_sen_version 9 9 true 9 9 9 9 9 9) s in
     ret = SEN55_ERR_OK
     /\ v' = mk_sen_version 2 0 (negb (0 =? 0)) 4 0 1 0 DRIVER_MAJOR DRIVER_MINOR
     /\ _FW_Major s' = 2 /\ _FW_Minor s' = 0.
Proof.
  intros s. split; [split; reflexivity|].
  apply (GetVersion_decodes true (mk_sen_version 9 9 true 9 9 9 9 9 9) s
           2 0 0 4 0 1 0 0 []); reflexivity.
Defined.

(** ** Status register: the gate and the clear command *)

(** A cached firmware major level of 1 keeps [GetStatusReg] off the
    bus: it fails with [SEN55_ERR_FIRMWARE], reports no status bit and
    leaves the session alone. *)
Theorem GetStatusReg_needs_firmware_2 avr status s :
  _FW_Major s = 1 ->
  GetStatusReg avr status s = (SEN55_ERR_FIRMWARE, STATUS_OK_55, s).
Proof.
  intros H. rewrite GetStatusReg_unfold, FWCheck_cached_eq by (rewrite H; discriminate).
  rewrite H. reflexivity.
Qed.

Lemma GetStatusReg_needs_firmware_2_witness :
  let s := mkSEN55 [] [] 0 0 true 1 9 0 0 [] [[0; 0; 0x81; 0; 0; 0x81]] [] in
  _FW_Major s = 1
  /\ GetStatusReg false 0x3F s = (SEN55_ERR_FIRMWARE, STATUS_OK_55, s).
Proof.
  intros s. split; [reflexivity|].
  apply (GetStatusReg_needs_firmware_2 false 0x3F s). reflexivity.
Defined.

(** Once the firmware check has passed, [GetStatusReg] writes the
    clear command after the read whether the read succeeded or not: it
    is the last frame on the bus.  A failed read is reported with its
    own error code and no status bit. *)
Theorem GetStatusReg_always_clears avr status s s1 :
  FWCheck avr 2 0 s = (true, s1) ->
  let '(ret, status', s') := GetStatusReg avr status s in
  last_frame s' = Some [0xD2; 0x10]
  /\ (fst (I2C_SetPointer_Read avr 4 false
             (snd (I2C_fill_buffer SEN55_READ_DEVICE_REGISTER ArgNull s1)))
      <> SEN55_ERR_OK ->
      ret = fst (I2C_SetPointer_Read avr 4 false
                   (snd (I2C_fill_buffer SEN55_READ_DEVICE_REGISTER ArgNull s1)))
      /\ status' = STATUS_OK_55).
Proof.
  intros Hfw. rewrite GetStatusReg_unfold, Hfw. cbn [negb].
  destruct (I2C_SetPointer_Read avr 4 false _) as [ret s2]. cbn [fst]. cbv zeta.
  assert (L : last_frame (cleared s2) = Some [0xD2; 0x10]).
  { unfold last_frame. rewrite (proj2 (cleared_fields s2)), frames_sent_app.
    apply last_snoc. }
  destruct (Z.eqb_spec ret SEN55_ERR_OK) as [-> | Hne]; cbn [negb].
  - destruct (negb (status_errors _ _ =? _)); (split; [exact L | intros H; contradiction]).
  - split; [exact L|]. intros _. split; reflexivity.
Qed.

Lemma GetStatusReg_always_clears_witness :
  let s := mkSEN55 (repeat 0 MAXBUFLENGTH) (repeat 0 MAXBUFLENGTH) 0 0 true 2 0 0 0
             [] [[0x00; 0x08; 0xFF; 0x00; 0x80; 0xFB]] [] in
  FWCheck false 2 0 s = (true, s)
  /\ let '(ret, status', s') := GetStatusReg false 0 s in
     last_frame s' = Some [0xD2; 0x10]
     /\ (fst (I2C_SetPointer_Read false 4 false
                (snd (I2C_fill_buffer SEN55_READ_DEVICE_REGISTER ArgNull s)))
         <> SEN55_ERR_OK ->
         ret = fst (I2C_SetPointer_Read false 4 false
                      (snd (I2C_fill_buffer SEN55_READ_DEVICE_REGISTER ArgNull s)))
         /\ status' = STATUS_OK_55).
Proof.
  intros s. split; [reflexivity|].
  apply (GetStatusReg_always_clears false 0 s s). reflexivity.
Defined.

(** ** The receive decoder: edge cases *)

(** Round trip on the wire: an answer made of [count / 2] words, each
    followed by its checksum, is accepted, and the receive buffer then
    starts with the data bytes of the words in order.  (In
    zero-terminated mode the words must not be zero.) *)
Theorem valid_answer_is_decoded avr count chk_zero s gs :
  next_answer (exp_cnt avr count) s = wire gs ->
  (3 * length gs)%nat = exp_cnt avr count ->
  forallb (passes chk_zero) gs = true ->
  (2 * length gs)%nat = count ->
  (0 < count)%nat ->
  (count <= length (_Receive_BUF s))%nat ->
  exists s',
    I2C_ReadToBuffer avr count chk_zero s = (SEN55_ERR_OK, s')
    /\ _Receive_BUF s' = payload gs ++ drop count (_Receive_BUF s)
    /\ _Receive_BUF_Length s' = count
    /\ wire_rx s' = []
    /\ trace s' = trace s ++ [EvRequest SEN55_ADDRESS (exp_cnt avr count)]
    /\ _started s' = _started s.
Proof. apply I2C_ReadToBuffer_valid_buf. Qed.

Lemma valid_answer_is_decoded_witness :
  let gs := [(0xBE, 0xEF, 0x92); (0x00, 0x00, 0x81)] in
  let s := fresh [wire gs] in
  (next_answer (exp_cnt true 4) s = wire gs
   /\ (3 * length gs)%nat = exp_cnt true 4
   /\ forallb (passes false) gs = true
   /\ (2 * length gs)%nat = 4%nat
   /\ (0 < 4)%nat
   /\ (4 <= length (_Receive_BUF s))%nat)
  /\ exists s',
       I2C_ReadToBuffer true 4 false s = (SEN55_ERR_OK, s')
       /\ _Receive_BUF s' = payload gs ++ drop 4 (_Receive_BUF s)
       /\ _Receive_BUF_Length s' = 4%nat
       /\ wire_rx s' = []
       /\ trace s' = trace s ++ [EvRequest SEN55_ADDRESS (exp_cnt true 4)]
       /\ _started s' = _started s.
Proof.
  intros gs s. split.
  - vm_compute. repeat split; lia.
  - apply (valid_answer_is_decoded true 4 false s gs); vm_compute; (reflexivity || lia).
Defined.

(** A request for an odd number of data bytes cannot succeed outside
    zero-terminated mode: the driver asks for [count / 2] words, and a
    complete, valid answer then holds one byte less than [count], which
    is reported as [SEN55_ERR_DATALENGTH]. *)
Theorem odd_count_is_a_length_error avr count s gs :
  Nat.odd count = true ->
  next_answer (exp_cnt avr count) s = wire gs ->
  (3 * length gs)%nat = exp_cnt avr count ->
  length gs = (count / 2)%nat ->
  (3 <= count)%nat ->
  forallb group_ok gs = true ->
  let (ret, s') := I2C_ReadToBuffer avr count false s in
  ret = SEN55_ERR_DATALENGTH /\ _Receive_BUF_Length s' = (count - 1)%nat.
Proof.
  intros Hodd Hrx Hlen Hn Hc Hok. rewrite I2C_ReadToBuffer_unfold. cbn zeta.
  rewrite Hrx, length_wire, Hlen, Nat.eqb_refl. cbn [negb].
  assert (Hhalf : (count = 2 * (count / 2) + 1)%nat).
  { pose proof (Nat.div_mod_eq count 2) as E.
    rewrite <- Nat.bit0_mod, Nat.bit0_odd, Hodd in E. exact E. }
  assert (Hpass : forallb (passes false) gs = true).
  { apply forallb_forall. intros g Hg. unfold passes.
    rewrite (proj1 (forallb_forall _ _) Hok g Hg). reflexivity. }
  destruct (read_loop_complete count false gs 0 0 0 (requested avr count s) Hpass)
    as (data & E).
  { cbn. lia. }
  rewrite E. cbn [seq fold_left].
  assert (EL : _Receive_BUF_Length
                 (set_wire_rx [] (push_groups gs (requested avr count s)))
               = (2 * (count / 2))%nat).
  { change (_Receive_BUF_Length (set_wire_rx [] ?x)) with (_Receive_BUF_Length x).
    rewrite push_groups_length, Hn. reflexivity. }
  rewrite EL.
  destruct (Nat.eqb_spec (2 * (count / 2)) 0) as [H0 | _]; [lia|].
  destruct (Nat.eqb_spec (2 * (count / 2)) count) as [H1 | _]; [lia|].
  split; [reflexivity | lia].
Qed.

Lemma odd_count_is_a_length_error_witness :
  let gs := [(0xBE, 0xEF, 0x92)] in
  let s := fresh [wire gs] in
  (Nat.odd 3 = true
   /\ next_answer (exp_cnt false 3) s = wire gs
   /\ (3 * length gs)%nat = exp_cnt false 3
   /\ length gs = (3 / 2)%nat
   /\ (3 <= 3)%nat
   /\ forallb group_ok gs = true)
  /\ let (ret, s') := I2C_ReadToBuffer false 3 false s in
     ret = SEN55_ERR_DATALENGTH /\ _Receive_BUF_Length s' = (3 - 1)%nat.
Proof.
  intros gs s. split.
  - vm_compute. repeat split; lia.
  - apply (odd_count_is_a_length_error false 3 s gs); vm_compute; (reflexivity || lia).
Defined.

(** A request for fewer than two data bytes asks the device for
    nothing and always fails with [SEN55_ERR_PROTOCOL]. *)
Theorem tiny_count_is_a_protocol_error avr count chk_zero s :
  (count < 2)%nat ->
  let (ret, s') := I2C_ReadToBuffer avr count chk_zero s in
  ret = SEN55_ERR_PROTOCOL
  /\ trace s' = trace s ++ [EvRequest SEN55_ADDRESS 0]
  /\ _Receive_BUF s' = _Receive_BUF s.
Proof.
  intros H. rewrite I2C_ReadToBuffer_unfold. cbn zeta.
  assert (E : exp_cnt avr count = 0%nat).
  { destruct count as [|[|count]]; [destruct avr; reflexivity .. | lia]. }
  assert (R : next_answer 0 s = []).
  { unfold next_answer. destruct (device s); reflexivity. }
  rewrite E, R.
  change (negb (length (@nil Z) =? 0)%nat) with false. cbv iota.
  cbn [read_loop seq fold_left set_wire_rx _Receive_BUF_Length].
  change (_Receive_BUF_Length (requested avr count s)) with 0%nat.
  cbn [Nat.eqb]. split; [reflexivity|]. split; [|reflexivity].
  destruct (requested_fields avr count s) as (_ & _ & Ht & _).
  change (trace (set_wire_rx [] ?x)) with (trace x). rewrite Ht, E. reflexivity.
Qed.

Lemma tiny_count_is_a_protocol_error_witness :
  (1 < 2)%nat
  /\ let (ret, s') := I2C_ReadToBuffer false 1 true (fresh [[0; 0; 0x81]]) in
     ret = SEN55_ERR_PROTOCOL
     /\ trace s' = trace (fresh [[0; 0; 0x81]]) ++ [EvRequest SEN55_ADDRESS 0]
     /\ _Receive_BUF s' = _Receive_BUF (fresh [[0; 0; 0x81]]).
Proof.
  split; [lia|].
  apply (tiny_count_is_a_protocol_error false 1 true (fresh [[0; 0; 0x81]])). lia.
Defined.

(** ** How much the decoder stores *)

Lemma fold_push_length (data : list Z) js : forall s,
  _Receive_BUF_Length (fold_left (fun s j => push_rx (rd data j) s) js s)
  = (_Receive_BUF_Length s + length js)%nat.
Proof.
  induction js as [|j js IH]; intros s; cbn [fold_left length]; [lia|].
  rewrite IH. cbn. lia.
Qed.

(** Two data bytes are stored for every three bytes taken from the
    port, plus the bytes of an incomplete last group. *)
Lemma read_loop_stores count chk_zero rx : forall i data s,
  (i < 3)%nat ->
  let (ex, s') := read_loop count chk_zero rx i data s in
  (_Receive_BUF_Length s' + match ex with Leave i' _ => i' | Return _ => 0 end
   <= _Receive_BUF_Length s + 2 * ((i + length rx) / 3) + (i + length rx) mod 3)%nat.
Proof.
  induction rx as [|b rx IH]; intros i data s Hi; cbn [read_loop length].
  - cbn [set_wire_rx _Receive_BUF_Length]. rewrite Nat.add_0_r.
    rewrite (Nat.div_small i 3), (Nat.mod_small i 3) by exact Hi. lia.
  - destruct (Nat.eqb_spec (S i) 3) as [E | E].
    + assert (Ei : i = 2%nat) by lia. subst i.
      assert (D : ((2 + S (length rx)) / 3 = 1 + length rx / 3
                   /\ (2 + S (length rx)) mod 3 = length rx mod 3)%nat).
      { replace (2 + S (length rx))%nat with (length rx + 1 * 3)%nat by lia.
        rewrite Nat.div_add, Nat.Div0.mod_add by lia. lia. }
      destruct D as [D1 D2]. rewrite D1, D2.
      destruct (negb _).
      * cbn [set_wire_rx _Receive_BUF_Length]. lia.
      * destruct (chk_zero && _ && _).
        { cbn [set_wire_rx _Receive_BUF_Length push_rx set_Receive_BUF_Length
               set_Receive_BUF]. lia. }
        destruct (_ <=? _)%nat.
        { cbn [set_wire_rx _Receive_BUF_Length push_rx set_Receive_BUF_Length
               set_Receive_BUF]. lia. }
        match goal with |- context [read_loop _ _ _ 0 ?d ?st] =>
          specialize (IH 0%nat d st ltac:(lia));
          destruct (read_loop count chk_zero rx 0 d st) as [ex s'] end.
        cbn [push_rx set_Receive_BUF_Length set_Receive_BUF _Receive_BUF_Length
             Nat.add] in IH. lia.
    + specialize (IH (S i) (<[i:=b]> data) s ltac:(lia)).
      destruct (read_loop _ _ _ _ _ _) as [ex s'].
      replace (i + S (length rx))%nat with (S i + length rx)%nat by lia. exact IH.
Qed.

Lemma stored_of_received e m :
  (e <= 3 * m -> 2 * (e / 3) + e mod 3 <= 2 * m)%nat.
Proof.
  intros H. pose proof (Nat.div_mod_eq e 3) as E.
  pose proof (Nat.mod_upper_bound e 3 ltac:(lia)) as U.
  destruct (Nat.eq_dec (e / 3)%nat m) as [Em | Em]; nia.
Qed.

(** [I2C_ReadToBuffer] never leaves more than [count] bytes in the
    receive buffer, whatever the device answers and with or without
    [MAX_32_TO_EXPECT]: a request for at most [MAXBUFLENGTH] bytes stays
    inside the buffer. *)
Theorem decoded_length_is_bounded avr count chk_zero s :
  (_Receive_BUF_Length (snd (I2C_ReadToBuffer avr count chk_zero s)) <= count)%nat.
Proof.
  assert (B : (_Receive_BUF_Length (snd (I2C_ReadToBuffer avr count chk_zero s))
               <= 2 * (exp_cnt avr count / 3) + exp_cnt avr count mod 3)%nat).
  { rewrite I2C_ReadToBuffer_unfold. cbn zeta.
    destruct (Nat.eqb_spec (length (next_answer (exp_cnt avr count) s))
                (exp_cnt avr count)) as [El | _]; cbn [negb snd].
    - pose proof (read_loop_stores count chk_zero
                    (next_answer (exp_cnt avr count) s) 0 [0; 0; 0]
                    (requested avr count s) ltac:(lia)) as H.
      destruct (read_loop _ _ _ _ _ _) as [[ret | i data] s2].
      + cbn [snd]. rewrite El in H.
        change (_Receive_BUF_Length (requested avr count s)) with 0%nat in H.
        cbn [Nat.add] in H. lia.
      + assert (L : _Receive_BUF_Length
                  (fold_left (fun s j => push_rx (rd data j) s) (seq 0 i) s2)
                = (_Receive_BUF_Length s2 + i)%nat).
        { rewrite fold_push_length, length_seq. reflexivity. }
        rewrite El in H.
        change (_Receive_BUF_Length (requested avr count s)) with 0%nat in H.
        cbn [Nat.add] in H.
        repeat match goal with |- context [if ?c then _ else _] => destruct c end;
          cbn [snd]; rewrite L; exact H.
    - change (_Receive_BUF_Length (requested avr count s)) with 0%nat. lia. }
  pose proof (exp_cnt_le avr count) as Hle.
  pose proof (half_twice_le count) as Hh.
  pose proof (stored_of_received (exp_cnt avr count) (count / 2) ltac:(lia)).
  lia.
Qed.

(** ** The 32-byte limit of AVR boards *)

(** Where [MAX_32_TO_EXPECT] is defined and more than 32 bytes would be
    needed, the driver asks for 32 bytes: ten checked words and two
    more bytes.  If none of the ten words ends the read, the two bytes
    are stored as data without any checksum, 22 bytes are counted, and
    the read fails with [SEN55_ERR_DATALENGTH] unless exactly 22 bytes
    were asked for. *)
Theorem avr_limit_cuts_long_answers count chk_zero s gs x y :
  exp_cnt true count = 32%nat ->
  (22 <= count)%nat ->
  next_answer 32 s = wire gs ++ [x; y] ->
  length gs = 10%nat ->
  forallb (passes chk_zero) gs = true ->
  (22 <= length (_Receive_BUF s))%nat ->
  let (ret, s') := I2C_ReadToBuffer true count chk_zero s in
  ret = (if (count =? 22)%nat then SEN55_ERR_OK else SEN55_ERR_DATALENGTH)
  /\ _Receive_BUF_Length s' = 22%nat
  /\ _Receive_BUF s' = payload gs ++ [x; y] ++ drop 22 (_Receive_BUF s).
Proof.
  intros He Hc Hrx Hn Hok Hbuf. rewrite I2C_ReadToBuffer_unfold. cbn zeta.
  rewrite He, Hrx, length_app, length_wire, Hn.
  change (negb (3 * 10 + length [x; y] =? 32)%nat) with false. cbv iota.
  destruct (read_loop_passes count chk_zero gs [x; y] 0 0 0 (requested true count s) Hok)
    as (a & b & c & E).
  { change (_Receive_BUF_Length (requested true count s)) with 0%nat. lia. }
  rewrite E. cbn [read_loop Nat.eqb seq fold_left].
  set (s2 := push_groups gs (requested true count s)).
  assert (L2 : _Receive_BUF_Length s2 = 20%nat).
  { unfold s2. rewrite push_groups_length, Hn. reflexivity. }
  assert (B2 : _Receive_BUF s2 = payload gs ++ drop 20 (_Receive_BUF s)).
  { unfold s2. rewrite (push_groups_buf gs _ [] (_Receive_BUF s));
      [rewrite Hn; reflexivity | reflexivity | reflexivity | lia]. }
  clearbody s2.
  cbn [push_rx set_wire_rx set_Receive_BUF set_Receive_BUF_Length
       _Receive_BUF _Receive_BUF_Length].
  rewrite L2. change (22 =? 0)%nat with false. cbv iota.
  change (rd (<[1%nat:=y]> (<[0%nat:=x]> [a; b; c])) 0) with x.
  change (rd (<[1%nat:=y]> (<[0%nat:=x]> [a; b; c])) 1) with y.
  assert (Ebuf : _Receive_BUF (push_rx y (push_rx x (set_wire_rx [] s2)))
                 = payload gs ++ [x; y] ++ drop 22 (_Receive_BUF s)).
  { cbn [push_rx set_wire_rx set_Receive_BUF set_Receive_BUF_Length
         _Receive_BUF _Receive_BUF_Length].
    rewrite L2, B2.
    assert (Lp : length (payload gs) = 20%nat) by (rewrite length_payload, Hn; reflexivity).
    destruct (drop 20 (_Receive_BUF s)) as [|d0 [|d1 rest]] eqn:Ed.
    - apply (f_equal length) in Ed. rewrite length_drop in Ed. cbn in Ed. lia.
    - apply (f_equal length) in Ed. rewrite length_drop in Ed. cbn in Ed. lia.
    - assert (Ed2 : drop 22 (_Receive_BUF s) = rest).
      { change 22%nat with (20 + 2)%nat. rewrite <- drop_drop, Ed. reflexivity. }
      rewrite Ed2. rewrite <- Lp at 2. rewrite insert_at_end.
      change (payload gs ++ x :: d1 :: rest) with (payload gs ++ [x] ++ d1 :: rest).
      rewrite app_assoc.
      replace 21%nat with (length (payload gs ++ [x]))
        by (rewrite length_app, Lp; reflexivity).
      rewrite insert_at_end, <- app_assoc. reflexivity. }
  assert (Elen : _Receive_BUF_Length (push_rx y (push_rx x (set_wire_rx [] s2)))
                 = 22%nat).
  { cbn [push_rx set_wire_rx set_Receive_BUF set_Receive_BUF_Length
         _Receive_BUF _Receive_BUF_Length]. rewrite L2. reflexivity. }
  destruct (Nat.eqb_spec 22 count) as [<- | Hne].
  - cbn [Nat.eqb]. split; [reflexivity|]. split; [exact Elen | exact Ebuf].
  - destruct (Nat.eqb_spec count 22) as [-> | _]; [contradiction|].
    split; [reflexivity|]. split; [exact Elen | exact Ebuf].
Qed.

Lemma avr_limit_cuts_long_answers_witness :
  let gs := repeat (0x41, 0x41, 0xF0) 10 in
  let s := fresh [wire gs ++ [0x41; 0x41; 0xF0] ++ repeat 0 13] in
  (exp_cnt true 32 = 32%nat
   /\ (22 <= 32)%nat
   /\ next_answer 32 s = wire gs ++ [0x41; 0x41]
   /\ length gs = 10%nat
   /\ forallb (passes true) gs = true
   /\ (22 <= length (_Receive_BUF s))%nat)
  /\ let (ret, s') := I2C_ReadToBuffer true 32 true s in
     ret = (if (32 =? 22)%nat then SEN55_ERR_OK else SEN55_ERR_DATALENGTH)
     /\ _Receive_BUF_Length s' = 22%nat
     /\ _Receive_BUF s' = payload gs ++ [0x41; 0x41] ++ drop 22 (_Receive_BUF s).
Proof.
  intros gs s. split.
  - vm_compute. repeat split; lia.
  - apply (avr_limit_cuts_long_answers 32 true s gs 0x41 0x41);
      vm_compute; (reflexivity || lia).
Defined.

(** ** Tuning parameters *)

Lemma limit_range x hi lo dflt :
  lo <= dflt <= hi -> lo <= limit x hi lo dflt <= hi.
Proof.
  intros H. unfold limit.
  destruct (Z.ltb_spec hi x), (Z.ltb_spec x lo); cbn [orb]; lia.
Qed.

Lemma limit_id x hi lo dflt : lo <= x <= hi -> limit x hi lo dflt = x.
Proof.
  intros H. unfold limit.
  destruct (Z.ltb_spec hi x), (Z.ltb_spec x lo); cbn [orb]; lia.
Qed.

(** [SetNoxAlgorithm] always succeeds and never writes a value outside
    the ranges it checks: whatever the caller passes, the structure it
    leaves (and puts on the wire) has the index offset in 1..250, the
    learning time offset in 1..1000, the gating duration in 1..3000,
    the gain factor in 1..1000, and the two fixed fields at 12 and 50.
    The four checked fields are kept when they are in range; a gating
    duration of 0 is replaced by 720. *)
Theorem SetNoxAlgorithm_clamps nox s :
  let '(ret, nox', _) := SetNoxAlgorithm nox s in
  ret = SEN55_ERR_OK
  /\ 1 <= IndexOffset nox' <= 250
  /\ 1 <= LearnTimeOffsetHours nox' <= 1000
  /\ LearnTimeGainHours nox' = 12
  /\ 1 <= GateMaxDurationMin nox' <= 3000
  /\ stdInitial nox' = 50
  /\ 1 <= GainFactor nox' <= 1000
  /\ (1 <= IndexOffset nox <= 250 -> IndexOffset nox' = IndexOffset nox)
  /\ (1 <= LearnTimeOffsetHours nox <= 1000 ->
      LearnTimeOffsetHours nox' = LearnTimeOffsetHours nox)
  /\ (1 <= GateMaxDurationMin nox <= 3000 ->
      GateMaxDurationMin nox' = GateMaxDurationMin nox)
  /\ (1 <= GainFactor nox <= 1000 -> GainFactor nox' = GainFactor nox)
  /\ (GateMaxDurationMin nox = 0 -> GateMaxDurationMin nox' = 720).
Proof.
  unfold SetNoxAlgorithm. run_M.
  match goal with |- context [I2C_fill_buffer ?c ?a s] =>
    destruct (I2C_fill_buffer c a s) as [[] s0] eqn:Ef end.
  assert (Hl : _Send_BUF_Length s0 = 20%nat).
  { apply (f_equal snd) in Ef. cbn [snd] in Ef. subst s0. reflexivity. }
  unfold I2C_SetPointer. rewrite Hl. cbn [Nat.eqb fst snd IndexOffset
    LearnTimeOffsetHours LearnTimeGainHours GateMaxDurationMin stdInitial GainFactor].
  repeat split; try (apply limit_range; lia); try (intros H; apply limit_id; exact H).
  intros H. rewrite H. reflexivity.
Qed.

(** [SetVocAlgorithm] checks the gating duration twice: first against
    1..3000 with default 180, then against 10..5000 with default 50, so
    the value written is always in 10..3000 and an input of 1..9
    becomes 50.  The initial standard deviation is written as the
    caller passed it, without any check. *)
Theorem SetVocAlgorithm_clamps voc s :
  let '(ret, voc', _) := SetVocAlgorithm voc s in
  ret = SEN55_ERR_OK
  /\ 1 <= IndexOffset voc' <= 250
  /\ 1 <= LearnTimeOffsetHours voc' <= 1000
  /\ 1 <= LearnTimeGainHours voc' <= 1000
  /\ 10 <= GateMaxDurationMin voc' <= 3000
  /\ 1 <= GainFactor voc' <= 1000
  /\ stdInitial voc' = stdInitial voc
  /\ (10 <= GateMaxDurationMin voc <= 3000 ->
      GateMaxDurationMin voc' = GateMaxDurationMin voc)
  /\ (1 <= GateMaxDurationMin voc < 10 -> GateMaxDurationMin voc' = 50)
  /\ (GateMaxDurationMin voc < 1 \/ 3000 < GateMaxDurationMin voc ->
      GateMaxDurationMin voc' = 180).
Proof.
  unfold SetVocAlgorithm. run_M.
  match goal with |- context [I2C_fill_buffer ?c ?a s] =>
    destruct (I2C_fill_buffer c a s) as [[] s0] eqn:Ef end.
  assert (Hl : _Send_BUF_Length s0 = 20%nat).
  { apply (f_equal snd) in Ef. cbn [snd] in Ef. subst s0. reflexivity. }
  unfold I2C_SetPointer. rewrite Hl. cbn [Nat.eqb fst snd IndexOffset
    LearnTimeOffsetHours LearnTimeGainHours GateMaxDurationMin stdInitial GainFactor].
  split; [reflexivity|].
  split; [apply limit_range; lia|]. split; [apply limit_range; lia|].
  split; [apply limit_range; lia|].
  assert (G : forall g, 10 <= limit (limit g 3000 1 180) 5000 10 50 <= 3000
              /\ (10 <= g <= 3000 -> limit (limit g 3000 1 180) 5000 10 50 = g)
              /\ (1 <= g < 10 -> limit (limit g 3000 1 180) 5000 10 50 = 50)
              /\ (g < 1 \/ 3000 < g -> limit (limit g 3000 1 180) 5000 10 50 = 180)).
  { intros g. unfold limit.
    destruct (Z.ltb_spec 3000 g), (Z.ltb_spec g 1); cbn [orb];
      repeat match goal with
             | |- context [?a <? ?b] => destruct (Z.ltb_spec a b); cbn [orb]
             end; lia. }
  destruct (G (GateMaxDurationMin voc)) as (G1 & G2 & G3 & G4).
  split; [exact G1|]. split; [apply limit_range; lia|].
  split; [reflexivity|]. split; [exact G2|]. split; [exact G3 | exact G4].
Qed.

Lemma SetNoxAlgorithm_clamps_witness :
  let nox := mk_sen_xox 100 2000 7 0 9 230 in
  (1 <= IndexOffset nox <= 250 /\ 1 <= GainFactor nox <= 1000
   /\ GateMaxDurationMin nox = 0)
  /\ let '(_, nox', _) := SetNoxAlgorithm nox (fresh []) in
     IndexOffset nox' = 100 /\ GainFactor nox' = 230 /\ GateMaxDurationMin nox' = 720
     /\ 1 <= LearnTimeOffsetHours nox' <= 1000.
Proof.
  intros nox. split; [cbn; lia|].
  pose proof (SetNoxAlgorithm_clamps nox (fresh [])) as H.
  destruct (SetNoxAlgorithm nox (fresh [])) as [[ret nox'] s'].
  destruct H as (_ & _ & H3 & _ & _ & _ & _ & H8 & _ & _ & H11 & H12).
  split; [apply H8; cbn; lia|]. split; [apply H11; cbn; lia|].
  split; [apply H12; reflexivity | exact H3].
Defined.

Lemma SetVocAlgorithm_clamps_witness :
  let voc := mk_sen_xox 100 12 12 5 (-7) 230 in
  (1 <= GateMaxDurationMin voc < 10)
  /\ let '(_, voc', _) := SetVocAlgorithm voc (fresh []) in
     GateMaxDurationMin voc' = 50 /\ stdInitial voc' = -7.
Proof.
  intros voc. split; [cbn; lia|].
  pose proof (SetVocAlgorithm_clamps voc (fresh [])) as H.
  destruct (SetVocAlgorithm voc (fresh [])) as [[ret voc'] s'].
  destruct H as (_ & _ & _ & _ & _ & _ & H7 & _ & H9 & _).
  split; [apply H9; cbn; lia | exact H7].
Defined.

(** ** Words on the wire and in the buffer *)

Lemma byte_to_int16_t_bytes x s :
  byte_to_int16_t x s
  = int16_of_bytes (rd (_Receive_BUF s) x) (rd (_Receive_BUF s) (x + 1)).
Proof. reflexivity. Qed.

Lemma byte_to_Uint16_t_bytes x s :
  byte_to_Uint16_t x s
  = uint16_of_bytes (rd (_Receive_BUF s) x) (rd (_Receive_BUF s) (x + 1)).
Proof. reflexivity. Qed.

Lemma MSB_LSB_range v : 0 <= MSB v < 256 /\ 0 <= LSB v < 256.
Proof. rewrite MSB_div, LSB_mod. split; apply Z.mod_pos_bound; lia. Qed.

Lemma uint16_of_bytes_split v :
  0 <= v < 65536 -> uint16_of_bytes (MSB v) (LSB v) = v.
Proof.
  intros H. destruct (MSB_LSB_range v) as [Hm Hl].
  rewrite uint16_of_bytes_eq by assumption. rewrite MSB_div, LSB_mod.
  Z.div_mod_to_equations. lia.
Qed.

(** A 16-bit value split in two bytes by the send side ([x >> 8 & 0xff]
    and [x & 0xff]) is assembled again by the receive side: as the
    same signed value by [byte_to_int16_t], as the same unsigned value
    by [byte_to_Uint16_t]. *)
Theorem word_round_trip x v s :
  rd (_Receive_BUF s) x = MSB v ->
  rd (_Receive_BUF s) (x + 1) = LSB v ->
  (-32768 <= v < 32768 -> byte_to_int16_t x s = v)
  /\ (0 <= v < 65536 -> byte_to_Uint16_t x s = v).
Proof.
  intros H0 H1. rewrite byte_to_int16_t_bytes, byte_to_Uint16_t_bytes, H0, H1.
  split; intros H; [apply int16_of_bytes_split | apply uint16_of_bytes_split]; exact H.
Qed.

Lemma word_round_trip_witness :
  let s := new_SEN55 [0xFE; 0x0C] [] 0 0 [] in
  (rd (_Receive_BUF s) 0 = MSB (-500) /\ rd (_Receive_BUF s) (0 + 1) = LSB (-500)
   /\ -32768 <= -500 < 32768)
  /\ byte_to_int16_t 0 s = -500.
Proof.
  intros s. split; [repeat split; vm_compute; (reflexivity || discriminate)|].
  apply (word_round_trip 0 (-500) s); [reflexivity | reflexivity | lia].
Defined.

(** The other way round: two bytes assembled by [byte_to_int16_t] give
    a value in the [int16_t] range whose two bytes on the send side are
    the ones received. *)
Theorem bytes_round_trip x s :
  0 <= rd (_Receive_BUF s) x < 256 ->
  0 <= rd (_Receive_BUF s) (x + 1) < 256 ->
  -32768 <= byte_to_int16_t x s < 32768
  /\ MSB (byte_to_int16_t x s) = rd (_Receive_BUF s) x
  /\ LSB (byte_to_int16_t x s) = rd (_Receive_BUF s) (x + 1)
  /\ 0 <= byte_to_Uint16_t x s < 65536
  /\ MSB (byte_to_Uint16_t x s) = rd (_Receive_BUF s) x
  /\ LSB (byte_to_Uint16_t x s) = rd (_Receive_BUF s) (x + 1).
Proof.
  intros H0 H1. rewrite byte_to_int16_t_bytes, byte_to_Uint16_t_bytes.
  destruct (split_int16_of_bytes _ _ H0 H1) as [E1 E2].
  destruct (split_uint16_of_bytes _ _ H0 H1) as [E3 E4].
  split; [apply int16_of_bytes_range; assumption|].
  split; [exact E1|]. split; [exact E2|].
  split; [rewrite uint16_of_bytes_eq by assumption; lia|].
  split; [exact E3 | exact E4].
Qed.

Lemma bytes_round_trip_witness :
  let s := new_SEN55 [0xFE; 0x0C] [] 0 0 [] in
  (0 <= rd (_Receive_BUF s) 0 < 256 /\ 0 <= rd (_Receive_BUF s) (0 + 1) < 256)
  /\ -32768 <= byte_to_int16_t 0 s < 32768
  /\ MSB (byte_to_int16_t 0 s) = rd (_Receive_BUF s) 0
  /\ LSB (byte_to_int16_t 0 s) = rd (_Receive_BUF s) (0 + 1)
  /\ 0 <= byte_to_Uint16_t 0 s < 65536
  /\ MSB (byte_to_Uint16_t 0 s) = rd (_Receive_BUF s) 0
  /\ LSB (byte_to_Uint16_t 0 s) = rd (_Receive_BUF s) (0 + 1).
Proof.
  intros s. split; [repeat split; vm_compute; (reflexivity || discriminate)|].
  apply (bytes_round_trip 0 s); split; vm_compute; (reflexivity || discriminate).
Defined.

Lemma byte_to_U32_bytes x s :
  byte_to_U32 x s
  = rd (_Receive_BUF s) (x + 3) + Z.shiftl (rd (_Receive_BUF s) (x + 2)) 8
    + Z.shiftl (rd (_Receive_BUF s) (x + 1)) 16
    + Z.shiftl (rd (_Receive_BUF s) (x + 0)) 24.
Proof. reflexivity. Qed.

(** The four bytes of an auto-clean interval as the send side lays them
    out (most significant first) are assembled to the same 32-bit value
    by [byte_to_U32]. *)
Theorem interval_round_trip v s rest :
  0 <= v < 4294967296 ->
  _Receive_BUF s
  = [Z.land (Z.shiftr v 24) 0xff; Z.land (Z.shiftr v 16) 0xff;
     Z.land (Z.shiftr v 8) 0xff; Z.land v 0xff] ++ rest ->
  byte_to_U32 0 s = v.
Proof.
  intros Hv Hb. rewrite byte_to_U32_bytes, Hb. cbn [Nat.add app].
  rewrite !rd_cons_S, !rd_cons_0.
  change 0xff with (Z.ones 8). rewrite !Z.land_ones by lia.
  rewrite !Z.shiftr_div_pow2, !Z.shiftl_mul_pow2 by lia.
  change (2 ^ 8) with 256. change (2 ^ 16) with 65536. change (2 ^ 24) with 16777216.
  Z.div_mod_to_equations. lia.
Qed.

Lemma interval_round_trip_witness :
  let s := new_SEN55 [0x00; 0x09; 0x3A; 0x80; 0x55] [] 0 0 [] in
  (0 <= 604800 < 4294967296
   /\ _Receive_BUF s
      = [Z.land (Z.shiftr 604800 24) 0xff; Z.land (Z.shiftr 604800 16) 0xff;
         Z.land (Z.shiftr 604800 8) 0xff; Z.land 604800 0xff] ++ [0x55])
  /\ byte_to_U32 0 s = 604800.
Proof.
  intros s. split; [split; [lia | reflexivity]|].
  apply (interval_round_trip 604800 s [0x55]); [lia | reflexivity].
Defined.

(** ** What the checksum detects *)

(** the eight shifts of [I2C_calc_CRC] for one byte *)
Definition crc_shifts (x : Z) : Z := Nat.iter 8 crc_bit x.

Definition all_bytes : list Z := map Z.of_nat (seq 0 256).

Lemma in_all_bytes x : 0 <= x < 256 -> In x all_bytes.
Proof.
  intros H. unfold all_bytes. rewrite <- (Z2Nat.id x) by lia.
  apply in_map, in_seq. lia.
Qed.

(** the byte the eight shifts started from, found by search *)
Definition crc_unshift (y : Z) : Z :=
  default 0 (List.find (fun x => crc_shifts x =? y) all_bytes).

Lemma crc_unshift_shifts x : 0 <= x < 256 -> crc_unshift (crc_shifts x) = x.
Proof.
  intros H.
  assert (A : forallb (fun x => crc_unshift (crc_shifts x) =? x) all_bytes = true)
    by (vm_compute; reflexivity).
  apply Z.eqb_eq. apply (proj1 (forallb_forall _ _) A). apply in_all_bytes, H.
Qed.

Lemma lxor_byte c d : 0 <= c < 256 -> 0 <= d < 256 -> 0 <= Z.lxor c d < 256.
Proof.
  intros Hc Hd.
  assert (E : Z.lxor c d = Z.lxor c d mod 2 ^ 8).
  { apply Z.bits_inj'. intros n Hn. destruct (Z.ltb_spec n 8).
    - rewrite Z.mod_pow2_bits_low by lia. reflexivity.
    - rewrite Z.mod_pow2_bits_high by lia. rewrite Z.lxor_spec.
      replace c with (c mod 2 ^ 8) by (apply Z.mod_small; lia).
      replace d with (d mod 2 ^ 8) by (apply Z.mod_small; lia).
      rewrite !Z.mod_pow2_bits_high by lia. reflexivity. }
  rewrite E. apply Z.mod_pos_bound. lia.
Qed.

Lemma lxor_cancel_l c d d' : Z.lxor c d = Z.lxor c d' -> d = d'.
Proof.
  intros H. rewrite <- (Z.lxor_0_l d), <- (Z.lxor_0_l d'), <- (Z.lxor_nilpotent c).
  rewrite !Z.lxor_assoc, H. reflexivity.
Qed.

Lemma crc_byte_inj_data c d d' :
  0 <= c < 256 -> 0 <= d < 256 -> 0 <= d' < 256 ->
  crc_byte c d = crc_byte c d' -> d = d'.
Proof.
  intros Hc Hd Hd' H. unfold crc_byte, to_uint8 in H.
  pose proof (lxor_byte c d Hc Hd) as R. pose proof (lxor_byte c d' Hc Hd') as R'.
  rewrite !Z.mod_small in H by assumption.
  fold (crc_shifts (Z.lxor c d)) in H. fold (crc_shifts (Z.lxor c d')) in H.
  apply (f_equal crc_unshift) in H. rewrite !crc_unshift_shifts in H by assumption.
  exact (lxor_cancel_l c d d' H).
Qed.

Lemma crc_byte_inj_state c c' d :
  0 <= c < 256 -> 0 <= c' < 256 -> 0 <= d < 256 ->
  crc_byte c d = crc_byte c' d -> c = c'.
Proof.
  intros Hc Hc' Hd H. unfold crc_byte, to_uint8 in H.
  pose proof (lxor_byte c d Hc Hd) as R. pose proof (lxor_byte c' d Hc' Hd) as R'.
  rewrite !Z.mod_small in H by assumption.
  fold (crc_shifts (Z.lxor c d)) in H. fold (crc_shifts (Z.lxor c' d)) in H.
  apply (f_equal crc_unshift) in H. rewrite !crc_unshift_shifts in H by assumption.
  rewrite (Z.lxor_comm c d), (Z.lxor_comm c' d) in H.
  exact (lxor_cancel_l d c c' H).
Qed.

(** The checksum tells apart any two words that differ in one byte
    only; so a received group that differs from a valid group in
    exactly one of its three bytes never passes the check. *)
Theorem one_corrupted_byte_is_detected a b c a' b' c' :
  0 <= a < 256 -> 0 <= b < 256 -> 0 <= a' < 256 -> 0 <= b' < 256 ->
  group_ok (a, b, c) = true ->
  (a' <> a /\ b' = b /\ c' = c) \/ (a' = a /\ b' <> b /\ c' = c)
  \/ (a' = a /\ b' = b /\ c' <> c) ->
  group_ok (a', b', c') = false.
Proof.
  intros Ha Hb Ha' Hb' Hok Hdiff. unfold group_ok in *.
  apply Z.eqb_eq in Hok. apply Z.eqb_neq. rewrite I2C_calc_CRC_eq in *.
  assert (S0 : 0 <= 0xFF < 256) by lia.
  destruct Hdiff as [(Hn & -> & ->) | [(-> & Hn & ->) | (-> & -> & Hn)]].
  - intros E. apply Hn. rewrite Hok in E.
    apply crc_byte_inj_state in E; try apply crc_byte_range; try assumption.
    apply crc_byte_inj_data in E; try assumption. congruence.
  - intros E. apply Hn. rewrite Hok in E.
    apply crc_byte_inj_data in E; try apply crc_byte_range; try assumption.
    congruence.
  - congruence.
Qed.

Lemma one_corrupted_byte_is_detected_witness :
  (0 <= 0xBE < 256 /\ 0 <= 0xEF < 256 /\ 0 <= 0xBF < 256
   /\ group_ok (0xBE, 0xEF, 0x92) = true /\ 0xBF <> 0xBE)
  /\ group_ok (0xBF, 0xEF, 0x92) = false.
Proof.
  split; [repeat split; try lia; vm_compute; (reflexivity || discriminate)|].
  apply (one_corrupted_byte_is_detected 0xBE 0xEF 0x92 0xBF 0xEF 0x92); try lia.
  vm_compute. reflexivity.
Defined.

(** ** Tuning parameters: what is written is what is read back *)

(** the six payload words of a tuning structure on the wire *)
Definition xox_groups (n : sen_xox) : list group :=
  map (fun f => (MSB f, LSB f, I2C_calc_CRC (MSB f) (LSB f)))
    [IndexOffset n; LearnTimeOffsetHours n; LearnTimeGainHours n;
     GateMaxDurationMin n; stdInitial n; GainFactor n].

Definition int16_fields (n : sen_xox) : Prop :=
  -32768 <= IndexOffset n < 32768 /\ -32768 <= LearnTimeOffsetHours n < 32768
  /\ -32768 <= LearnTimeGainHours n < 32768 /\ -32768 <= GateMaxDurationMin n < 32768
  /\ -32768 <= stdInitial n < 32768 /\ -32768 <= GainFactor n < 32768.

Lemma exp_cnt_12 avr : exp_cnt avr 12 = 18%nat.
Proof. destruct avr; reflexivity. Qed.

Lemma xox_groups_pass n : forallb (passes false) (xox_groups n) = true.
Proof.
  unfold xox_groups, passes, group_ok. cbn [map forallb andb negb].
  rewrite !Z.eqb_refl. reflexivity.
Qed.

(** A receive buffer that starts with the twelve bytes of a tuning
    structure decodes to that structure. *)
Lemma read_xox_payload n s rest :
  int16_fields n ->
  _Receive_BUF s = payload (xox_groups n) ++ rest ->
  read_xox s = n.
Proof.
  intros Hr Hb. destruct Hr as (? & ? & ? & ? & ? & ?).
  unfold read_xox. rewrite !byte_to_int16_t_bytes, Hb.
  cbn [xox_groups map payload flat_map app Nat.add].
  rewrite !rd_cons_S, !rd_cons_0.
  rewrite !int16_of_bytes_split by assumption.
  destruct n; reflexivity.
Qed.

Lemma tuning_read_decodes avr cmd s n rest :
  cmd = SEN55_NOX_TUNING \/ cmd = SEN55_VOC_TUNING ->
  int16_fields n ->
  device s = wire (xox_groups n) :: rest ->
  length (_Receive_BUF s) = MAXBUFLENGTH ->
  exists s1,
    I2C_ReadToBuffer avr 12 false (commanded cmd s) = (SEN55_ERR_OK, s1)
    /\ read_xox s1 = n.
Proof.
  intros Hcmd Hr Hdev Hlen.
  assert (Ed : device (commanded cmd s) = device s
               /\ _Receive_BUF (commanded cmd s) = _Receive_BUF s).
  { destruct Hcmd as [-> | ->]; split; reflexivity. }
  destruct Ed as [Ed Eb].
  destruct (I2C_ReadToBuffer_valid_buf avr 12 false (commanded cmd s) (xox_groups n))
    as (s1 & E & Hb & _).
  - unfold next_answer. rewrite Ed, Hdev, exp_cnt_12.
    apply take_ge. rewrite length_wire. unfold xox_groups. cbn [map length]. lia.
  - rewrite exp_cnt_12. reflexivity.
  - apply xox_groups_pass.
  - reflexivity.
  - lia.
  - rewrite Eb, Hlen. unfold MAXBUFLENGTH. lia.
  - exists s1. split; [exact E|].
    apply (read_xox_payload n s1 _ Hr Hb).
Qed.

Lemma GetNoxAlgorithm_unfold avr old s :
  GetNoxAlgorithm avr old s =
  let (ret, s1) := I2C_ReadToBuffer avr 12 false (commanded SEN55_NOX_TUNING s) in
  (ret, read_xox s1, s1).
Proof. reflexivity. Qed.

Lemma GetVocAlgorithm_unfold avr old s :
  GetVocAlgorithm avr old s =
  let (ret, s1) := I2C_ReadToBuffer avr 12 false (commanded SEN55_VOC_TUNING s) in
  (ret, read_xox s1, s1).
Proof. reflexivity. Qed.


Lemma SetNoxAlgorithm_clamps_eq nox s :
  let '(_, nox', s') := SetNoxAlgorithm nox s in
  last_frame s' = Some ([0x60; 0xE1] ++ wire (xox_groups nox'))
  /\ int16_fields nox'.
Proof.
  unfold SetNoxAlgorithm. run_M. cbn -[last_frame limit wire xox_groups int16_fields].
  rewrite last_frame_log_write. split; [reflexivity|].
  unfold int16_fields.
  cbn [IndexOffset LearnTimeOffsetHours LearnTimeGainHours GateMaxDurationMin
       stdInitial GainFactor].
  pose proof (limit_range (IndexOffset nox) 250 1 1 ltac:(lia)).
  pose proof (limit_range (LearnTimeOffsetHours nox) 1000 1 12 ltac:(lia)).
  pose proof (limit_range (GateMaxDurationMin nox) 3000 1 720 ltac:(lia)).
  pose proof (limit_range (GainFactor nox) 1000 1 230 ltac:(lia)).
  repeat split; lia.
Qed.

Lemma SetVocAlgorithm_clamps_eq voc s :
  -32768 <= stdInitial voc < 32768 ->
  let '(_, voc', s') := SetVocAlgorithm voc s in
  last_frame s' = Some ([0x60; 0xD0] ++ wire (xox_groups voc'))
  /\ int16_fields voc'.
Proof.
  intros Hstd.
  unfold SetVocAlgorithm. run_M. cbn -[last_frame limit wire xox_groups int16_fields].
  rewrite last_frame_log_write. split; [reflexivity|].
  unfold int16_fields.
  cbn [IndexOffset LearnTimeOffsetHours LearnTimeGainHours GateMaxDurationMin
       stdInitial GainFactor].
  pose proof (limit_range (IndexOffset voc) 250 1 100 ltac:(lia)).
  pose proof (limit_range (LearnTimeOffsetHours voc) 1000 1 12 ltac:(lia)).
  pose proof (limit_range (LearnTimeGainHours voc) 1000 1 12 ltac:(lia)).
  pose proof (limit_range (limit (GateMaxDurationMin voc) 3000 1 180) 5000 10 50
                ltac:(lia)).
  pose proof (limit_range (GainFactor voc) 1000 1 230 ltac:(lia)).
  repeat split; lia.
Qed.

(** Round trip of the tuning parameters: the frame [SetNoxAlgorithm]
    (or [SetVocAlgorithm]) writes holds the six fields of the structure
    it leaves to the caller, in the order index offset, learning time
    offset, learning time gain, gating duration, initial standard
    deviation, gain factor; and when the device answers the matching
    read with those same six words, [GetNoxAlgorithm] (or
    [GetVocAlgorithm]) returns that structure.  For the VOC parameters
    the unchecked initial standard deviation must be an [int16_t]
    value. *)
Theorem tuning_round_trip avr old s0 s rest :
  length (_Receive_BUF s) = MAXBUFLENGTH ->
  (forall nox,
     let '(_, nox', s0') := SetNoxAlgorithm nox s0 in
     last_frame s0' = Some ([0x60; 0xE1] ++ wire (xox_groups nox'))
     /\ (device s = wire (xox_groups nox') :: rest ->
         fst (GetNoxAlgorithm avr old s) = (SEN55_ERR_OK, nox')))
  /\ (forall voc,
        -32768 <= stdInitial voc < 32768 ->
        let '(_, voc', s0') := SetVocAlgorithm voc s0 in
        last_frame s0' = Some ([0x60; 0xD0] ++ wire (xox_groups voc'))
        /\ (device s = wire (xox_groups voc') :: rest ->
            fst (GetVocAlgorithm avr old s) = (SEN55_ERR_OK, voc'))).
Proof.
  intros Hlen. split.
  - intros nox.
    pose proof (SetNoxAlgorithm_clamps_eq nox s0) as H.
    destruct (SetNoxAlgorithm nox s0) as [[ret nox'] s0'].
    destruct H as (Hf & Hr). split; [exact Hf|].
    intros Hdev. rewrite GetNoxAlgorithm_unfold.
    destruct (tuning_read_decodes avr SEN55_NOX_TUNING s nox' rest
                (or_introl eq_refl) Hr Hdev Hlen) as (s1 & E & Hx).
    rewrite E. cbn [fst]. rewrite Hx. reflexivity.
  - intros voc Hstd.
    pose proof (SetVocAlgorithm_clamps_eq voc s0 Hstd) as H.
    destruct (SetVocAlgorithm voc s0) as [[ret voc'] s0'].
    destruct H as (Hf & Hr). split; [exact Hf|].
    intros Hdev. rewrite GetVocAlgorithm_unfold.
    destruct (tuning_read_decodes avr SEN55_VOC_TUNING s voc' rest
                (or_intror eq_refl) Hr Hdev Hlen) as (s1 & E & Hx).
    rewrite E. cbn [fst]. rewrite Hx. reflexivity.
Qed.

Lemma tuning_round_trip_witness :
  let nox := mk_sen_xox 0 0 0 0 0 0 in
  let nox' := mk_sen_xox 1 12 12 720 50 230 in
  let s := fresh [wire (xox_groups nox')] in
  (length (_Receive_BUF s) = MAXBUFLENGTH
   /\ snd (fst (SetNoxAlgorithm nox (fresh []))) = nox'
   /\ device s = wire (xox_groups nox') :: [])
  /\ fst (GetNoxAlgorithm true nox s) = (SEN55_ERR_OK, nox').
Proof.
  intros nox nox' s.
  assert (Hlen : length (_Receive_BUF s) = MAXBUFLENGTH) by reflexivity.
  assert (Hset : snd (fst (SetNoxAlgorithm nox (fresh []))) = nox') by reflexivity.
  split; [repeat split|].
  pose proof (proj1 (tuning_round_trip true nox (fresh []) s [] Hlen) nox) as H.
  destruct (SetNoxAlgorithm nox (fresh [])) as [[r n'] s0'].
  cbn [fst snd] in Hset. subst n'. apply H. reflexivity.
Defined.

(** ** Serial number and product name *)

Lemma copy_info_zero buf : forall k n i l1 l2,
  length l1 = i -> (n <= length l2)%nat -> (k < n)%nat ->
  rd buf (i + k) = 0 -> (forall j, (j < k)%nat -> rd buf (i + j) <> 0) ->
  copy_info buf n i (l1 ++ l2)
  = l1 ++ map (rd buf) (seq i (S k)) ++ drop (S k) l2.
Proof.
  induction k as [|k IH]; intros n i l1 l2 Hl Hn Hk Hz Hnz;
    (destruct n as [|n]; [lia|]); (destruct l2 as [|y l2]; [cbn in Hn; lia|]);
    cbn [copy_info]; rewrite <- Hl, insert_at_end, Hl.
  - rewrite Nat.add_0_r in Hz. rewrite Hz. cbn. rewrite ?Hz. reflexivity.
  - assert (Hi : rd buf i <> 0) by (rewrite <- (Nat.add_0_r i); apply Hnz; lia).
    apply Z.eqb_neq in Hi. rewrite Hi.
    change (l1 ++ rd buf i :: l2) with (l1 ++ [rd buf i] ++ l2). rewrite app_assoc.
    rewrite (IH n (S i) (l1 ++ [rd buf i]) l2).
    + rewrite <- app_assoc. reflexivity.
    + rewrite length_app, Hl. cbn. lia.
    + cbn in Hn. lia.
    + lia.
    + rewrite <- Hz. f_equal. lia.
    + intros j Hj. replace (S i + j)%nat with (i + S j)%nat by lia. apply Hnz. lia.
Qed.

Lemma copy_info_full buf : forall n i l1 l2,
  length l1 = i -> (n <= length l2)%nat ->
  (forall j, (j < n)%nat -> rd buf (i + j) <> 0) ->
  copy_info buf n i (l1 ++ l2) = l1 ++ map (rd buf) (seq i n) ++ drop n l2.
Proof.
  induction n as [|n IH]; intros i l1 l2 Hl Hn Hnz; [reflexivity|].
  destruct l2 as [|y l2]; [cbn in Hn; lia|].
  cbn [copy_info]. rewrite <- Hl, insert_at_end, Hl.
  assert (Hi : rd buf i <> 0) by (rewrite <- (Nat.add_0_r i); apply Hnz; lia).
  apply Z.eqb_neq in Hi. rewrite Hi.
  change (l1 ++ rd buf i :: l2) with (l1 ++ [rd buf i] ++ l2). rewrite app_assoc.
  rewrite (IH (S i) (l1 ++ [rd buf i]) l2).
  - rewrite <- app_assoc. reflexivity.
  - rewrite length_app, Hl. cbn. lia.
  - cbn in Hn. lia.
  - intros j Hj. replace (S i + j)%nat with (i + S j)%nat by lia. apply Hnz. lia.
Qed.

Lemma Get_Device_info_unfold avr type ser len s :
  Get_Device_info avr type ser len s =
  if (type =? SEN55_READ_SERIAL_NUMBER) || (type =? SEN55_READ_PRODUCT_NAME) then
    let (ret, s') := I2C_SetPointer_Read avr len true
                       (snd (I2C_fill_buffer type ArgNull s)) in
    if ret =? SEN55_ERR_OK then (ret, copy_info (_Receive_BUF s') len 0 ser, s')
    else (ret, ser, s')
  else (SEN55_ERR_PARAMETER, ser, s).
Proof.
  unfold Get_Device_info. run_M.
  destruct ((type =? SEN55_READ_SERIAL_NUMBER) || (type =? SEN55_READ_PRODUCT_NAME)).
  - destruct (I2C_fill_buffer type ArgNull s) as [[] s0]. cbn [snd].
    destruct (I2C_SetPointer_Read avr len true s0) as [ret s'].
    destruct (ret =? SEN55_ERR_OK); reflexivity.
  - reflexivity.
Qed.

(** What [Get_Device_info] leaves in the caller's buffer.  On failure
    the buffer is untouched.  On success the bytes of the receive
    buffer are copied up to and including the first zero byte, and the
    rest of the caller's buffer is left alone; if there is no zero
    among the first [len] bytes, exactly [len] bytes are copied and no
    terminator is stored. *)
Theorem Get_Device_info_copies avr type ser len s :
  (len <= length ser)%nat ->
  let '(ret, ser', s') := Get_Device_info avr type ser len s in
  let buf := _Receive_BUF s' in
  (ret <> SEN55_ERR_OK -> ser' = ser)
  /\ (ret = SEN55_ERR_OK ->
      (forall k, (k < len)%nat -> rd buf k = 0 ->
                 (forall j, (j < k)%nat -> rd buf j <> 0) ->
                 ser' = map (rd buf) (seq 0 (S k)) ++ drop (S k) ser)
      /\ ((forall j, (j < len)%nat -> rd buf j <> 0) ->
          ser' = map (rd buf) (seq 0 len) ++ drop len ser)).
Proof.
  intros Hlen. rewrite Get_Device_info_unfold.
  destruct (_ || _).
  - destruct (I2C_SetPointer_Read _ _ _ _) as [ret s'].
    destruct (Z.eqb_spec ret SEN55_ERR_OK) as [-> | Hne]; cbv zeta.
    + split; [intros H; contradiction|]. intros _. split.
      * intros k Hk Hz Hnz.
        apply (copy_info_zero (_Receive_BUF s') k len 0 [] ser); auto.
      * intros Hnz.
        apply (copy_info_full (_Receive_BUF s') len 0 [] ser); auto.
    + split; [reflexivity | intros H; contradiction].
  - cbv zeta. split; [reflexivity | intros H; discriminate H].
Qed.

Lemma Get_Device_info_copies_witness :
  let s := fresh [[0x53; 0x45; 0x83; 0; 0; 0x81; 0x4E; 0x35; 0xFF]] in
  let ser := repeat 0x2A 8 in
  let r := Get_Device_info false SEN55_READ_SERIAL_NUMBER ser 6 s in
  ((6 <= length ser)%nat /\ fst (fst r) = SEN55_ERR_OK
   /\ rd (_Receive_BUF (snd r)) 2 = 0
   /\ forall j, (j < 2)%nat -> rd (_Receive_BUF (snd r)) j <> 0)
  /\ snd (fst r) = map (rd (_Receive_BUF (snd r))) (seq 0 3) ++ drop 3 ser
  /\ snd (fst r) = [0x53; 0x45; 0; 0x2A; 0x2A; 0x2A; 0x2A; 0x2A].
Proof.
  intros s ser r.
  assert (Hlen : (6 <= length ser)%nat) by (cbn; lia).
  assert (Hok : fst (fst r) = SEN55_ERR_OK) by (vm_compute; reflexivity).
  assert (Hz : rd (_Receive_BUF (snd r)) 2 = 0) by (vm_compute; reflexivity).
  assert (Hnz : forall j, (j < 2)%nat -> rd (_Receive_BUF (snd r)) j <> 0).
  { intros j Hj. destruct j as [|[|j]]; [vm_compute; discriminate .. | lia]. }
  split; [repeat split; assumption|].
  split; [|vm_compute; reflexivity].
  pose proof (Get_Device_info_copies false SEN55_READ_SERIAL_NUMBER ser 6 s Hlen) as H.
  fold r in H. destruct r as [[ret ser'] s']. cbn [fst snd] in *.
  destruct H as [_ H]. destruct (H Hok) as [H1 _].
  apply (H1 2%nat); [lia | exact Hz | exact Hnz].
Defined.

(** ** Measurements *)





(** ** Data-ready flag, particle values, VOC algorithm state *)

Lemma Check_data_ready_unfold avr s :
  Check_data_ready avr s =
  let (ret, s1) := I2C_ReadToBuffer avr 2 false
                     (commanded SEN55_READ_DATA_RDY_FLAG s) in
  (if ret =? SEN55_ERR_OK then rd (_Receive_BUF s1) 1 =? 1 else false, s1).
Proof.
  unfold Check_data_ready, commanded, I2C_SetPointer_Read. run_M.
  cbn -[I2C_ReadToBuffer].
  destruct (I2C_ReadToBuffer _ _ _ _) as [ret s1].
  destruct (ret =? SEN55_ERR_OK); reflexivity.
Qed.

Lemma commanded_READ_DATA_RDY_FLAG s :
  device (commanded SEN55_READ_DATA_RDY_FLAG s) = device s
  /\ _Receive_BUF (commanded SEN55_READ_DATA_RDY_FLAG s) = _Receive_BUF s.
Proof. split; reflexivity. Qed.

(** [Check_data_ready] reports data exactly when the three bytes of
    the answer carry a right checksum and the second byte is 1; the
    first byte is not looked at, and an answer with a wrong checksum
    gives [false] whatever its flag byte says. *)
Theorem Check_data_ready_flag avr s a b c rest :
  device s = [a; b; c] :: rest ->
  (2 <= length (_Receive_BUF s))%nat ->
  fst (Check_data_ready avr s) = (c =? I2C_calc_CRC a b) && (b =? 1).
Proof.
  intros Hdev Hlen. rewrite Check_data_ready_unfold.
  destruct (commanded_READ_DATA_RDY_FLAG s) as [Ed Eb].
  assert (Hn : next_answer (exp_cnt avr 2) (commanded SEN55_READ_DATA_RDY_FLAG s)
               = [a; b; c]).
  { unfold next_answer. rewrite Ed, Hdev. destruct avr; reflexivity. }
  destruct (c =? I2C_calc_CRC a b) eqn:Hc.
  - destruct (I2C_ReadToBuffer_valid_buf avr 2 false
                (commanded SEN55_READ_DATA_RDY_FLAG s) [(a, b, c)])
      as (s1 & E & Hb & _).
    + exact Hn.
    + destruct avr; reflexivity.
    + unfold passes, group_ok. cbn [forallb andb negb]. rewrite Hc. reflexivity.
    + reflexivity.
    + lia.
    + rewrite Eb. exact Hlen.
    + rewrite E. change (SEN55_ERR_OK =? SEN55_ERR_OK) with true. cbv iota.
      cbn [fst andb]. rewrite Hb. cbn [payload flat_map app].
      rewrite rd_cons_S, rd_cons_0. reflexivity.
  - pose proof (I2C_ReadToBuffer_first_bad avr 2 false
                  (commanded SEN55_READ_DATA_RDY_FLAG s) [] a b c [] Hn eq_refl Hc) as H.
    destruct (I2C_ReadToBuffer _ _ _ _) as [ret s1]. destruct H as [-> _].
    reflexivity.
Qed.

Lemma Check_data_ready_flag_witness :
  let s := fresh [[0x00; 0x01; 0xB0]] in
  (device s = [0x00; 0x01; 0xB0] :: [] /\ (2 <= length (_Receive_BUF s))%nat)
  /\ fst (Check_data_ready false s) = (0xB0 =? I2C_calc_CRC 0x00 0x01) && (1 =? 1)
  /\ fst (Check_data_ready false s) = true.
Proof.
  intros s. split; [split; [reflexivity | cbn; lia]|].
  split; [|vm_compute; reflexivity].
  apply (Check_data_ready_flag false s 0x00 0x01 0xB0 []); [reflexivity | cbn; lia].
Defined.




Lemma GetVocAlgorithmState_unfold avr table tablesize s :
  (VOC_ALO_SIZE <= tablesize)%nat ->
  GetVocAlgorithmState avr table tablesize s =
  let (ret, s1) := I2C_ReadToBuffer avr 8 false (commanded SEN55_VOC_ALGO s) in
  (ret,
   fold_left (fun t i => <[i := rd (_Receive_BUF s1) i]> t) (seq 0 VOC_ALO_SIZE) table,
   s1).
Proof.
  intros H. apply Nat.ltb_ge in H.
  unfold GetVocAlgorithmState. rewrite H.
  unfold commanded, I2C_SetPointer_Read. run_M.
  cbn -[I2C_ReadToBuffer].
  destruct (I2C_ReadToBuffer _ _ _ _) as [ret s1]. reflexivity.
Qed.

Lemma commanded_VOC_ALGO s :
  device (commanded SEN55_VOC_ALGO s) = device s
  /\ _Receive_BUF (commanded SEN55_VOC_ALGO s) = _Receive_BUF s.
Proof. split; reflexivity. Qed.

(** With a table of at least [VOC_ALO_SIZE] bytes, a valid answer of
    four words to the VOC state read is copied to the first eight bytes
    of the table, data bytes only and in order; the rest of the table
    is left alone. *)
Theorem GetVocAlgorithmState_copies avr table tablesize s gs rest :
  (VOC_ALO_SIZE <= tablesize)%nat ->
  (VOC_ALO_SIZE <= length table)%nat ->
  device s = wire gs :: rest ->
  length gs = 4%nat ->
  forallb group_ok gs = true ->
  length (_Receive_BUF s) = MAXBUFLENGTH ->
  fst (GetVocAlgorithmState avr table tablesize s)
  = (SEN55_ERR_OK, payload gs ++ drop VOC_ALO_SIZE table).
Proof.
  intros Hts Hlt Hdev Hn Hok Hlen.
  rewrite GetVocAlgorithmState_unfold by exact Hts.
  destruct (commanded_VOC_ALGO s) as [Ed Eb].
  assert (Hpass : forallb (passes false) gs = true).
  { apply forallb_forall. intros g Hg. unfold passes.
    rewrite (proj1 (forallb_forall _ _) Hok g Hg). reflexivity. }
  destruct (I2C_ReadToBuffer_valid_buf avr 8 false (commanded SEN55_VOC_ALGO s) gs)
    as (s1 & E & Hb & _).
  - unfold next_answer. rewrite Ed, Hdev.
    replace (exp_cnt avr 8) with 12%nat by (destruct avr; reflexivity).
    apply take_ge. rewrite length_wire, Hn. lia.
  - rewrite Hn. destruct avr; reflexivity.
  - exact Hpass.
  - rewrite Hn. reflexivity.
  - lia.
  - rewrite Eb, Hlen. unfold MAXBUFLENGTH. lia.
  - rewrite E. cbn [fst]. f_equal. rewrite Hb.
    destruct gs as [|[[a0 b0] c0] [|[[a1 b1] c1] [|[[a2 b2] c2] [|[[a3 b3] c3] [|]]]]];
      try discriminate Hn.
    unfold VOC_ALO_SIZE in *.
    destruct table as [|t0 [|t1 [|t2 [|t3 [|t4 [|t5 [|t6 [|t7 tl]]]]]]]];
      cbn [length] in Hlt; try lia.
    cbn [payload flat_map app seq fold_left].
    rewrite !rd_cons_S, !rd_cons_0. reflexivity.
Qed.

Lemma GetVocAlgorithmState_copies_witness :
  let gs := [(0x01, 0x02, 0x17); (0x02, 0x03, 0x0B); (0x00, 0x00, 0x81);
             (0x41, 0x41, 0xF0)] in
  let s := fresh [wire gs] in
  let table := repeat 0xEE 10 in
  ((VOC_ALO_SIZE <= 10)%nat /\ (VOC_ALO_SIZE <= length table)%nat
   /\ device s = wire gs :: [] /\ length gs = 4%nat
   /\ forallb group_ok gs = true /\ length (_Receive_BUF s) = MAXBUFLENGTH)
  /\ fst (GetVocAlgorithmState false table 10 s)
     = (SEN55_ERR_OK, [0x01; 0x02; 0x02; 0x03; 0x00; 0x00; 0x41; 0x41; 0xEE; 0xEE]).
Proof.
  intros gs s table.
  assert (H1 : (VOC_ALO_SIZE <= 10)%nat) by (unfold VOC_ALO_SIZE; lia).
  assert (H2 : (VOC_ALO_SIZE <= length table)%nat) by (cbn; unfold VOC_ALO_SIZE; lia).
  split; [repeat split; try assumption; vm_compute; reflexivity|].
  apply (GetVocAlgorithmState_copies false table 10 s gs []); try assumption;
    vm_compute; reflexivity.
Defined.
